(** * stock-analyzer: the cache-backed data-refresh pipeline

    A shallow embedding of [src/cloud_storage.py], [src/utils.py] and
    [src/main.py], and the properties of the pipeline stated over it.

    Modelling conventions.
    - A pandas [float64] is an exact rational or one of the IEEE special
      values (+inf, -inf, NaN): binary rounding error and the sign of zero
      are not modelled.
    - A [datetime] is an integer number of microseconds, a [date] an integer
      number of days, a [timedelta] an integer number of microseconds (its
      finite range is not modelled).
    - A [str] is a sequence of code points below 256.
    - [pickle.dump] followed by [pickle.load] is the identity, and so is
      [DataFrame.to_csv] followed by [pandas.read_csv]: a blob holds the
      object that was serialised into it, tagged with its encoding.
    - The bucket of Google Cloud Storage is a finite map from blob names to
      blobs; [datetime.now()] reads a clock that is sampled once per call. *)

From Stdlib Require Import ZArith QArith Qround Bool Ascii String List Permutation Sorted.
From stdpp Require Import base option list gmap strings sorting.

Local Open Scope Z_scope.
Local Open Scope string_scope.
Local Open Scope list_scope.

(** ** Floating-point values *)

Inductive fval : Type :=
  | Fin (q : Q)
  | PInf
  | NInf
  | NaN.

Definition fzero : fval := Fin 0%Q.

Definition is_nan (x : fval) : bool :=
  match x with NaN => true | _ => false end.


Definition Qis_zero (q : Q) : bool := (Qnum q =? 0)%Z.
Definition Qis_neg (q : Q) : bool := (Qnum q <? 0)%Z.

(** [numpy.rint]: round to the nearest integer, ties to even. *)
Definition rint (q : Q) : Z :=
  let f := Qfloor q in
  match Qcompare (q - inject_Z f) (1 # 2) with
  | Lt => f
  | Gt => f + 1
  | Eq => if Z.even f then f else f + 1
  end.

(** [numpy.round(x, 2)] is [rint(x * 100) / 100]. *)
Definition round2 (q : Q) : Q :=
  Qred (inject_Z (rint (q * 100)) / 100).

Definition fround2 (x : fval) : fval :=
  match x with
  | Fin q => Fin (round2 q)
  | _ => x
  end.

Definition fneg (x : fval) : fval :=
  match x with
  | Fin q => Fin (Qred (- q))
  | PInf => NInf
  | NInf => PInf
  | NaN => NaN
  end.

Definition fadd (x y : fval) : fval :=
  match x, y with
  | NaN, _ | _, NaN => NaN
  | Fin a, Fin b => Fin (Qred (a + b))
  | PInf, NInf | NInf, PInf => NaN
  | PInf, _ | _, PInf => PInf
  | NInf, _ | _, NInf => NInf
  end.

Definition fsub (x y : fval) : fval := fadd x (fneg y).

(** An infinity of the sign [neg] ([true] is negative). *)
Definition finf (neg : bool) : fval := if neg then NInf else PInf.

Definition fmul (x y : fval) : fval :=
  match x, y with
  | NaN, _ | _, NaN => NaN
  | Fin a, Fin b => Fin (Qred (a * b))
  | Fin a, PInf | PInf, Fin a => if Qis_zero a then NaN else finf (Qis_neg a)
  | Fin a, NInf | NInf, Fin a => if Qis_zero a then NaN else finf (negb (Qis_neg a))
  | PInf, PInf | NInf, NInf => PInf
  | PInf, NInf | NInf, PInf => NInf
  end.

(** IEEE division: a zero divisor does not raise, it yields an infinity
    (non-zero numerator) or NaN (zero numerator). *)
Definition fdiv (x y : fval) : fval :=
  match x, y with
  | NaN, _ | _, NaN => NaN
  | Fin a, Fin b =>
      if Qis_zero b
      then (if Qis_zero a then NaN else finf (Qis_neg a))
      else Fin (Qred (a / b))
  | Fin _, (PInf | NInf) => fzero
  | PInf, Fin b => finf (Qis_neg b)
  | NInf, Fin b => finf (negb (Qis_neg b))
  | (PInf | NInf), (PInf | NInf) => NaN
  end.

(** The order [sort_values] uses on a float column, NaN put last
    ([na_position='last']) whatever the direction. *)
Definition fval_leb (x y : fval) : bool :=
  match x, y with
  | _, NaN => true
  | NaN, _ => false
  | NInf, _ => true
  | _, PInf => true
  | Fin a, Fin b => Qle_bool a b
  | _, _ => false
  end.

(** ** Cell values, labels and frames *)

Inductive value : Type :=
  | VStr (s : string)
  | VFloat (x : fval)
  | VInt (n : Z)
  | VTime (t : Z).

Definition fval_eqb (x y : fval) : bool :=
  match x, y with
  | Fin a, Fin b => Qeq_bool a b
  | PInf, PInf | NInf, NInf => true
  | _, _ => false
  end.

(** Equality of labels and of join keys. *)
Definition value_eqb (a b : value) : bool :=
  match a, b with
  | VStr s, VStr t => String.eqb s t
  | VFloat x, VFloat y => fval_eqb x y
  | VInt n, VInt m => (n =? m)%Z
  | VTime n, VTime m => (n =? m)%Z
  | _, _ => false
  end.

Definition vnan : value := VFloat NaN.

Definition value_is_nan (v : value) : bool :=
  match v with VFloat NaN => true | _ => false end.

Record DataFrame : Type := mkDF {
  index_name : option string;
  columns_name : option string;
  columns : list value;
  rows : list (value * list value)
}.

(** The exceptions the pipeline can raise. Which class a failing
    expression raises is indicative; that it raises is what is modelled. *)
Inductive exn : Type :=
  | KeyError
  | TypeError
  | ValueError
  | IndexError
  | AttributeError
  | UnpicklingError
  | UnicodeDecodeError
  | NotFound.

Inductive result (A : Type) : Type :=
  | Ok (a : A)
  | Raise (e : exn).
Arguments Ok {A} a.
Arguments Raise {A} e.

Definition rbind {A B} (r : result A) (k : A -> result B) : result B :=
  match r with
  | Ok a => k a
  | Raise e => Raise e
  end.

(** ** Objects that are pickled into the cache *)

Inductive pyobj : Type :=
  | PMeta (date : Z)                            (* {"date": datetime} *)
  | PFrame (df : DataFrame)                     (* a DataFrame *)
  | PWide (fields : list (string * DataFrame)). (* the frame of yf.download:
                                                   columns (field, ticker) *)

Inductive blob : Type :=
  | Pickled (o : pyobj)
  | CsvText (df : DataFrame).

Record world : Type := mkWorld {
  bucket : gmap string blob;
  tick : nat
}.

(** ** State and exception monad *)

Definition M (A : Type) : Type := world -> result A * world.

Definition ret {A} (a : A) : M A := fun w => (Ok a, w).
Definition raise {A} (e : exn) : M A := fun w => (Raise e, w).
Definition bind {A B} (m : M A) (k : A -> M B) : M B :=
  fun w => match m w with
           | (Ok a, w') => k a w'
           | (Raise e, w') => (Raise e, w')
           end.
Definition lift {A} (r : result A) : M A := fun w => (r, w).

Notation "'let*' x := m 'in' k" := (bind m (fun x => k))
  (at level 10, x name, m at level 100, k at level 200).

(** ** cloud_storage.py *)

Definition day_us : Z := 86400000000.

(** [timedelta(days=d)] *)
Definition timedelta_days (d : Z) : Z := d * day_us.

Definition blob_exists (name : string) : M bool :=
  fun w => (Ok (bool_decide (is_Some (bucket w !! name))), w).

Definition blob_write (name : string) (b : blob) : M unit :=
  fun w => (Ok tt, {| bucket := <[name := b]> (bucket w); tick := tick w |}).

Definition blob_read (name : string) : M blob :=
  fun w => match bucket w !! name with
           | Some b => (Ok b, w)
           | None => (Raise NotFound, w)
           end.

Definition blob_delete (name : string) : M unit :=
  fun w => (Ok tt, {| bucket := delete name (bucket w); tick := tick w |}).

Definition pickle_load (b : blob) : result pyobj :=
  match b with
  | Pickled o => Ok o
  | CsvText _ => Raise UnpicklingError
  end.

(** [metadata["date"]] *)
Definition metadata_date (o : pyobj) : result Z :=
  match o with
  | PMeta d => Ok d
  | PFrame _ => Raise KeyError
  | PWide _ => Raise KeyError
  end.

Definition read_csv (b : blob) : result DataFrame :=
  match b with
  | CsvText df => Ok df
  | Pickled _ => Raise UnicodeDecodeError
  end.

Definition _get_blob (file_path : string) : string := file_path.

Definition _get_metadata_blob (file_path : string) : string :=
  String.append file_path "_metadata".

Section CloudStorage.

(** The successive readings of the wall clock. *)
Variable clock : nat -> Z.

Definition datetime_now : M Z :=
  fun w => (Ok (clock (tick w)),
            {| bucket := bucket w; tick := S (tick w) |}).

Definition delete_from_cache (file_path : string) : M unit :=
  let* e := blob_exists (_get_blob file_path) in
  let* _ := (if e then blob_delete (_get_blob file_path) else ret tt) in
  let* e' := blob_exists (_get_metadata_blob file_path) in
  if e' then blob_delete (_get_metadata_blob file_path) else ret tt.

Definition save_to_cache (data : pyobj) (file_path : string) : M unit :=
  let* _ := blob_write (_get_blob file_path) (Pickled data) in
  let* now := datetime_now in
  blob_write (_get_metadata_blob file_path) (Pickled (PMeta now)).

Definition load_from_cache (file_path : string) (max_age_days : Z)
  : M (option pyobj) :=
  let* e := blob_exists (_get_blob file_path) in
  if negb e then ret None else
  let* e' := blob_exists (_get_metadata_blob file_path) in
  if negb e' then ret None else
  let* m := blob_read (_get_metadata_blob file_path) in
  let* metadata := lift (pickle_load m) in
  let* cache_date := lift (metadata_date metadata) in
  let* now := datetime_now in
  if (now - cache_date >? timedelta_days max_age_days)%Z then ret None else
  let* b := blob_read (_get_blob file_path) in
  let* o := lift (pickle_load b) in
  ret (Some o).


Definition load_csv_from_cache (file_path : string) : M (option DataFrame) :=
  let* e := blob_exists (_get_blob file_path) in
  if negb e then ret None else
  let* b := blob_read (_get_blob file_path) in
  let* df := lift (read_csv b) in
  ret (Some df).

End CloudStorage.

(** ** The pandas operations the pipeline uses *)

Fixpoint mapR {A B} (f : A -> result B) (l : list A) : result (list B) :=
  match l with
  | [] => Ok []
  | x :: l' => rbind (f x) (fun y => rbind (mapR f l') (fun ys => Ok (y :: ys)))
  end.

(** The cell at position [i] of a row. *)
Definition cell (i : nat) (cells : list value) : value := nth i cells vnan.

Definition take_cells (ps : list nat) (cells : list value) : list value :=
  map (fun i => cell i cells) ps.

Fixpoint keep_where {A} (bs : list bool) (xs : list A) : list A :=
  match bs, xs with
  | b :: bs', x :: xs' => if b then x :: keep_where bs' xs' else keep_where bs' xs'
  | _, _ => []
  end.

Fixpoint remove_nth {A} (i : nat) (xs : list A) : list A :=
  match xs with
  | [] => []
  | x :: xs' => match i with O => xs' | S i' => x :: remove_nth i' xs' end
  end.

Definition has_label (l : value) (cols : list value) : bool :=
  existsb (value_eqb l) cols.

Fixpoint positions_from (i : nat) (l : value) (cols : list value) : list nat :=
  match cols with
  | [] => []
  | c :: cs =>
      if value_eqb l c then i :: positions_from (S i) l cs
      else positions_from (S i) l cs
  end.

Definition positions (l : value) (cols : list value) : list nat :=
  positions_from 0 l cols.

(** The position of the one column labelled [l]: [KeyError] when there is
    none, [ValueError] when the label is not unique. *)
Definition get_loc (l : value) (cols : list value) : result nat :=
  match positions l cols with
  | [] => Raise KeyError
  | [i] => Ok i
  | _ => Raise ValueError
  end.

(** [RangeIndex]: rows are relabelled 0, 1, 2, ... *)
Definition range_index (cs : list (list value)) : list (value * list value) :=
  imap (fun i c => (VInt (Z.of_nat i), c)) cs.

(** [df.reset_index()] *)
Definition reset_index (df : DataFrame) : result DataFrame :=
  let name :=
    match index_name df with
    | Some n => n
    | None => if has_label (VStr "index") (columns df) then "level_0" else "index"
    end in
  if has_label (VStr name) (columns df) then Raise ValueError
  else Ok {| index_name := None;
             columns_name := columns_name df;
             columns := VStr name :: columns df;
             rows := range_index (map (fun r => r.1 :: r.2) (rows df)) |}.

Fixpoint locs_of (labels cols : list value) : result (list nat) :=
  match labels with
  | [] => Ok []
  | l :: ls =>
      match positions l cols with
      | [] => Raise KeyError
      | ps => rbind (locs_of ls cols) (fun qs => Ok (ps ++ qs))
      end
  end.

(** [df[[l1, ..., ln]]] *)
Definition getitem_list (labels : list value) (df : DataFrame) : result DataFrame :=
  rbind (locs_of labels (columns df)) (fun ps =>
  Ok {| index_name := index_name df;
        columns_name := columns_name df;
        columns := take_cells ps (columns df);
        rows := map (fun r => (r.1, take_cells ps r.2)) (rows df) |}).

(** [df[l]], a Series, kept as the list of its values in row order. *)
Definition getitem (label : value) (df : DataFrame) : result (list value) :=
  rbind (get_loc label (columns df)) (fun i =>
  Ok (map (fun r => cell i r.2) (rows df))).

(** [df[l] = series]: replaces the column(s) labelled [l], or appends. *)
Definition setitem (label : value) (s : list value) (df : DataFrame) : DataFrame :=
  if has_label label (columns df) then
    {| index_name := index_name df;
       columns_name := columns_name df;
       columns := columns df;
       rows := zip_with (fun r v =>
                 (r.1, zip_with (fun c x => if value_eqb label c then v else x)
                                (columns df) r.2))
               (rows df) s |}
  else
    {| index_name := index_name df;
       columns_name := columns_name df;
       columns := columns df ++ [label];
       rows := zip_with (fun r v => (r.1, r.2 ++ [v])) (rows df) s |}.

(** [df.iloc[:, -k]] for [k >= 1] *)
Definition iloc_col_from_end (k : nat) (df : DataFrame) : result (list value) :=
  if (length (columns df) <? k)%nat then Raise IndexError
  else Ok (map (fun r => cell (length (columns df) - k) r.2) (rows df)).

(** [df.columns = labels] *)
Definition set_columns (labels : list value) (df : DataFrame) : result DataFrame :=
  if (length labels =? length (columns df))%nat then
    Ok {| index_name := index_name df;
          columns_name := columns_name df;
          columns := labels;
          rows := rows df |}
  else Raise ValueError.

(** [df.drop(columns=labels)] *)
Definition drop_columns (labels : list value) (df : DataFrame) : result DataFrame :=
  if forallb (fun l => has_label l (columns df)) labels then
    let keep := map (fun c => negb (has_label c labels)) (columns df) in
    Ok {| index_name := index_name df;
          columns_name := columns_name df;
          columns := keep_where keep (columns df);
          rows := map (fun r => (r.1, keep_where keep r.2)) (rows df) |}
  else Raise KeyError.

Definition rename_label (mapping : list (string * string)) (c : value) : value :=
  match c with
  | VStr s =>
      match find (fun p => String.eqb p.1 s) mapping with
      | Some p => VStr p.2
      | None => c
      end
  | _ => c
  end.

(** [df.rename(columns=mapping)] *)
Definition rename_columns (mapping : list (string * string)) (df : DataFrame)
  : DataFrame :=
  {| index_name := index_name df;
     columns_name := columns_name df;
     columns := map (rename_label mapping) (columns df);
     rows := rows df |}.

(** [df.T] *)
Definition transpose_cells (n : nat) (rs : list (list value)) : list (list value) :=
  map (fun j => map (cell j) rs) (seq 0 n).

Definition T (df : DataFrame) : DataFrame :=
  {| index_name := columns_name df;
     columns_name := index_name df;
     columns := map fst (rows df);
     rows := combine (columns df)
               (transpose_cells (length (columns df)) (map snd (rows df))) |}.

(** [round(2)] leaves what is not a float as it is. *)
Definition value_round2 (v : value) : value :=
  match v with
  | VFloat x => VFloat (fround2 x)
  | _ => v
  end.

Definition df_round2 (df : DataFrame) : DataFrame :=
  {| index_name := index_name df;
     columns_name := columns_name df;
     columns := columns df;
     rows := map (fun r => (r.1, map value_round2 r.2)) (rows df) |}.

Definition series_round2 (s : list value) : list value := map value_round2 s.

(** A number as a float; an integer cell is promoted. *)
Definition to_float (v : value) : option fval :=
  match v with
  | VFloat x => Some x
  | VInt n => Some (Fin (inject_Z n))
  | _ => None
  end.

Definition floats_of (cells : list value) : result (list fval) :=
  mapR (fun v => match to_float v with Some x => Ok x | None => Raise TypeError end)
       cells.

(** The mean of the values that are not NaN ([skipna=True]); NaN when
    there is none. *)
Definition nanmean (xs : list fval) : fval :=
  let ys := List.filter (fun x => negb (is_nan x)) xs in
  match ys with
  | [] => NaN
  | _ => fdiv (fold_left fadd ys fzero) (Fin (inject_Z (Z.of_nat (length ys))))
  end.

(** [df.mean(axis=1)] *)
Definition mean_axis1 (df : DataFrame) : result (list value) :=
  mapR (fun r => rbind (floats_of r.2) (fun xs => Ok (VFloat (nanmean xs))))
       (rows df).

Definition vbinop (f : fval -> fval -> fval) (a b : value) : result value :=
  match to_float a, to_float b with
  | Some x, Some y => Ok (VFloat (f x y))
  | _, _ => Raise TypeError
  end.

(** Arithmetic of two Series over the same index, and of a Series and a
    scalar. *)
Fixpoint series_binop (f : fval -> fval -> fval) (s t : list value)
  : result (list value) :=
  match s, t with
  | a :: s', b :: t' =>
      rbind (vbinop f a b) (fun c =>
      rbind (series_binop f s' t') (fun cs => Ok (c :: cs)))
  | _, _ => Ok []
  end.

Definition series_scalar (f : fval -> fval -> fval) (s : list value) (k : fval)
  : result (list value) :=
  mapR (fun a => vbinop f a (VFloat k)) s.

(** *** Sorting *)

Definition value_class (v : value) : nat :=
  match v with
  | VFloat _ | VInt _ => 0
  | VStr _ => 1
  | VTime _ => 2
  end.

(** The order of two sort keys. Keys of different kinds are never compared:
    [sort_values] below raises [TypeError] first. *)
Definition value_leb (a b : value) : bool :=
  match to_float a, to_float b with
  | Some x, Some y => fval_leb x y
  | _, _ =>
      match a, b with
      | VStr s, VStr t => String.leb s t
      | VTime s, VTime t => (s <=? t)%Z
      | _, _ => (value_class a <=? value_class b)%nat
      end
  end.

(** NaN keys go last in both directions ([na_position='last']). *)
Definition key_leb (ascending : bool) (a b : value) : bool :=
  if value_is_nan b then true
  else if value_is_nan a then false
  else if ascending then value_leb a b else value_leb b a.

Fixpoint lex_leb (ascending : bool) (ks1 ks2 : list value) : bool :=
  match ks1, ks2 with
  | a :: ks1', b :: ks2' =>
      if negb (key_leb ascending b a) then true
      else if negb (key_leb ascending a b) then false
      else lex_leb ascending ks1' ks2'
  | _, _ => true
  end.

Definition homogeneous (ks : list value) : bool :=
  match List.filter (fun k => negb (value_is_nan k)) ks with
  | [] => true
  | k :: ks' => forallb (fun k' => (value_class k' =? value_class k)%nat) ks'
  end.

Definition row_le (ascending : bool) (locs : list nat)
  (r1 r2 : value * list value) : Prop :=
  Is_true (lex_leb ascending (take_cells locs r1.2) (take_cells locs r2.2)).

(** [df.sort_values(by=by_, ascending=ascending)]. The order pandas gives to
    rows with equal keys is not relied upon. *)
Definition sort_values (by_ : list value) (ascending : bool) (df : DataFrame)
  : result DataFrame :=
  rbind (mapR (fun l => get_loc l (columns df)) by_) (fun locs =>
  if forallb (fun i => homogeneous (map (fun r => cell i r.2) (rows df))) locs
  then Ok {| index_name := index_name df;
             columns_name := columns_name df;
             columns := columns df;
             rows := merge_sort (row_le ascending locs) (rows df) |}
  else Raise TypeError).

(** *** Joins *)

Inductive join_kind : Type := Inner | LeftJoin.

(** Join keys: NaN matches NaN. *)
Definition key_eqb (a b : value) : bool :=
  value_eqb a b || (value_is_nan a && value_is_nan b).

(** [df.stack()], NaN cells dropped, as the list of
    (index label, column label, value). *)
Definition stack (df : DataFrame) : list (value * value * value) :=
  concat (map (fun r =>
            map (fun cv => (r.1, cv.1, cv.2))
                (List.filter (fun cv => negb (value_is_nan cv.2))
                             (combine (columns df) r.2)))
          (rows df)).

(** [df.stack().reset_index()] *)
Definition stack_reset_index (df : DataFrame) : result DataFrame :=
  let n0 := default "level_0" (index_name df) in
  let n1 := default "level_1" (columns_name df) in
  if String.eqb n0 n1 then Raise ValueError
  else Ok {| index_name := None;
             columns_name := None;
             columns := [VStr n0; VStr n1; VInt 0];
             rows := range_index (map (fun e => [e.1.1; e.1.2; e.2]) (stack df)) |}.

Section Pandas.

(** [str(v)] of a label that is not a string. *)
Variable py_str : value -> string.

Definition astype_str (c : value) : value :=
  match c with
  | VStr _ => c
  | _ => VStr (py_str c)
  end.

(** [df.columns = df.columns.astype(str)] *)
Definition columns_astype_str (df : DataFrame) : DataFrame :=
  {| index_name := index_name df;
     columns_name := columns_name df;
     columns := map astype_str (columns df);
     rows := rows df |}.

Definition add_suffix (sfx : string) (c : value) : value :=
  match c with
  | VStr s => VStr (String.append s sfx)
  | _ => VStr (String.append (py_str c) sfx)
  end.

Definition join_rows (how : join_kind) (lk rk width : nat)
  (left right : list (value * list value)) : list (list value) :=
  concat (map (fun l =>
    match List.filter (fun r => key_eqb (cell lk l.2) (cell rk r.2)) right, how with
    | [], LeftJoin => [l.2 ++ repeat vnan width]
    | ms, _ => map (fun r => l.2 ++ remove_nth rk r.2) ms
    end) left).

(** [pd.merge(left, right, on=key, how=how)]: the key column is kept
    once; a label the two frames share apart from the key gets the
    suffix [_x] on the left and [_y] on the right. Rows come in the order
    of the left keys; nothing below relies on that order. *)
Definition merge (how : join_kind) (key : value) (left right : DataFrame)
  : result DataFrame :=
  rbind (get_loc key (columns left)) (fun lk =>
  rbind (get_loc key (columns right)) (fun rk =>
  let lother := remove_nth lk (columns left) in
  let rother := remove_nth rk (columns right) in
  let lcols := map (fun c => if value_eqb c key then c
                             else if has_label c rother then add_suffix "_x" c
                             else c) (columns left) in
  let rcols := map (fun c => if has_label c lother then add_suffix "_y" c
                             else c) rother in
  Ok {| index_name := None;
        columns_name := None;
        columns := lcols ++ rcols;
        rows := range_index
                  (join_rows how lk rk (length rother) (rows left) (rows right)) |})).

End Pandas.

(** ** utils.py *)

(** [str.strip()] *)
Definition py_isspace (c : ascii) : bool :=
  let n := nat_of_ascii c in
  ((9 <=? n) && (n <=? 13) || (28 <=? n) && (n <=? 32)
   || (n =? 133) || (n =? 160))%nat.

Fixpoint lstrip_chars (cs : list ascii) : list ascii :=
  match cs with
  | [] => []
  | c :: cs' => if py_isspace c then lstrip_chars cs' else cs
  end.

Definition strip (s : string) : string :=
  string_of_list_ascii
    (rev (lstrip_chars (rev (lstrip_chars (list_ascii_of_string s))))).

(** What BeautifulSoup exposes of a table: its id attribute, the text of
    its [th] cells and, for each [tr], the text of its [td] cells. *)
Record html_table : Type := mkTable {
  table_id : option string;
  th_texts : list string;
  tr_rows : list (list string)
}.

Definition html : Type := list html_table.

(** [soup.find('table', {'id': id})] *)
Definition soup_find_table (id : string) (doc : html) : option html_table :=
  find (fun t => match table_id t with
                 | Some i => String.eqb i id
                 | None => false
                 end) doc.

(** The dict the loader appends for one row. *)
Record constituent : Type := mkConstituent {
  Ticker : string;
  Security : string;
  Sector : string;
  Industry : string
}.

(** [pd.DataFrame(data)] for a list of such dicts. *)
Definition DataFrame_of_records (data : list constituent) : DataFrame :=
  match data with
  | [] => {| index_name := None; columns_name := None; columns := []; rows := [] |}
  | _ => {| index_name := None;
            columns_name := None;
            columns := [VStr "Ticker"; VStr "Security"; VStr "Sector"; VStr "Industry"];
            rows := range_index
                      (map (fun c => [VStr (Ticker c); VStr (Security c);
                                      VStr (Sector c); VStr (Industry c)]) data) |}
  end.

(** The loop over [table.find_all('tr')[1:]], given that slice. *)
Fixpoint extract_rows (trs : list (list string)) : list constituent :=
  match trs with
  | [] => []
  | cols :: trs' =>
      if (4 <=? length cols)%nat then
        {| Ticker := strip (nth 0 cols EmptyString);
           Security := strip (nth 1 cols EmptyString);
           Sector := strip (nth 2 cols EmptyString);
           Industry := strip (nth 3 cols EmptyString) |} :: extract_rows trs'
      else extract_rows trs'
  end.

(** The record of a row as the specification words it: the first four
    cells verbatim. Not what the code computes, see [extract_rows]. *)
Definition verbatim_record (cols : list string) : constituent :=
  {| Ticker := nth 0 cols EmptyString;
     Security := nth 1 cols EmptyString;
     Sector := nth 2 cols EmptyString;
     Industry := nth 3 cols EmptyString |}.

(** [obj[label].tolist()] for an object out of the cache. *)
Definition column_tolist (label : string) (o : pyobj) : result (list value) :=
  match o with
  | PFrame df => getitem (VStr label) df
  | PWide _ => Raise KeyError
  | PMeta _ => Raise KeyError
  end.

(** [data[field]] on the frame of [yf.download]; on anything else the
    expression [data['Close'].stack()] or [data['Close'].T] fails. *)
Definition wide_getitem (field : string) (o : pyobj) : result DataFrame :=
  match o with
  | PWide fields =>
      match find (fun p => String.eqb p.1 field) fields with
      | Some p => Ok p.2
      | None => Raise KeyError
      end
  | PFrame df => rbind (getitem (VStr field) df) (fun _ => Raise AttributeError)
  | PMeta _ => Raise KeyError
  end.

(** An object used where pandas needs a DataFrame. *)
Definition as_frame (o : pyobj) : result DataFrame :=
  match o with
  | PFrame df => Ok df
  | PWide _ => Raise KeyError
  | PMeta _ => Raise TypeError
  end.

Inductive interval : Type := Daily | Weekly.

Definition sp500_url : string :=
  "https://en.wikipedia.org/wiki/List_of_S%26P_500_companies".

Definition new_order : list value :=
  [VStr "% Deviation"; VStr "Ticker"; VStr "Company"; VStr "200 Week SMA";
   VStr "Close"; VStr "Sector"; VStr "Industry"].

(** Lines 123 to 126 of main.py, on the grid of line 122. *)
Definition sma_columns (closing_prices : DataFrame) : result DataFrame :=
  rbind (mean_axis1 closing_prices) (fun mean =>
  let closing_prices := setitem (VStr "200wk_sma") (series_round2 mean) closing_prices in
  rbind (iloc_col_from_end 2 closing_prices) (fun latest =>
  rbind (getitem (VStr "200wk_sma") closing_prices) (fun sma =>
  rbind (series_binop fsub latest sma) (fun diff =>
  rbind (getitem (VStr "200wk_sma") closing_prices) (fun sma' =>
  rbind (series_binop fdiv diff sma') (fun ratio =>
  rbind (series_scalar fmul ratio (Fin 100)) (fun dev =>
  let closing_prices := setitem (VStr "% Deviation") dev closing_prices in
  rbind (getitem (VStr "% Deviation") closing_prices) (fun dev' =>
  let closing_prices := setitem (VStr "% Deviation") (series_round2 dev') closing_prices in
  sort_values [VStr "% Deviation"] false closing_prices)))))))).

(** Lines 122 to 126 of main.py, on [data['Close']]. *)
Definition sma_table (close : DataFrame) : result DataFrame :=
  let closing_prices := df_round2 (T close) in
  sma_columns closing_prices.

Section Pipeline.

Variable clock : nat -> Z.
Variable py_str : value -> string.
(** [requests.get(url)] parsed by BeautifulSoup. *)
Variable requests_get : string -> html.
(** [yf.download(tickers, start=, end=, interval=, auto_adjust=False)] *)
Variable yf_download : list value -> Z -> option Z -> interval -> pyobj.

Definition load_or_download_sp500_tickers : M pyobj :=
  let cache_file := "sp500_cache.pkl" in
  let* cached_data := load_from_cache clock cache_file 1 in
  match cached_data with
  | Some d => ret d
  | None =>
      let soup := requests_get sp500_url in
      match soup_find_table "constituents" soup with
      | None => raise AttributeError
      | Some table =>
          let headers := map strip (th_texts table) in
          let data := extract_rows (tail (tr_rows table)) in
          let result_df := DataFrame_of_records data in
          let* _ := save_to_cache clock (PFrame result_df) cache_file in
          ret (PFrame result_df)
      end
  end.

Definition load_or_download_data (sp500_df : pyobj) (previous_business_day : Z)
  : M pyobj :=
  let cache_file := "data_cache.pkl" in
  let* cached_data := load_from_cache clock cache_file 1 in
  match cached_data with
  | Some d => ret d
  | None =>
      let* tickers := lift (column_tolist "Ticker" sp500_df) in
      let data := yf_download tickers previous_business_day None Daily in
      let* _ := save_to_cache clock data cache_file in
      ret data
  end.

Definition fetch_stock_data : M DataFrame :=
  let* sp500_df := load_or_download_sp500_tickers in
  let* now := datetime_now clock in
  let previous_business_day := (now / day_us - 3)%Z in
  let* data := load_or_download_data sp500_df previous_business_day in
  let* close := lift (wide_getitem "Close" data) in
  let* closing_prices := lift (stack_reset_index close) in
  let* closing_prices :=
    lift (set_columns [VStr "Date"; VStr "Ticker"; VStr "Close"] closing_prices) in
  let* reference := lift (as_frame sp500_df) in
  let* result_df :=
    lift (merge py_str LeftJoin (VStr "Ticker") closing_prices reference) in
  lift (sort_values [VStr "Ticker"; VStr "Date"] true result_df).

Definition fetch_200_wk_simple_moving_average_SMA : M pyobj :=
  let cache_file := "200wma_cache.pkl" in
  let* cached_data := load_from_cache clock cache_file 1 in
  match cached_data with
  | Some d => ret d
  | None =>
      let* sp500_df := load_or_download_sp500_tickers in
      let* now := datetime_now clock in
      let end_date := (now / day_us - 3)%Z in
      let start_date := (end_date - (200 * 7 + 1))%Z in
      let* tickers := lift (column_tolist "Ticker" sp500_df) in
      let data := yf_download tickers start_date (Some end_date) Weekly in
      let* close := lift (wide_getitem "Close" data) in
      let* data_close_sorted := lift (sma_table close) in
      let* _ := save_to_cache clock (PFrame data_close_sorted) cache_file in
      ret (PFrame data_close_sorted)
  end.

Definition merge_stock_data (closing_prices moving_averages : DataFrame)
  : M DataFrame :=
  let* closing_prices := lift (reset_index closing_prices) in
  let* moving_averages := lift (reset_index moving_averages) in
  let* right :=
    lift (getitem_list [VStr "Ticker"; VStr "200wk_sma"; VStr "% Deviation"]
                       moving_averages) in
  let* merged_df := lift (merge py_str Inner (VStr "Ticker") closing_prices right) in
  let merged_df := columns_astype_str py_str merged_df in
  let* merged_df := lift (drop_columns [VStr "index"; VStr "Date"] merged_df) in
  let merged_df :=
    rename_columns [("200wk_sma", "200 Week SMA"); ("Security", "Company")]
                   merged_df in
  let* merged_df := lift (getitem_list new_order merged_df) in
  let* merged_df := lift (sort_values [VStr "% Deviation"] true merged_df) in
  let cache_file := "final_merged_data_cache.pkl" in
  let* _ := save_to_cache clock (PFrame merged_df) cache_file in
  lift (sort_values [VStr "% Deviation"] true merged_df).

End Pipeline.

(** ** Shapes of the frames the pipeline passes around

    These predicates say which inputs are valid; they are decidable so that
    they can be checked on a concrete frame. *)

Definition is_time (v : value) : bool :=
  match v with VTime _ => true | _ => false end.

Definition is_float_cell (v : value) : bool :=
  match v with VFloat _ => true | _ => false end.

Definition is_str (v : value) : bool :=
  match v with VStr _ => true | _ => false end.

(** The symbol x week grid [data['Close'].T]: at least one week, the weeks
    labelled by timestamps, one float per symbol and week. *)
Definition weekly_grid (g : DataFrame) : bool :=
  (1 <=? length (columns g))%nat
  && forallb is_time (columns g)
  && forallb (fun r => (length r.2 =? length (columns g))%nat
                       && forallb is_float_cell r.2) (rows g).

(** The float in a numeric cell. *)
Definition as_float (v : value) : fval :=
  match v with
  | VFloat x => x
  | VInt n => Fin (inject_Z n)
  | _ => NaN
  end.

(** What lines 123 to 125 make of one row of the rounded grid: the closes,
    then the rounded mean, then the rounded deviation of the last close from
    that mean. [sma_columns_rows] below proves it. *)
Definition row_sma (cells : list value) : fval :=
  fround2 (nanmean (map as_float cells)).

Definition row_deviation (cells : list value) : fval :=
  let m := row_sma cells in
  let latest := as_float (List.last cells vnan) in
  fround2 (fmul (fdiv (fsub latest m) m) (Fin 100)).

Definition sma_row (r : value * list value) : value * list value :=
  (r.1, r.2 ++ [VFloat (row_sma r.2); VFloat (row_deviation r.2)]).

Fixpoint labels_eqb (a b : list value) : bool :=
  match a, b with
  | [], [] => true
  | x :: a', y :: b' => value_eqb x y && labels_eqb a' b'
  | _, _ => false
  end.

Definition price_columns : list value :=
  [VStr "Date"; VStr "Ticker"; VStr "Close"; VStr "Security"; VStr "Sector";
   VStr "Industry"].

(** A table of closing prices as [fetch_stock_data] returns it: an unnamed
    index, the six columns above, a string in every Ticker cell. *)
Definition price_table (cp : DataFrame) : bool :=
  match index_name cp with None => true | Some _ => false end
  && labels_eqb (columns cp) price_columns
  && forallb (fun r => (length r.2 =? 6)%nat && is_str (cell 1 r.2)) (rows cp).

(** A table of moving averages as [fetch_200_wk_simple_moving_average_SMA]
    computes it: indexed by ticker strings, the week columns labelled by
    timestamps, then the columns [200wk_sma] and [% Deviation], the latter
    holding floats. *)
Definition sma_frame (ma : DataFrame) : bool :=
  match index_name ma with Some n => String.eqb n "Ticker" | None => false end
  && (2 <=? length (columns ma))%nat
  && forallb is_time (firstn (length (columns ma) - 2) (columns ma))
  && labels_eqb (skipn (length (columns ma) - 2) (columns ma))
                [VStr "200wk_sma"; VStr "% Deviation"]
  && forallb (fun r => is_str r.1
                       && (length r.2 =? length (columns ma))%nat
                       && is_float_cell (cell (length (columns ma) - 1) r.2))
             (rows ma).

(** The row the merger makes of a row of prices (its cells [l]) and a row
    [r] of a table of moving averages with [n] columns.
    [merge_stock_data_rows] below proves it. *)
Definition merged_row (n : nat) (l : list value) (r : value * list value)
  : list value :=
  [cell (n - 1) r.2; cell 1 l; cell 3 l; cell (n - 2) r.2; cell 2 l; cell 4 l;
   cell 5 l].

Definition inner_join_rows (cp ma : DataFrame) : list (list value) :=
  concat (map (fun l =>
            map (merged_row (length (columns ma)) l.2)
                (List.filter (fun r => key_eqb (cell 1 l.2) r.1) (rows ma)))
          (rows cp)).

(** The rows of a join, from the cells of the two sides. *)
Definition join_cells (how : join_kind) (lk rk width : nat)
    (lcs rcs : list (list value)) : list (list value) :=
  concat (map (fun lc =>
    match List.filter (fun rc => key_eqb (cell lk lc) (cell rk rc)) rcs, how with
    | [], LeftJoin => [lc ++ repeat vnan width]
    | ms, _ => map (fun rc => lc ++ remove_nth rk rc) ms
    end) lcs).

(** The symbols of a table of prices, of a table of moving averages and
    of a merged table. *)
Definition price_symbols (cp : DataFrame) : list value :=
  map (fun r => cell 1 r.2) (rows cp).

Definition sma_symbols (ma : DataFrame) : list value := map fst (rows ma).

Definition merged_symbols (out : DataFrame) : list value :=
  map (fun r => cell 1 r.2) (rows out).

(** The [% Deviation] column of a merged table. *)
Definition merged_deviations (out : DataFrame) : list value :=
  map (fun r => cell 0 r.2) (rows out).

Definition reference_columns : list value :=
  [VStr "Ticker"; VStr "Security"; VStr "Sector"; VStr "Industry"].

(** A reference table as the loader builds it from at least one record. *)
Definition reference_table (sp : DataFrame) : bool :=
  labels_eqb (columns sp) reference_columns
  && forallb (fun r => (length r.2 =? 4)%nat) (rows sp).

(** The frame [data['Close']] of daily closes: dates down the index,
    ticker strings across the columns, and two level names that
    [reset_index] can tell apart. *)
Definition price_grid (close : DataFrame) : bool :=
  negb (String.eqb (default "level_0" (index_name close))
                   (default "level_1" (columns_name close)))
  && forallb is_str (columns close)
  && forallb (fun r => is_time r.1) (rows close).

(** The rows the left join makes of one stacked price [e] = (date,
    ticker, close): one per reference row with that ticker, or one padded
    with NaN when there is none. [fetch_stock_data_rows] below proves it. *)
Definition joined_price_rows (sp_rows : list (value * list value))
    (e : value * value * value) : list (list value) :=
  match List.filter (fun r => key_eqb e.1.2 (cell 0 r.2)) sp_rows with
  | [] => [[e.1.1; e.1.2; e.2; vnan; vnan; vnan]]
  | ms => map (fun r => [e.1.1; e.1.2; e.2; cell 1 r.2; cell 2 r.2; cell 3 r.2]) ms
  end.

Definition left_join_rows (close sp : DataFrame) : list (list value) :=
  concat (map (joined_price_rows (rows sp)) (stack close)).

(** ** Concrete inputs

    Small worlds, documents and frames on which the statements below are
    instantiated or refuted. *)

Definition empty_world : world := {| bucket := ∅; tick := 0 |}.

(** A clock that stands still. *)
Definition frozen_clock (n : nat) : Z := 1700000000000000.

Definition example_py_str (v : value) : string := "?".

Definition newline : string := String (ascii_of_nat 10) EmptyString.

(** A page whose constituents table has a header row, a row of four
    cells, a row of two cells and a row of five cells; as on the real page,
    the text of a cell ends with a newline. *)
Definition example_page : html :=
  [ {| table_id := Some "constituents";
       th_texts := ["Symbol"; "Security"; "GICS Sector"; "GICS Sub-Industry"];
       tr_rows :=
         [ [];
           [String.append "X" newline; String.append "CoX" newline;
            String.append "Tech" newline; String.append "Software" newline];
           ["advert"; "banner"];
           [String.append "Y" newline; String.append "CoY" newline;
            String.append "Energy" newline; String.append "Oil" newline;
            String.append "extra" newline] ] |} ].

Definition example_requests_get (url : string) : html := example_page.

(** Weekly closes 10, 20, 30 for the one symbol X. *)
Definition close_X : DataFrame :=
  {| index_name := Some "Date";
     columns_name := Some "Ticker";
     columns := [VStr "X"];
     rows := [(VTime 1, [VFloat (Fin 10)]);
              (VTime 2, [VFloat (Fin 20)]);
              (VTime 3, [VFloat (Fin 30)])] |}.

(** Weekly closes 0.01, 0, 0 for the one symbol P. *)
Definition close_P : DataFrame :=
  {| index_name := Some "Date";
     columns_name := Some "Ticker";
     columns := [VStr "P"];
     rows := [(VTime 1, [VFloat (Fin (1 # 100))]);
              (VTime 2, [VFloat (Fin 0)]);
              (VTime 3, [VFloat (Fin 0)])] |}.

Definition yf_download_X (tickers : list value) (start : Z) (end_ : option Z)
    (i : interval) : pyobj :=
  PWide [("Close", close_X)].

(** Prices for A, B, C and averages for B, C, D. *)
Definition prices_ABC : DataFrame :=
  {| index_name := None;
     columns_name := None;
     columns := price_columns;
     rows := [(VInt 0, [VTime 1; VStr "A"; VFloat (Fin 10); VStr "CoA";
                        VStr "Tech"; VStr "Software"]);
              (VInt 1, [VTime 1; VStr "B"; VFloat (Fin 100); VStr "CoB";
                        VStr "Energy"; VStr "Oil"]);
              (VInt 2, [VTime 1; VStr "C"; VFloat (Fin 50); VStr "CoC";
                        VStr "Health"; VStr "Pharma"])] |}.

Definition averages_BCD : DataFrame :=
  {| index_name := Some "Ticker";
     columns_name := Some "Date";
     columns := [VTime 1; VTime 2; VStr "200wk_sma"; VStr "% Deviation"];
     rows := [(VStr "B", [VFloat (Fin 70); VFloat (Fin 90); VFloat (Fin 80);
                          VFloat (Fin 25)]);
              (VStr "C", [VFloat (Fin 60); VFloat (Fin 40); VFloat (Fin 50);
                          VFloat (Fin (-20))]);
              (VStr "D", [VFloat (Fin 1); VFloat (Fin 3); VFloat (Fin 2);
                          VFloat (Fin 50)])] |}.

(** Daily closes of X and Z, and a reference table that knows X only. *)
Definition daily_closes : DataFrame :=
  {| index_name := Some "Date";
     columns_name := Some "Ticker";
     columns := [VStr "X"; VStr "Z"];
     rows := [(VTime 1, [VFloat (Fin 100); VFloat (Fin 7)]);
              (VTime 2, [VFloat (Fin 101); VFloat NaN])] |}.

Definition reference_X : DataFrame :=
  DataFrame_of_records
    [ {| Ticker := "X"; Security := "CoX"; Sector := "Tech"; Industry := "Software" |} ].

(** A world whose price cache was written earlier, while the reference
    cache is empty. *)
Definition world_with_prices : world :=
  (save_to_cache frozen_clock (PWide [("Close", daily_closes)]) "data_cache.pkl"
                 empty_world).2.

Definition page_X : html :=
  [ {| table_id := Some "constituents";
       th_texts := [];
       tr_rows := [ []; ["X"; "CoX"; "Tech"; "Software"] ] |} ].


Definition stale_world : world :=
  {| bucket := {[ "k" := Pickled (PFrame close_X);
                  "k_metadata" := Pickled (PMeta (1700000000000000 - 2 * day_us)) ]};
     tick := 0 |}.


(** ** Further definitions *)

(** What [load_from_cache] returns, from the two blobs of the key and the
    clock reading. [load_from_cache_result] below proves it. *)
Definition cache_lookup (data metadata : option blob) (now max_age_days : Z)
  : result (option pyobj) :=
  match data, metadata with
  | None, _ => Ok None
  | Some _, None => Ok None
  | Some b, Some m =>
      rbind (pickle_load m) (fun meta =>
      rbind (metadata_date meta) (fun cache_date =>
      if (now - cache_date >? timedelta_days max_age_days)%Z then Ok None
      else rbind (pickle_load b) (fun o => Ok (Some o))))
  end.

(** A text that neither starts nor ends with a whitespace character. *)
Definition outer_chars_ok (cs : list ascii) : bool :=
  match cs with
  | [] => true
  | c :: _ => negb (py_isspace c) && negb (py_isspace (List.last cs c))
  end.

Definition no_outer_space (s : string) : bool :=
  outer_chars_ok (list_ascii_of_string s).

(** The frame [pd.DataFrame([])]: no column, no row. *)
Definition empty_frame : DataFrame :=
  {| index_name := None; columns_name := None; columns := []; rows := [] |}.

(** The order of two float sort keys in a column sorted upwards
    ([ascending = true]) or downwards, NaN last either way. *)
Definition float_key_leb (ascending : bool) (x y : fval) : bool :=
  key_leb ascending (VFloat x) (VFloat y).

(** The [% Deviation] column of a table of moving averages: the last
    cell of each row. *)
Definition sma_deviations (out : DataFrame) : list fval :=
  map (fun r => as_float (List.last r.2 vnan)) (rows out).

(** The order of two rows of prices: by ticker, then by date. *)
Definition price_row_le (r1 r2 : value * list value) : Prop :=
  exists s1 s2 t1 t2,
    cell 1 r1.2 = VStr s1 /\ cell 1 r2.2 = VStr s2 /\
    cell 0 r1.2 = VTime t1 /\ cell 0 r2.2 = VTime t2 /\
    String.leb s1 s2 = true /\ (s1 = s2 -> (t1 <= t2)%Z).

(** ** main.py: [main] *)

(** The table [main] prints. An object out of the cache of moving averages
    that is not a frame fails in the merger. *)
Definition main (clock : nat -> Z) (py_str : value -> string)
    (requests_get : string -> html)
    (yf_download : list value -> Z -> option Z -> interval -> pyobj)
  : M DataFrame :=
  let* closing_prices := fetch_stock_data clock py_str requests_get yf_download in
  let* moving_averages :=
    fetch_200_wk_simple_moving_average_SMA clock requests_get yf_download in
  let* moving_averages := lift (as_frame moving_averages) in
  let* merged_df := merge_stock_data clock py_str closing_prices moving_averages in
  ret merged_df.

(** ** app.py: the bounds of the sliders and the filter *)

(** [x <= y] on floats: false as soon as one side is NaN. *)
Definition ieee_le (x y : fval) : bool :=
  negb (is_nan x) && negb (is_nan y) && fval_leb x y.

(** [series >= k] and [series <= k]: a Series of booleans. *)
Definition series_ge (s : list value) (k : fval) : result (list bool) :=
  mapR (fun v => match to_float v with
                 | Some x => Ok (ieee_le k x)
                 | None => Raise TypeError
                 end) s.

Definition series_le (s : list value) (k : fval) : result (list bool) :=
  mapR (fun v => match to_float v with
                 | Some x => Ok (ieee_le x k)
                 | None => Raise TypeError
                 end) s.

(** [df[mask]]: the rows at which the mask holds, with their labels. *)
Definition boolean_index (mask : list bool) (df : DataFrame) : DataFrame :=
  {| index_name := index_name df;
     columns_name := columns_name df;
     columns := columns df;
     rows := keep_where mask (rows df) |}.

(** [series.min()] and [series.max()]: NaN skipped, NaN when nothing is
    left. *)
Definition nanmin (xs : list fval) : fval :=
  match List.filter (fun x => negb (is_nan x)) xs with
  | [] => NaN
  | y :: ys => fold_left (fun a b => if fval_leb b a then b else a) ys y
  end.

Definition nanmax (xs : list fval) : fval :=
  match List.filter (fun x => negb (is_nan x)) xs with
  | [] => NaN
  | y :: ys => fold_left (fun a b => if fval_leb a b then b else a) ys y
  end.

Definition series_min (s : list value) : result fval :=
  rbind (floats_of s) (fun xs => Ok (nanmin xs)).

Definition series_max (s : list value) : result fval :=
  rbind (floats_of s) (fun xs => Ok (nanmax xs)).

(** Lines 97 to 100 of app.py: the bounds the sliders start from. *)
Definition initial_bounds (merged_df : DataFrame) : result (fval * fval) :=
  rbind (getitem (VStr "% Deviation") merged_df) (fun dev =>
  rbind (series_min dev) (fun lower_bound =>
  rbind (getitem (VStr "% Deviation") merged_df) (fun dev' =>
  rbind (series_max dev') (fun upper_bound =>
  Ok (lower_bound, upper_bound))))).

(** Lines 137 to 140 of app.py: the table shown after [Update]. *)
Definition filtered_df (lower_bound upper_bound : fval) (merged_df : DataFrame)
  : result DataFrame :=
  rbind (getitem (VStr "% Deviation") merged_df) (fun dev =>
  rbind (series_ge dev lower_bound) (fun above =>
  rbind (getitem (VStr "% Deviation") merged_df) (fun dev' =>
  rbind (series_le dev' upper_bound) (fun below =>
  Ok (boolean_index (zip_with andb above below) merged_df))))).

(** A table as the merger returns it: the seven columns, a float in
    every [% Deviation] cell. *)
Definition merged_table (df : DataFrame) : bool :=
  labels_eqb (columns df) new_order
  && forallb (fun r => is_float_cell (cell 0 r.2)) (rows df).

(** The deviation of a row of a merged table. *)
Definition deviation_of (r : value * list value) : fval := as_float (cell 0 r.2).

(** [x < y] on floats: false as soon as one side is NaN. *)
Definition ieee_lt (x y : fval) : bool :=
  negb (is_nan x) && negb (is_nan y) && negb (fval_leb y x).

Definition series_gt (s : list value) (k : fval) : result (list bool) :=
  mapR (fun v => match to_float v with
                 | Some x => Ok (ieee_lt k x)
                 | None => Raise TypeError
                 end) s.

Definition series_lt (s : list value) (k : fval) : result (list bool) :=
  mapR (fun v => match to_float v with
                 | Some x => Ok (ieee_lt x k)
                 | None => Raise TypeError
                 end) s.

Definition fabs (x : fval) : fval :=
  match x with
  | Fin q => Fin (Qred (Z.abs (Qnum q) # Qden q))
  | NInf => PInf
  | PInf => PInf
  | NaN => NaN
  end.

(** [series.abs()] *)
Definition series_abs (s : list value) : result (list value) :=
  mapR (fun v => match v with
                 | VFloat x => Ok (VFloat (fabs x))
                 | VInt n => Ok (VInt (Z.abs n))
                 | _ => Raise TypeError
                 end) s.

(** Lines 152 and 153 of app.py: the table behind the charts. *)
Definition viz_df (filtered : DataFrame) : result DataFrame :=
  rbind (getitem (VStr "% Deviation") filtered) (fun dev =>
  rbind (series_abs dev) (fun abs_deviation =>
  Ok (setitem (VStr "Abs_Deviation") abs_deviation filtered))).

(** Line 194 of app.py. *)
Definition above_threshold_df (above_threshold : fval) (viz : DataFrame)
  : result DataFrame :=
  rbind (getitem (VStr "% Deviation") viz) (fun dev =>
  rbind (series_gt dev above_threshold) (fun mask =>
  Ok (boolean_index mask viz))).

(** Line 229 of app.py. *)
Definition below_threshold_df (below_threshold : fval) (viz : DataFrame)
  : result DataFrame :=
  rbind (getitem (VStr "% Deviation") viz) (fun dev =>
  rbind (series_lt dev below_threshold) (fun mask =>
  Ok (boolean_index mask viz))).

(** ** Further concrete inputs *)

(** A page without any table, and a page whose table has short rows
    only. *)
Definition empty_page : html := [].

Definition short_rows_page : html :=
  [ {| table_id := Some "constituents";
       th_texts := [];
       tr_rows := [ []; ["advert"; "banner"]; ["X"; "CoX"; "Tech"] ] |} ].

(** Worlds whose reference cache, or whose cache of moving averages, was
    written earlier. *)
Definition world_with_reference : world :=
  (save_to_cache frozen_clock (PFrame reference_X) "sp500_cache.pkl" empty_world).2.

Definition world_with_averages : world :=
  (save_to_cache frozen_clock (PFrame averages_BCD) "200wma_cache.pkl" empty_world).2.

(** A weekly answer of the provider with a symbol and no week. *)
Definition close_no_weeks : DataFrame :=
  {| index_name := Some "Date";
     columns_name := Some "Ticker";
     columns := [VStr "X"];
     rows := [] |}.

(** The averages for B, C, D under an index without a name. *)
Definition averages_unnamed : DataFrame :=
  {| index_name := None;
     columns_name := columns_name averages_BCD;
     columns := columns averages_BCD;
     rows := rows averages_BCD |}.

(** A merged table with the deviations -20, 25 and NaN. *)
Definition merged_CBE : DataFrame :=
  {| index_name := None;
     columns_name := None;
     columns := new_order;
     rows := [(VInt 2, [VFloat (Fin (-20)); VStr "C"; VStr "CoC"; VFloat (Fin 50);
                        VFloat (Fin 40); VStr "Health"; VStr "Pharma"]);
              (VInt 1, [VFloat (Fin 25); VStr "B"; VStr "CoB"; VFloat (Fin 80);
                        VFloat (Fin 100); VStr "Energy"; VStr "Oil"]);
              (VInt 3, [VFloat NaN; VStr "E"; VStr "CoE"; VFloat (Fin 0);
                        VFloat (Fin 0); VStr "Tech"; VStr "Software"])] |}.

(** The table of moving averages of [close_X]. *)
Definition averages_X : DataFrame :=
  {| index_name := Some "Ticker";
     columns_name := Some "Date";
     columns := [VTime 1; VTime 2; VTime 3; VStr "200wk_sma"; VStr "% Deviation"];
     rows := [(VStr "X", [VFloat (Fin 10); VFloat (Fin 20); VFloat (Fin 30);
                          VFloat (Fin 20); VFloat (Fin 50)])] |}.

(** A provider that answers with the daily closes of X and Z and the
    weekly closes of X. *)
Definition yf_download_daily_weekly (tickers : list value) (start : Z)
    (end_ : option Z) (i : interval) : pyobj :=
  match i with
  | Daily => PWide [("Close", daily_closes)]
  | Weekly => PWide [("Close", close_X)]
  end.

(** * Properties *)

(** ** The expiring blob cache *)

Lemma length_string_append (s t : string) :
  String.length (String.append s t) = (String.length s + String.length t)%nat.
Proof. induction s as [|c s IH]; simpl; [reflexivity | now rewrite IH]. Qed.

(** The metadata blob of a key is never the data blob of that key. *)
Lemma metadata_blob_ne (file_path : string) :
  _get_metadata_blob file_path <> _get_blob file_path.
Proof.
  unfold _get_metadata_blob, _get_blob. intros E.
  apply (f_equal String.length) in E.
  rewrite length_string_append in E. simpl in E. lia.
Qed.

Lemma blob_exists_Some name b w :
  bucket w !! name = Some b -> blob_exists name w = (Ok true, w).
Proof.
  intros H. unfold blob_exists. rewrite H.
  rewrite bool_decide_eq_true_2; [reflexivity | eauto].
Qed.

Lemma blob_exists_None name w :
  bucket w !! name = None -> blob_exists name w = (Ok false, w).
Proof.
  intros H. unfold blob_exists. rewrite H.
  rewrite bool_decide_eq_false_2; [reflexivity | ].
  intros [x Hx]. discriminate.
Qed.

(** Reduction of the monadic plumbing, leaving map lookups alone. *)
Ltac mred :=
  repeat (progress (cbv beta iota;
                    cbn [negb fst snd bucket tick pickle_load metadata_date
                         read_csv rbind])).

Ltac unfold_cache :=
  unfold load_from_cache, save_to_cache, load_csv_from_cache,
    bind, blob_exists, blob_read, blob_write, lift, ret, raise, datetime_now;
  mred.

Ltac exists_true := rewrite bool_decide_eq_true_2 by eauto; mred.
Ltac exists_false :=
  rewrite bool_decide_eq_false_2 by (intros [? ?]; discriminate); mred.

Section CacheProperties.

Variable clock : nat -> Z.

(** What [save_to_cache] leaves behind. *)
Lemma save_to_cache_spec data file_path w :
  save_to_cache clock data file_path w =
  (Ok tt,
   {| bucket := <[_get_metadata_blob file_path := Pickled (PMeta (clock (tick w)))]>
                  (<[_get_blob file_path := Pickled data]> (bucket w));
      tick := S (tick w) |}).
Proof. reflexivity. Qed.

(** A hit: both blobs are there and the entry is not older than
    [max_age_days]. *)
Lemma load_from_cache_hit file_path max_age_days w o written_at :
  bucket w !! _get_blob file_path = Some (Pickled o) ->
  bucket w !! _get_metadata_blob file_path = Some (Pickled (PMeta written_at)) ->
  clock (tick w) - written_at <= timedelta_days max_age_days ->
  load_from_cache clock file_path max_age_days w =
  (Ok (Some o), {| bucket := bucket w; tick := S (tick w) |}).
Proof.
  intros Hb Hm Hage.
  unfold_cache.
  repeat (first [rewrite Hb | rewrite Hm | exists_true]; mred).
  destruct (Z.gtb_spec (clock (tick w) - written_at) (timedelta_days max_age_days));
    [lia | ].
  mred. rewrite Hb. reflexivity.
Qed.

(** The store is only read by [load_from_cache]. *)
Lemma load_from_cache_bucket file_path max_age_days w :
  bucket (load_from_cache clock file_path max_age_days w).2 = bucket w.
Proof.
  unfold_cache.
  destruct (bool_decide (is_Some (bucket w !! _get_blob file_path))); mred;
    [ | reflexivity].
  destruct (bool_decide (is_Some (bucket w !! _get_metadata_blob file_path)));
    mred; [ | reflexivity].
  destruct (bucket w !! _get_metadata_blob file_path) as [m|]; mred;
    [ | reflexivity].
  destruct m as [meta|]; mred; [ | reflexivity].
  destruct meta as [d| |]; mred; try reflexivity.
  destruct (clock (tick w) - d >? timedelta_days max_age_days); mred;
    [reflexivity | ].
  destruct (bucket w !! _get_blob file_path) as [b|]; mred; [ | reflexivity].
  destruct b; reflexivity.
Qed.

(** The entry read after a write, whatever time has passed in between,
    as long as it is within the maximum age. *)
Lemma load_after_save file_path data max_age_days w :
  clock (S (tick w)) - clock (tick w) <= timedelta_days max_age_days ->
  load_from_cache clock file_path max_age_days
    (save_to_cache clock data file_path w).2 =
  (Ok (Some data),
   {| bucket := bucket (save_to_cache clock data file_path w).2;
      tick := S (S (tick w)) |}).
Proof.
  intros Hage. rewrite save_to_cache_spec. simpl.
  erewrite load_from_cache_hit; [reflexivity | | | ]; simpl.
  - rewrite lookup_insert_ne by apply metadata_blob_ne.
    apply lookup_insert_eq.
  - apply lookup_insert_eq.
  - exact Hage.
Qed.




End CacheProperties.

(** ** The reference loader and the price fetcher *)

(** The loop of the loader is a filter followed by a map. *)
Lemma extract_rows_filter_map (trs : list (list string)) :
  extract_rows trs =
  map (fun cols => {| Ticker := strip (nth 0 cols EmptyString);
                      Security := strip (nth 1 cols EmptyString);
                      Sector := strip (nth 2 cols EmptyString);
                      Industry := strip (nth 3 cols EmptyString) |})
      (List.filter (fun cols => (4 <=? length cols)%nat) trs).
Proof.
  induction trs as [|cols trs IH]; [reflexivity | ].
  cbn [extract_rows List.filter].
  destruct (4 <=? length cols)%nat; cbn [map]; rewrite IH; reflexivity.
Qed.

Section LoaderProperties.

Variable clock : nat -> Z.
Variable requests_get : string -> html.
Variable yf_download : list value -> Z -> option Z -> interval -> pyobj.

(** On a miss the loader returns the frame of the rows it extracted. *)
Lemma loader_miss (w : world) (table : html_table) :
  (load_from_cache clock "sp500_cache.pkl" 1 w).1 = Ok None ->
  soup_find_table "constituents" (requests_get sp500_url) = Some table ->
  (load_or_download_sp500_tickers clock requests_get w).1 =
  Ok (PFrame (DataFrame_of_records (extract_rows (tail (tr_rows table))))).
Proof.
  intros Hmiss Htable. unfold load_or_download_sp500_tickers, bind.
  destruct (load_from_cache clock "sp500_cache.pkl" 1 w) as [[o|e] w'];
    simpl in Hmiss; [ | discriminate].
  injection Hmiss as ->. rewrite Htable. reflexivity.
Qed.

(** C6, as amended. A table with the data rows [4+ cells], [2 cells],
    [4+ cells] gives exactly two records, in document order; every data
    row with at least 4 cells contributes the text of its first four cells
    with the surrounding whitespace stripped, and every shorter row is
    skipped. *)
Theorem loader_skips_short_rows (w : world) (table : html_table)
    (header : list string)
    (a0 a1 a2 a3 : string) (arest : list string) (b0 b1 : string)
    (c0 c1 c2 c3 : string) (crest : list string) :
  (load_from_cache clock "sp500_cache.pkl" 1 w).1 = Ok None ->
  soup_find_table "constituents" (requests_get sp500_url) = Some table ->
  tr_rows table =
    [header; a0 :: a1 :: a2 :: a3 :: arest; [b0; b1];
     c0 :: c1 :: c2 :: c3 :: crest] ->
  (load_or_download_sp500_tickers clock requests_get w).1 =
    Ok (PFrame
          {| index_name := None;
             columns_name := None;
             columns := [VStr "Ticker"; VStr "Security"; VStr "Sector";
                         VStr "Industry"];
             rows := [(VInt 0, [VStr (strip a0); VStr (strip a1);
                                VStr (strip a2); VStr (strip a3)]);
                      (VInt 1, [VStr (strip c0); VStr (strip c1);
                                VStr (strip c2); VStr (strip c3)])] |}) /\
  (forall trs : list (list string),
     extract_rows trs =
     map (fun cols => {| Ticker := strip (nth 0 cols EmptyString);
                         Security := strip (nth 1 cols EmptyString);
                         Sector := strip (nth 2 cols EmptyString);
                         Industry := strip (nth 3 cols EmptyString) |})
         (List.filter (fun cols => (4 <=? length cols)%nat) trs)).
Proof.
  intros Hmiss Htable Hrows. split; [ | apply extract_rows_filter_map].
  rewrite (loader_miss w table Hmiss Htable), Hrows. reflexivity.
Qed.

(** C7. On a hit of the price cache the price fetcher returns the cached
    payload and leaves the same state behind whatever [as_of] is. *)
Theorem cache_hit_ignores_as_of (sp500_df d : pyobj) (w : world)
    (as_of1 as_of2 : Z) :
  (load_from_cache clock "data_cache.pkl" 1 w).1 = Ok (Some d) ->
  load_or_download_data clock yf_download sp500_df as_of1 w =
    load_or_download_data clock yf_download sp500_df as_of2 w /\
  (load_or_download_data clock yf_download sp500_df as_of1 w).1 = Ok d.
Proof.
  intros Hhit. unfold load_or_download_data, bind.
  destruct (load_from_cache clock "data_cache.pkl" 1 w) as [[o|e] w'];
    simpl in Hhit; [ | discriminate].
  injection Hhit as ->. split; reflexivity.
Qed.

End LoaderProperties.

(** ** Lists, labels and Series *)

Lemma mapR_ok {A B} (f : A -> result B) (g : A -> B) (l : list A) :
  (forall x, In x l -> f x = Ok (g x)) -> mapR f l = Ok (map g l).
Proof.
  induction l as [|x l IH]; intros H; [reflexivity | ].
  cbn [mapR map]. rewrite (H x) by (left; reflexivity).
  cbn [rbind]. rewrite IH; [reflexivity | ].
  intros y Hy. apply H. right. exact Hy.
Qed.

Lemma series_binop_map {A} (f : fval -> fval -> fval) (a b c : A -> value)
    (l : list A) :
  (forall x, In x l -> vbinop f (a x) (b x) = Ok (c x)) ->
  series_binop f (map a l) (map b l) = Ok (map c l).
Proof.
  induction l as [|x l IH]; intros H; [reflexivity | ].
  cbn [series_binop map]. rewrite (H x) by (left; reflexivity).
  cbn [rbind]. rewrite IH; [reflexivity | ].
  intros y Hy. apply H. right. exact Hy.
Qed.

Lemma zip_with_map_same {A B C} (h : A -> B -> C) (g : A -> B) (l : list A) :
  zip_with h l (map g l) = map (fun x => h x (g x)) l.
Proof. induction l as [|x l IH]; [reflexivity | ]. cbn. now rewrite IH. Qed.

Lemma value_eqb_refl_str (s : string) : value_eqb (VStr s) (VStr s) = true.
Proof. apply String.eqb_refl. Qed.

Lemma has_label_app (l : value) (cs ds : list value) :
  has_label l (cs ++ ds) = has_label l cs || has_label l ds.
Proof. apply existsb_app. Qed.

Lemma has_label_cons (l c : value) (cs : list value) :
  has_label l (c :: cs) = value_eqb l c || has_label l cs.
Proof. reflexivity. Qed.

Lemma has_label_str_times (s : string) (cs : list value) :
  forallb is_time cs = true -> has_label (VStr s) cs = false.
Proof.
  induction cs as [|c cs IH]; [reflexivity | ].
  cbn [forallb has_label existsb]. intros H.
  apply andb_prop in H as [Hc Hcs].
  destruct c; try discriminate. cbn. apply IH, Hcs.
Qed.

Lemma positions_from_absent (i : nat) (l : value) (cs : list value) :
  has_label l cs = false -> positions_from i l cs = [].
Proof.
  revert i. induction cs as [|c cs IH]; intros i H; [reflexivity | ].
  cbn [has_label existsb] in H. apply orb_false_elim in H as [Hc Hcs].
  cbn [positions_from]. rewrite Hc. apply IH, Hcs.
Qed.

Lemma positions_from_app (i : nat) (l : value) (cs ds : list value) :
  positions_from i l (cs ++ ds) =
  positions_from i l cs ++ positions_from (i + length cs) l ds.
Proof.
  revert i. induction cs as [|c cs IH]; intros i.
  - cbn. now rewrite Nat.add_0_r.
  - cbn [app positions_from length]. rewrite IH.
    replace (S i + length cs)%nat with (i + S (length cs))%nat by lia.
    destruct (value_eqb l c); reflexivity.
Qed.

(** The position of a label that occurs after a prefix without it. *)
Lemma get_loc_after (l : value) (cs ds : list value) :
  has_label l cs = false -> value_eqb l l = true -> has_label l ds = false ->
  get_loc l (cs ++ l :: ds) = Ok (length cs).
Proof.
  intros Hcs Hrefl Hds. unfold get_loc, positions.
  rewrite positions_from_app, (positions_from_absent _ _ _ Hcs).
  cbn [app positions_from]. rewrite Hrefl.
  rewrite (positions_from_absent _ _ _ Hds). reflexivity.
Qed.

Lemma cell_app_at (cs ds : list value) (v : value) :
  cell (length cs) (cs ++ v :: ds) = v.
Proof. unfold cell. rewrite app_nth2 by lia. now rewrite Nat.sub_diag. Qed.

Lemma cell_app_before (i : nat) (cs ds : list value) :
  (i < length cs)%nat -> cell i (cs ++ ds) = cell i cs.
Proof. intros H. unfold cell. now rewrite app_nth1. Qed.

Lemma cell_last (cs : list value) :
  cs <> [] -> cell (length cs - 1) cs = List.last cs vnan.
Proof.
  intros H. unfold cell.
  destruct (exists_last H) as [cs' [v ->]].
  rewrite last_last, length_app. cbn [length].
  rewrite app_nth2 by lia.
  replace (length cs' + 1 - 1 - length cs')%nat with 0%nat by lia. reflexivity.
Qed.

Lemma mapR_map_ok {A B C} (f : B -> result C) (c : A -> B) (g : A -> C)
    (l : list A) :
  (forall x, In x l -> f (c x) = Ok (g x)) -> mapR f (map c l) = Ok (map g l).
Proof.
  induction l as [|x l IH]; intros H; [reflexivity | ].
  cbn [mapR map]. rewrite (H x) by (left; reflexivity).
  cbn [rbind]. rewrite IH; [reflexivity | ].
  intros y Hy. apply H. right. exact Hy.
Qed.

Lemma zip_with_map_map {A B C D} (h : B -> C -> D) (a : A -> B) (b : A -> C)
    (l : list A) :
  zip_with h (map a l) (map b l) = map (fun x => h (a x) (b x)) l.
Proof. induction l as [|x l IH]; [reflexivity | ]. cbn. now rewrite IH. Qed.

(** ** The moving-average columns *)

Lemma to_float_float_cell (v : value) :
  is_float_cell v = true -> to_float v = Some (as_float v).
Proof. destruct v; try discriminate. reflexivity. Qed.

Lemma floats_of_ok (cells : list value) :
  forallb is_float_cell cells = true -> floats_of cells = Ok (map as_float cells).
Proof.
  intros H. unfold floats_of. apply mapR_ok. intros v Hv.
  rewrite forallb_forall in H. now rewrite (to_float_float_cell v (H v Hv)).
Qed.

Lemma round2_float_cells (cells : list value) :
  forallb is_float_cell (map value_round2 cells) = forallb is_float_cell cells.
Proof.
  induction cells as [|v cells IH]; [reflexivity | ].
  cbn [map forallb]. rewrite IH. destruct v; reflexivity.
Qed.

Lemma last_float_cell (cells : list value) :
  cells <> [] -> forallb is_float_cell cells = true ->
  is_float_cell (List.last cells vnan) = true.
Proof.
  intros Hne H. destruct (exists_last Hne) as [cs [v ->]].
  rewrite last_last. rewrite forallb_app in H.
  apply andb_prop in H as [_ H]. cbn in H. now rewrite andb_true_r in H.
Qed.

Lemma vbinop_floats (f : fval -> fval -> fval) (a b : value) :
  is_float_cell a = true -> is_float_cell b = true ->
  vbinop f a b = Ok (VFloat (f (as_float a) (as_float b))).
Proof.
  intros Ha Hb. unfold vbinop.
  now rewrite (to_float_float_cell a Ha), (to_float_float_cell b Hb).
Qed.

(** Replacing the last column of a row. *)
Lemma replace_last_column (l v a : value) (cols cells : list value) :
  length cells = length cols -> has_label l cols = false ->
  value_eqb l a = false -> value_eqb l l = true ->
  forall x y,
  zip_with (fun c z => if value_eqb l c then v else z)
           (cols ++ [a; l]) (cells ++ [x; y]) = cells ++ [x; v].
Proof.
  intros Hlen Habs Ha Hl x y. revert cells Hlen Habs.
  induction cols as [|c cols IH]; intros [|z cells] Hlen Habs;
    try discriminate.
  - cbn. now rewrite Ha, Hl.
  - cbn [has_label existsb] in Habs. apply orb_false_elim in Habs as [Hc Hcs].
    cbn [app zip_with]. rewrite Hc. f_equal. apply IH; [ | exact Hcs].
    now injection Hlen.
Qed.

Lemma homogeneous_floats (ks : list value) :
  forallb is_float_cell ks = true -> homogeneous ks = true.
Proof.
  intros H. unfold homogeneous.
  assert (Hf : forall k, In k (List.filter (fun k => negb (value_is_nan k)) ks) ->
               is_float_cell k = true).
  { intros k Hk. apply filter_In in Hk as [Hk _].
    rewrite forallb_forall in H. now apply H. }
  destruct (List.filter (fun k => negb (value_is_nan k)) ks) as [|k ks'];
    [reflexivity | ].
  apply forallb_forall. intros k' Hk'.
  assert (Hk1 := Hf k (or_introl eq_refl)).
  assert (Hk2 := Hf k' (or_intror Hk')).
  destruct k; try discriminate. destruct k'; try discriminate. reflexivity.
Qed.

Lemma weekly_grid_inv (g : DataFrame) :
  weekly_grid g = true ->
  (1 <= length (columns g))%nat /\
  forallb is_time (columns g) = true /\
  (forall r, In r (rows g) ->
     length r.2 = length (columns g) /\ forallb is_float_cell r.2 = true).
Proof.
  unfold weekly_grid. intros H.
  apply andb_prop in H as [H Hr]. apply andb_prop in H as [Hn Ht].
  split; [now apply Nat.leb_le | ]. split; [exact Ht | ].
  intros r Hin. rewrite forallb_forall in Hr. specialize (Hr r Hin).
  apply andb_prop in Hr as [Hl Hf]. split; [now apply Nat.eqb_eq | exact Hf].
Qed.

(** Lines 123 to 126 on a grid: every row gets its rounded mean and its
    rounded deviation appended, and the rows are sorted on the latter. *)
Lemma sma_columns_rows (g : DataFrame) :
  weekly_grid g = true ->
  sma_columns g =
  Ok {| index_name := index_name g;
        columns_name := columns_name g;
        columns := columns g ++ [VStr "200wk_sma"; VStr "% Deviation"];
        rows := merge_sort (row_le false [S (length (columns g))])
                           (map sma_row (rows g)) |}.
Proof.
  intros Hg. apply weekly_grid_inv in Hg as (Hn & Ht & Hr).
  destruct g as [iname cname cols R]. cbn [columns rows index_name columns_name] in *.
  assert (Hsma : has_label (VStr "200wk_sma") cols = false)
    by (apply has_label_str_times, Ht).
  assert (Hdev : has_label (VStr "% Deviation") cols = false)
    by (apply has_label_str_times, Ht).
  set (fsma := fun r : value * list value => VFloat (row_sma r.2)).
  set (flatest := fun r : value * list value => List.last r.2 vnan).
  set (fdiff := fun r : value * list value =>
         VFloat (fsub (as_float (List.last r.2 vnan)) (row_sma r.2))).
  set (fratio := fun r : value * list value =>
         VFloat (fdiv (fsub (as_float (List.last r.2 vnan)) (row_sma r.2))
                      (row_sma r.2))).
  set (fdev := fun r : value * list value =>
         VFloat (fmul (fdiv (fsub (as_float (List.last r.2 vnan)) (row_sma r.2))
                            (row_sma r.2)) (Fin 100))).
  set (g0 := {| index_name := iname; columns_name := cname;
                columns := cols; rows := R |}).
  set (g1 := {| index_name := iname; columns_name := cname;
                columns := cols ++ [VStr "200wk_sma"];
                rows := map (fun r => (r.1, r.2 ++ [fsma r])) R |}).
  set (g2 := {| index_name := iname; columns_name := cname;
                columns := cols ++ [VStr "200wk_sma"; VStr "% Deviation"];
                rows := map (fun r => (r.1, r.2 ++ [fsma r; fdev r])) R |}).
  set (g3 := {| index_name := iname; columns_name := cname;
                columns := cols ++ [VStr "200wk_sma"; VStr "% Deviation"];
                rows := map sma_row R |}).
  (* line 123 *)
  assert (E1 : mean_axis1 g0 =
               Ok (map (fun r => VFloat (nanmean (map as_float r.2))) R)).
  { unfold mean_axis1. apply mapR_ok. intros r Hin.
    destruct (Hr r Hin) as [_ Hf]. now rewrite (floats_of_ok _ Hf). }
  assert (E2 : setitem (VStr "200wk_sma")
                 (series_round2 (map (fun r => VFloat (nanmean (map as_float r.2))) R))
                 g0 = g1).
  { unfold setitem, g0, g1. cbn [columns rows index_name columns_name].
    rewrite Hsma. unfold series_round2. rewrite map_map, zip_with_map_same.
    reflexivity. }
  (* line 124 *)
  assert (E3 : iloc_col_from_end 2 g1 = Ok (map flatest R)).
  { unfold iloc_col_from_end, g1. cbn [columns rows].
    rewrite length_app. cbn [length].
    destruct (Nat.ltb_spec (length cols + 1) 2) as [Hlt|_]; [lia | ].
    rewrite map_map. f_equal. apply map_ext_in. intros r Hin.
    destruct (Hr r Hin) as [Hl _]. cbn [snd].
    rewrite cell_app_before by lia.
    replace (length cols + 1 - 2)%nat with (length r.2 - 1)%nat by lia.
    apply cell_last. intros E. rewrite E in Hl. cbn in Hl. lia. }
  assert (E4 : getitem (VStr "200wk_sma") g1 = Ok (map fsma R)).
  { unfold getitem, g1. cbn [columns rows].
    rewrite (get_loc_after (VStr "200wk_sma") cols []) by
      (first [exact Hsma | reflexivity]).
    cbn [rbind]. rewrite map_map. f_equal. apply map_ext_in. intros r Hin.
    destruct (Hr r Hin) as [Hl _]. cbn [snd]. rewrite <- Hl. apply cell_app_at. }
  assert (E5 : series_binop fsub (map flatest R) (map fsma R) = Ok (map fdiff R)).
  { apply series_binop_map. intros r Hin. destruct (Hr r Hin) as [Hl Hf].
    unfold flatest, fsma, fdiff. rewrite vbinop_floats; [reflexivity | | reflexivity].
    apply last_float_cell; [ | exact Hf].
    intros E. rewrite E in Hl. cbn in Hl. lia. }
  assert (E6 : series_binop fdiv (map fdiff R) (map fsma R) = Ok (map fratio R)).
  { apply series_binop_map. intros r Hin. reflexivity. }
  assert (E7 : series_scalar fmul (map fratio R) (Fin 100) = Ok (map fdev R)).
  { unfold series_scalar. apply mapR_map_ok. intros r Hin. reflexivity. }
  assert (E8 : setitem (VStr "% Deviation") (map fdev R) g1 = g2).
  { unfold setitem, g1, g2. cbn [columns rows index_name columns_name].
    rewrite has_label_app, Hdev.
    change (has_label (VStr "% Deviation") [VStr "200wk_sma"]) with false.
    cbn [orb]. rewrite zip_with_map_map. rewrite <- app_assoc. cbn [app fst snd].
    f_equal. apply map_ext. intros r. now rewrite <- app_assoc. }
  (* line 125 *)
  assert (E9 : getitem (VStr "% Deviation") g2 = Ok (map fdev R)).
  { unfold getitem, g2. cbn [columns rows].
    change (cols ++ [VStr "200wk_sma"; VStr "% Deviation"])
      with (cols ++ [VStr "200wk_sma"] ++ [VStr "% Deviation"]).
    rewrite app_assoc.
    rewrite (get_loc_after (VStr "% Deviation") (cols ++ [VStr "200wk_sma"]) []).
    2:{ rewrite has_label_app, Hdev. reflexivity. }
    2,3: reflexivity.
    cbn [rbind]. rewrite map_map. f_equal. apply map_ext_in. intros r Hin.
    destruct (Hr r Hin) as [Hl _]. cbn [snd].
    change (r.2 ++ [fsma r; fdev r]) with (r.2 ++ [fsma r] ++ [fdev r]).
    rewrite app_assoc.
    replace (length (cols ++ [VStr "200wk_sma"])) with (length (r.2 ++ [fsma r]))
      by (rewrite !length_app; cbn [length]; lia).
    apply cell_app_at. }
  assert (E10 : setitem (VStr "% Deviation") (series_round2 (map fdev R)) g2 = g3).
  { unfold setitem, g2, g3. cbn [columns rows index_name columns_name].
    rewrite has_label_app.
    change (has_label (VStr "% Deviation") [VStr "200wk_sma"; VStr "% Deviation"])
      with true.
    rewrite orb_true_r. unfold series_round2.
    rewrite map_map, zip_with_map_map. f_equal. apply map_ext_in. intros r Hin.
    destruct (Hr r Hin) as [Hl _]. cbn [fst snd]. unfold sma_row. f_equal.
    rewrite (replace_last_column (VStr "% Deviation") _ (VStr "200wk_sma")
               cols r.2 Hl Hdev eq_refl eq_refl).
    reflexivity. }
  (* line 126 *)
  assert (E11 : sort_values [VStr "% Deviation"] false g3 =
                Ok {| index_name := iname; columns_name := cname;
                      columns := cols ++ [VStr "200wk_sma"; VStr "% Deviation"];
                      rows := merge_sort (row_le false [S (length cols)])
                                         (map sma_row R) |}).
  { unfold sort_values, g3. cbn [columns rows index_name columns_name mapR].
    change (cols ++ [VStr "200wk_sma"; VStr "% Deviation"])
      with (cols ++ [VStr "200wk_sma"] ++ [VStr "% Deviation"]).
    rewrite app_assoc.
    rewrite (get_loc_after (VStr "% Deviation") (cols ++ [VStr "200wk_sma"]) []).
    2:{ rewrite has_label_app, Hdev. reflexivity. }
    2,3: reflexivity.
    cbn [rbind forallb]. rewrite length_app. cbn [length].
    replace (length cols + 1)%nat with (S (length cols)) by lia.
    rewrite homogeneous_floats; [reflexivity | ].
    rewrite map_map. apply forallb_forall. intros v Hv.
    apply in_map_iff in Hv as [r [<- Hin]].
    destruct (Hr r Hin) as [Hl _]. unfold sma_row. cbn [snd].
    change (r.2 ++ [VFloat (row_sma r.2); VFloat (row_deviation r.2)])
      with (r.2 ++ [VFloat (row_sma r.2)] ++ [VFloat (row_deviation r.2)]).
    rewrite app_assoc.
    replace (S (length cols)) with (length (r.2 ++ [VFloat (row_sma r.2)]))
      by (rewrite length_app; cbn [length]; lia).
    rewrite cell_app_at. reflexivity. }
  unfold sma_columns. fold g0.
  rewrite E1. cbn [rbind]. rewrite E2, E3. cbn [rbind]. rewrite E4. cbn [rbind].
  rewrite E5. cbn [rbind]. rewrite E6. cbn [rbind]. rewrite E7. cbn [rbind].
  rewrite E8, E9. cbn [rbind]. rewrite E10. exact E11.
Qed.

Lemma weekly_grid_round2 (g : DataFrame) :
  weekly_grid g = true -> weekly_grid (df_round2 g) = true.
Proof.
  unfold weekly_grid. cbn [df_round2 columns rows]. intros H.
  apply andb_prop in H as [H Hr]. rewrite H. cbn [andb].
  rewrite forallb_forall in Hr. apply forallb_forall. intros r' Hin.
  apply in_map_iff in Hin as [r [<- Hin]]. cbn [snd].
  rewrite length_map, round2_float_cells. now apply Hr.
Qed.

(** Lines 122 to 126: the rows of the result are the rows of the grid,
    rounded and extended, in some order. *)
Lemma sma_table_rows (close : DataFrame) :
  weekly_grid (T close) = true ->
  exists out,
    sma_table close = Ok out /\
    columns out = columns (T close) ++ [VStr "200wk_sma"; VStr "% Deviation"] /\
    forall X cells, In (X, cells) (rows (T close)) ->
      In (sma_row (X, map value_round2 cells)) (rows out).
Proof.
  intros Hg. unfold sma_table.
  rewrite (sma_columns_rows _ (weekly_grid_round2 _ Hg)).
  eexists. split; [reflexivity | ]. split; [reflexivity | ].
  intros X cells Hin. cbn [rows].
  eapply Permutation_in; [symmetry; apply merge_sort_Permutation | ].
  apply in_map. cbn [df_round2 rows].
  change (X, map value_round2 cells)
    with ((fun r : value * list value => (r.1, map value_round2 r.2)) (X, cells)).
  apply in_map. exact Hin.
Qed.





Section MovingAverageFetcher.

Variable clock : nat -> Z.
Variable requests_get : string -> html.
Variable yf_download : list value -> Z -> option Z -> interval -> pyobj.

(** The fetcher on a miss: the table of lines 122 to 126, computed from
    what the provider returns. *)
Lemma fetch_sma_miss (w : world) (sp : pyobj) (tickers : list value)
    (close out : DataFrame) :
  (load_from_cache clock "200wma_cache.pkl" 1 w).1 = Ok None ->
  (load_or_download_sp500_tickers clock requests_get
     (load_from_cache clock "200wma_cache.pkl" 1 w).2).1 = Ok sp ->
  column_tolist "Ticker" sp = Ok tickers ->
  (forall start_date end_date,
     wide_getitem "Close" (yf_download tickers start_date end_date Weekly)
     = Ok close) ->
  sma_table close = Ok out ->
  (fetch_200_wk_simple_moving_average_SMA clock requests_get yf_download w).1
  = Ok (PFrame out).
Proof.
  intros Hmiss Hsp Htick Hclose Hout.
  unfold fetch_200_wk_simple_moving_average_SMA, bind.
  destruct (load_from_cache clock "200wma_cache.pkl" 1 w) as [[o|e] w0];
    cbn [fst snd] in *; [ | discriminate].
  injection Hmiss as ->.
  destruct (load_or_download_sp500_tickers clock requests_get w0) as [[sp'|e] w1];
    cbn [fst snd] in *; [ | discriminate].
  injection Hsp as ->.
  unfold datetime_now, lift. rewrite Htick, Hclose, Hout. reflexivity.
Qed.

(** C1, as amended. For a symbol [X] whose row of weekly closes is
    [10, 20, 30], the fetcher computes the moving average 20.0, and the
    deviation from the column at index -2 of the frame to which the mean
    has been appended, which is the last weekly close, 30: 50.0 percent. *)
Theorem sma_of_10_20_30 (w : world) (sp : pyobj) (tickers : list value)
    (close : DataFrame) (X : value) :
  (load_from_cache clock "200wma_cache.pkl" 1 w).1 = Ok None ->
  (load_or_download_sp500_tickers clock requests_get
     (load_from_cache clock "200wma_cache.pkl" 1 w).2).1 = Ok sp ->
  column_tolist "Ticker" sp = Ok tickers ->
  (forall start_date end_date,
     wide_getitem "Close" (yf_download tickers start_date end_date Weekly)
     = Ok close) ->
  weekly_grid (T close) = true ->
  In (X, [VFloat (Fin 10); VFloat (Fin 20); VFloat (Fin 30)]) (rows (T close)) ->
  exists out,
    (fetch_200_wk_simple_moving_average_SMA clock requests_get yf_download w).1
    = Ok (PFrame out) /\
    columns out = columns (T close) ++ [VStr "200wk_sma"; VStr "% Deviation"] /\
    In (X, [VFloat (Fin 10); VFloat (Fin 20); VFloat (Fin 30);
            VFloat (Fin 20); VFloat (Fin 50)]) (rows out).
Proof.
  intros Hmiss Hsp Htick Hclose Hg Hin.
  destruct (sma_table_rows close Hg) as (out & Hout & Hcols & Hrows).
  exists out. split; [ | split].
  - exact (fetch_sma_miss w sp tickers close out Hmiss Hsp Htick Hclose Hout).
  - exact Hcols.
  - exact (Hrows X _ Hin).
Qed.

End MovingAverageFetcher.

(** ** The order of [sort_values] *)

Lemma fval_leb_total (x y : fval) : fval_leb x y = true \/ fval_leb y x = true.
Proof.
  destruct x as [a| | |], y as [b| | |]; cbn; auto.
  destruct (Qle_bool a b) eqn:E; [now left | right].
  apply Qle_bool_iff. apply Qlt_le_weak. apply Qnot_le_lt.
  intros H. apply Qle_bool_iff in H. congruence.
Qed.

Lemma fval_leb_trans (x y z : fval) :
  fval_leb x y = true -> fval_leb y z = true -> fval_leb x z = true.
Proof.
  destruct x as [a| | |], y as [b| | |], z as [c| | |]; cbn; try congruence.
  rewrite !Qle_bool_iff. apply Qle_trans.
Qed.

Lemma value_leb_total (a b : value) : value_leb a b = true \/ value_leb b a = true.
Proof.
  destruct a, b; unfold value_leb; cbn [to_float value_class];
    try apply fval_leb_total; try (now left); try (now right).
  - apply String.leb_total.
  - destruct (Z.leb_spec t t0); [now left | right]. apply Z.leb_le. lia.
Qed.

Lemma key_leb_total (asc : bool) (a b : value) :
  key_leb asc a b = true \/ key_leb asc b a = true.
Proof.
  unfold key_leb.
  destruct (value_is_nan b); [now left | ].
  destruct (value_is_nan a); [now right | ].
  destruct asc; [apply value_leb_total | ].
  destruct (value_leb_total a b); auto.
Qed.

Lemma lex_leb_total (asc : bool) (ks1 ks2 : list value) :
  lex_leb asc ks1 ks2 = true \/ lex_leb asc ks2 ks1 = true.
Proof.
  revert ks2. induction ks1 as [|a ks1 IH]; intros [|b ks2]; cbn; auto.
  destruct (key_leb asc a b) eqn:Eab, (key_leb asc b a) eqn:Eba; cbn; auto.
Qed.

#[global] Instance row_le_total (asc : bool) (locs : list nat) :
  Total (row_le asc locs).
Proof.
  intros r1 r2. unfold row_le.
  destruct (lex_leb_total asc (take_cells locs r1.2) (take_cells locs r2.2)) as [H|H];
    rewrite H; [left | right]; exact I.
Qed.

(** With one sort column, the order of the rows is the order of the
    keys. *)
Lemma row_le_single (asc : bool) (i : nat) (r1 r2 : value * list value) :
  row_le asc [i] r1 r2 -> key_leb asc (cell i r1.2) (cell i r2.2) = true.
Proof.
  unfold row_le. cbn [take_cells map lex_leb].
  destruct (key_leb asc (cell i r1.2) (cell i r2.2)) eqn:E; [reflexivity | ].
  destruct (key_leb_total asc (cell i r1.2) (cell i r2.2)) as [H|H];
    [congruence | ].
  rewrite H. cbn. intros [].
Qed.

Lemma forallb_Permutation {A} (f : A -> bool) (l l' : list A) :
  Permutation l l' -> forallb f l = true -> forallb f l' = true.
Proof.
  intros HP H. apply forallb_forall. intros x Hx.
  rewrite forallb_forall in H. apply H.
  eapply Permutation_in; [symmetry; exact HP | exact Hx].
Qed.

(** Sorting a frame on a float column that exists once. *)
Lemma sort_values_float_column (l : value) (asc : bool) (df : DataFrame) (i : nat) :
  get_loc l (columns df) = Ok i ->
  forallb (fun r => is_float_cell (cell i r.2)) (rows df) = true ->
  sort_values [l] asc df =
  Ok {| index_name := index_name df;
        columns_name := columns_name df;
        columns := columns df;
        rows := merge_sort (row_le asc [i]) (rows df) |}.
Proof.
  intros Hloc Hf. unfold sort_values. cbn [mapR]. rewrite Hloc. cbn [rbind forallb].
  rewrite homogeneous_floats; [reflexivity | ].
  rewrite forallb_forall in Hf. apply forallb_forall. intros v Hv.
  apply in_map_iff in Hv as [r [<- Hin]]. now apply Hf.
Qed.

(** The keys of a frame sorted upwards on a float column are in
    ascending order, NaN last. *)
Lemma sorted_float_keys (i : nat) (rs : list (value * list value)) :
  forallb (fun r => is_float_cell (cell i r.2)) rs = true ->
  StronglySorted (fun x y => fval_leb x y = true)
    (map (fun r => as_float (cell i r.2)) (merge_sort (row_le true [i]) rs)).
Proof.
  intros Hf.
  apply Sorted_StronglySorted.
  { intros x y z. apply fval_leb_trans. }
  assert (Hf' : Forall (fun r => is_float_cell (cell i r.2) = true)
                  (merge_sort (row_le true [i]) rs)).
  { apply List.Forall_forall. intros r Hr.
    apply (forallb_Permutation _ _ _
             (Permutation_sym (merge_sort_Permutation (row_le true [i]) rs))) in Hf.
    rewrite forallb_forall in Hf. now apply Hf. }
  assert (Hs := Sorted_merge_sort (row_le true [i]) rs).
  induction Hs as [|r l Hs IH Hhd]; cbn [map]; constructor.
  - apply IH. now inversion Hf'.
  - destruct Hhd as [|r' l' Hrr']; cbn [map]; constructor.
    apply row_le_single in Hrr'.
    inversion Hf' as [|? ? Hr Hl]; subst. inversion Hl as [|? ? Hr' _]; subst.
    destruct (cell i r.2); try discriminate.
    destruct (cell i r'.2); try discriminate.
    unfold key_leb in Hrr'. cbn [as_float].
    destruct x as [a| | |], x0 as [b| | |]; cbn in *; congruence.
Qed.

(** ** Joins *)

Lemma value_eqb_str_eq (s : string) (v : value) :
  value_eqb v (VStr s) = true -> v = VStr s.
Proof.
  destruct v; cbn; try discriminate. intros H.
  apply String.eqb_eq in H. now subst.
Qed.

Lemma labels_eqb_strs (a : list value) (names : list string) :
  labels_eqb a (map VStr names) = true -> a = map VStr names.
Proof.
  revert a. induction names as [|n names IH]; intros [|x a]; cbn;
    try discriminate; [reflexivity | ].
  intros H. apply andb_prop in H as [Hx Ha].
  now rewrite (value_eqb_str_eq _ _ Hx), (IH _ Ha).
Qed.

Lemma key_eqb_strs (s t : string) :
  key_eqb (VStr s) (VStr t) = true <-> s = t.
Proof.
  unfold key_eqb. cbn. rewrite orb_false_r. apply String.eqb_eq.
Qed.

Lemma map_snd_imap {A B} (f : nat -> A -> B * A) (l : list A) :
  (forall i x, (f i x).2 = x) -> map snd (imap f l) = l.
Proof.
  revert f. induction l as [|x l IH]; intros f Hf; [reflexivity | ].
  cbn. rewrite Hf. f_equal. apply IH. intros i y. apply Hf.
Qed.

Lemma map_snd_range_index (cs : list (list value)) :
  map snd (range_index cs) = cs.
Proof. apply map_snd_imap. reflexivity. Qed.

Lemma imap_label_map_cells (F : list value -> list value) (lab : nat -> value)
    (cs : list (list value)) :
  map (fun r : value * list value => (r.1, F r.2))
      (imap (fun i c => (lab i, c)) cs)
  = imap (fun i c => (lab i, c)) (map F cs).
Proof.
  revert lab. induction cs as [|c cs IH]; intros lab; [reflexivity | ].
  cbn. f_equal. apply (IH (fun i => lab (S i))).
Qed.

Lemma map_cells_range_index {B} (F : list value -> B) (cs : list (list value)) :
  map (fun r : value * list value => F r.2) (range_index cs) = map F cs.
Proof.
  rewrite <- (map_snd_range_index cs) at 2. now rewrite map_map.
Qed.

Lemma range_index_map_cells (F : list value -> list value)
    (cs : list (list value)) :
  map (fun r : value * list value => (r.1, F r.2)) (range_index cs)
  = range_index (map F cs).
Proof. apply (imap_label_map_cells F (fun i => VInt (Z.of_nat i))). Qed.

Lemma filter_map_comm {A B} (f : B -> bool) (g : A -> B) (l : list A) :
  List.filter f (map g l) = map g (List.filter (fun x => f (g x)) l).
Proof.
  induction l as [|x l IH]; [reflexivity | ].
  cbn. destruct (f (g x)); cbn; now rewrite IH.
Qed.

Lemma join_rows_cells (how : join_kind) (lk rk width : nat) (L R : list (value * list value)) :
  join_rows how lk rk width L R = join_cells how lk rk width (map snd L) (map snd R).
Proof.
  unfold join_rows, join_cells. rewrite map_map. f_equal.
  apply map_ext. intros l. rewrite filter_map_comm.
  destruct (List.filter (fun x => key_eqb (cell lk l.2) (cell rk x.2)) R) as [|m ms];
    destruct how; cbn [map]; try reflexivity.
  - now rewrite !map_map.
  - now rewrite !map_map.
Qed.

(** ** The merger *)

Lemma price_table_inv (cp : DataFrame) :
  price_table cp = true ->
  index_name cp = None /\
  columns cp = price_columns /\
  (forall r, In r (rows cp) -> length r.2 = 6%nat /\ is_str (cell 1 r.2) = true).
Proof.
  unfold price_table. intros H.
  apply andb_prop in H as [H Hr]. apply andb_prop in H as [Hi Hc].
  split; [destruct (index_name cp); [discriminate | reflexivity] | ].
  split.
  - apply (labels_eqb_strs _
             ["Date"; "Ticker"; "Close"; "Security"; "Sector"; "Industry"]), Hc.
  - intros r Hin. rewrite forallb_forall in Hr. specialize (Hr r Hin).
    apply andb_prop in Hr as [Hl Hs]. split; [now apply Nat.eqb_eq | exact Hs].
Qed.

Lemma sma_frame_inv (ma : DataFrame) :
  sma_frame ma = true ->
  index_name ma = Some "Ticker" /\
  exists weeks,
    columns ma = weeks ++ [VStr "200wk_sma"; VStr "% Deviation"] /\
    forallb is_time weeks = true /\
    (forall r, In r (rows ma) ->
       is_str r.1 = true /\ length r.2 = (length weeks + 2)%nat /\
       is_float_cell (cell (length weeks + 1) r.2) = true).
Proof.
  unfold sma_frame. intros H.
  apply andb_prop in H as [H Hr]. apply andb_prop in H as [H Hlast].
  apply andb_prop in H as [H Hweeks]. apply andb_prop in H as [Hi Hn].
  apply Nat.leb_le in Hn.
  split.
  { destruct (index_name ma) as [n|]; [ | discriminate].
    apply String.eqb_eq in Hi. now subst. }
  exists (firstn (length (columns ma) - 2) (columns ma)).
  apply (labels_eqb_strs _ ["200wk_sma"; "% Deviation"]) in Hlast.
  assert (Hlen : length (firstn (length (columns ma) - 2) (columns ma))
                 = (length (columns ma) - 2)%nat)
    by (rewrite length_firstn; lia).
  split; [ | split].
  - cbn [map] in Hlast. rewrite <- Hlast. symmetry. apply firstn_skipn.
  - exact Hweeks.
  - intros r Hin. rewrite forallb_forall in Hr. specialize (Hr r Hin).
    apply andb_prop in Hr as [Hr Hf]. apply andb_prop in Hr as [Hs Hl].
    apply Nat.eqb_eq in Hl. rewrite Hlen.
    split; [exact Hs | ]. split; [lia | ].
    replace (length (columns ma) - 2 + 1)%nat with (length (columns ma) - 1)%nat
      by lia.
    exact Hf.
Qed.

Lemma positions_after (i : nat) (l : value) (cs ds : list value) :
  has_label l cs = false -> value_eqb l l = true -> has_label l ds = false ->
  positions_from i l (cs ++ l :: ds) = [(i + length cs)%nat].
Proof.
  intros Hcs Hrefl Hds.
  rewrite positions_from_app, (positions_from_absent _ _ _ Hcs).
  cbn [app positions_from]. rewrite Hrefl.
  now rewrite (positions_from_absent _ _ _ Hds).
Qed.

Lemma join_cells_inner (lk rk width : nat) (lcs rcs : list (list value)) :
  join_cells Inner lk rk width lcs rcs =
  concat (map (fun lc =>
            map (fun rc => lc ++ remove_nth rk rc)
                (List.filter (fun rc => key_eqb (cell lk lc) (cell rk rc)) rcs))
          lcs).
Proof.
  unfold join_cells. f_equal. apply map_ext. intros lc.
  destruct (List.filter _ rcs); reflexivity.
Qed.

Lemma concat_map_map {A B C} (F : B -> C) (f : A -> list B) (l : list A) :
  map F (concat (map f l)) = concat (map (fun x => map F (f x)) l).
Proof. now rewrite concat_map, map_map. Qed.

Lemma concat_map_ext_in {A B} (f g : A -> list B) (l : list A) :
  (forall x, In x l -> f x = g x) -> concat (map f l) = concat (map g l).
Proof. intros H. f_equal. now apply map_ext_in. Qed.

Lemma filter_ext_in_bool {A} (f g : A -> bool) (l : list A) :
  (forall x, In x l -> f x = g x) -> List.filter f l = List.filter g l.
Proof.
  induction l as [|x l IH]; intros H; [reflexivity | ].
  cbn. rewrite (H x) by (left; reflexivity).
  rewrite IH; [reflexivity | ]. intros y Hy. apply H. now right.
Qed.

Lemma cell_cons_S (i : nat) (x : value) (xs : list value) :
  cell (S i) (x :: xs) = cell i xs.
Proof. reflexivity. Qed.

Lemma In_range_index (cs : list (list value)) (r : value * list value) :
  In r (range_index cs) -> In r.2 cs.
Proof.
  intros H. rewrite <- (map_snd_range_index cs). now apply in_map.
Qed.

(** Every row of the join pairs a row of prices with a row of averages
    that has the same ticker. *)
Lemma in_inner_join_rows (cp ma : DataFrame) (row : list value) :
  In row (inner_join_rows cp ma) <->
  exists l r, In l (rows cp) /\ In r (rows ma) /\
              key_eqb (cell 1 l.2) r.1 = true /\
              row = merged_row (length (columns ma)) l.2 r.
Proof.
  unfold inner_join_rows. rewrite in_concat. split.
  - intros (rs & Hrs & Hrow). apply in_map_iff in Hrs as (l & <- & Hl).
    apply in_map_iff in Hrow as (r & <- & Hr).
    apply filter_In in Hr as [Hr Hk]. now exists l, r.
  - intros (l & r & Hl & Hr & Hk & ->).
    exists (map (merged_row (length (columns ma)) l.2)
                (List.filter (fun r => key_eqb (cell 1 l.2) r.1) (rows ma))).
    split.
    + apply in_map_iff. now exists l.
    + apply in_map. apply filter_In. now split.
Qed.

Section Merger.

Variable clock : nat -> Z.
Variable py_str : value -> string.

(** The frame the merger works on before it sorts: the fixed columns,
    and one row per pair of a row of prices and a row of averages with
    the same ticker. *)
Lemma merge_stock_data_unsorted (cp ma : DataFrame) :
  price_table cp = true -> sma_frame ma = true ->
  rbind (reset_index cp) (fun closing_prices =>
  rbind (reset_index ma) (fun moving_averages =>
  rbind (getitem_list [VStr "Ticker"; VStr "200wk_sma"; VStr "% Deviation"]
                      moving_averages) (fun right =>
  rbind (merge py_str Inner (VStr "Ticker") closing_prices right) (fun merged_df =>
  rbind (drop_columns [VStr "index"; VStr "Date"]
           (columns_astype_str py_str merged_df)) (fun merged_df =>
  getitem_list new_order
    (rename_columns [("200wk_sma", "200 Week SMA"); ("Security", "Company")]
                    merged_df))))))
  = Ok {| index_name := None;
          columns_name := None;
          columns := new_order;
          rows := range_index (inner_join_rows cp ma) |}.
Proof.
  intros Hcp Hma.
  apply price_table_inv in Hcp as (Hci & Hcc & Hcr).
  apply sma_frame_inv in Hma as (Hmi & weeks & Hmc & Hmt & Hmr).
  destruct cp as [ci cn ccols crows], ma as [mi mn mcols mrows].
  cbn [index_name columns_name columns rows] in *. subst ci ccols mi mcols.
  assert (Hsma : has_label (VStr "200wk_sma") weeks = false)
    by (apply has_label_str_times, Hmt).
  assert (Hdev : has_label (VStr "% Deviation") weeks = false)
    by (apply has_label_str_times, Hmt).
  assert (Htic : has_label (VStr "Ticker") weeks = false)
    by (apply has_label_str_times, Hmt).
  set (w := length weeks) in *.
  set (Lc := map (fun r : value * list value => r.1 :: r.2) crows).
  set (Rc := map (fun r : value * list value => r.1 :: r.2) mrows).
  set (ps := [0; S w; S (S w)]%nat).
  (* the two reset_index *)
  unfold reset_index at 1. cbn [index_name columns_name columns rows].
  change (has_label (VStr "index") price_columns) with false. cbn iota.
  change (has_label (VStr "index") price_columns) with false. cbn iota.
  cbn [rbind]. fold Lc.
  unfold reset_index at 1. cbn [index_name columns_name columns rows].
  rewrite has_label_app, Htic.
  change (has_label (VStr "Ticker") [VStr "200wk_sma"; VStr "% Deviation"])
    with false.
  cbn [orb rbind]. fold Rc.
  (* the three columns of the averages *)
  assert (Hlocs : locs_of [VStr "Ticker"; VStr "200wk_sma"; VStr "% Deviation"]
                    (VStr "Ticker" :: weeks ++ [VStr "200wk_sma"; VStr "% Deviation"])
                  = Ok ps).
  { assert (Ht : positions (VStr "Ticker")
                   (VStr "Ticker" :: weeks ++ [VStr "200wk_sma"; VStr "% Deviation"])
                 = [0%nat]).
    { apply (positions_after 0 (VStr "Ticker") []
               (weeks ++ [VStr "200wk_sma"; VStr "% Deviation"]));
        [reflexivity | reflexivity | ].
      rewrite has_label_app, Htic. reflexivity. }
    assert (Hs : positions (VStr "200wk_sma")
                   (VStr "Ticker" :: weeks ++ [VStr "200wk_sma"; VStr "% Deviation"])
                 = [S w]).
    { apply (positions_after 0 (VStr "200wk_sma") (VStr "Ticker" :: weeks)
               [VStr "% Deviation"]);
        [rewrite has_label_cons; exact Hsma | reflexivity | reflexivity]. }
    assert (Hd : positions (VStr "% Deviation")
                   (VStr "Ticker" :: weeks ++ [VStr "200wk_sma"; VStr "% Deviation"])
                 = [S (S w)]).
    { change (VStr "Ticker" :: weeks ++ [VStr "200wk_sma"; VStr "% Deviation"])
        with ((VStr "Ticker" :: weeks) ++ [VStr "200wk_sma"] ++ [VStr "% Deviation"]).
      rewrite app_assoc. unfold positions.
      rewrite (positions_after 0 (VStr "% Deviation")
                 ((VStr "Ticker" :: weeks) ++ [VStr "200wk_sma"]) []);
        [ | | reflexivity | reflexivity].
      - rewrite length_app. cbn [length]. fold w. f_equal. lia.
      - rewrite has_label_app, has_label_cons, Hdev. reflexivity. }
    cbn [locs_of]. rewrite Ht, Hs, Hd. reflexivity. }
  unfold getitem_list at 1. cbn [index_name columns_name columns rows].
  rewrite Hlocs. cbn [rbind].
  assert (Hcols3 : take_cells ps
                     (VStr "Ticker" :: weeks ++ [VStr "200wk_sma"; VStr "% Deviation"])
                   = [VStr "Ticker"; VStr "200wk_sma"; VStr "% Deviation"]).
  { unfold ps, take_cells. cbn [map]. rewrite !cell_cons_S. f_equal.
    unfold w.
    rewrite (cell_app_at weeks [VStr "% Deviation"] (VStr "200wk_sma")).
    f_equal.
    change (weeks ++ [VStr "200wk_sma"; VStr "% Deviation"])
      with (weeks ++ [VStr "200wk_sma"] ++ [VStr "% Deviation"]).
    rewrite app_assoc.
    replace (S (length weeks)) with (length (weeks ++ [VStr "200wk_sma"]))
      by (rewrite length_app; cbn [length]; lia).
    now rewrite cell_app_at. }
  rewrite Hcols3.
  (* the join, then the columns dropped, renamed and reordered *)
  remember (range_index Lc) as L eqn:HL.
  remember (map (fun r : value * list value => (r.1, take_cells ps r.2))
                (range_index Rc)) as R eqn:HR.
  assert (E4 : merge py_str Inner (VStr "Ticker")
                 {| index_name := None; columns_name := cn;
                    columns := VStr "index" :: price_columns; rows := L |}
                 {| index_name := None; columns_name := mn;
                    columns := [VStr "Ticker"; VStr "200wk_sma"; VStr "% Deviation"];
                    rows := R |}
               = Ok {| index_name := None; columns_name := None;
                       columns := VStr "index" :: price_columns
                                  ++ [VStr "200wk_sma"; VStr "% Deviation"];
                       rows := range_index (join_rows Inner 2 0 2 L R) |})
    by reflexivity.
  rewrite E4. cbn [rbind].
  remember (range_index (join_rows Inner 2 0 2 L R)) as J eqn:HJ.
  set (keep := [false; false; true; true; true; true; true; true; true]).
  assert (E6 : drop_columns [VStr "index"; VStr "Date"]
                 (columns_astype_str py_str
                    {| index_name := None; columns_name := None;
                       columns := VStr "index" :: price_columns
                                  ++ [VStr "200wk_sma"; VStr "% Deviation"];
                       rows := J |})
               = Ok {| index_name := None; columns_name := None;
                       columns := [VStr "Ticker"; VStr "Close"; VStr "Security";
                                   VStr "Sector"; VStr "Industry";
                                   VStr "200wk_sma"; VStr "% Deviation"];
                       rows := map (fun r => (r.1, keep_where keep r.2)) J |})
    by reflexivity.
  rewrite E6. cbn [rbind].
  remember (map (fun r : value * list value => (r.1, keep_where keep r.2)) J)
    as D eqn:HD.
  set (order := [6; 0; 2; 5; 1; 3; 4]%nat).
  assert (E8 : getitem_list new_order
                 (rename_columns
                    [("200wk_sma", "200 Week SMA"); ("Security", "Company")]
                    {| index_name := None; columns_name := None;
                       columns := [VStr "Ticker"; VStr "Close"; VStr "Security";
                                   VStr "Sector"; VStr "Industry";
                                   VStr "200wk_sma"; VStr "% Deviation"];
                       rows := D |})
               = Ok {| index_name := None; columns_name := None;
                       columns := new_order;
                       rows := map (fun r => (r.1, take_cells order r.2)) D |})
    by reflexivity.
  rewrite E8. f_equal. f_equal.
  (* the rows *)
  subst D J. rewrite map_map. cbn [fst snd].
  rewrite (range_index_map_cells (fun c => take_cells order (keep_where keep c))).
  f_equal. rewrite join_rows_cells. subst L R.
  rewrite map_map, map_snd_range_index. cbn [snd].
  rewrite (map_cells_range_index (take_cells ps)).
  rewrite join_cells_inner, concat_map_map.
  unfold inner_join_rows, Lc, Rc. cbn [rows columns].
  rewrite !map_map. apply concat_map_ext_in. intros l Hl.
  destruct (Hcr l Hl) as [Hlen _].
  rewrite filter_map_comm, !map_map.
  rewrite (filter_ext_in_bool _ (fun r : value * list value =>
                                   key_eqb (cell 1 l.2) r.1)).
  2:{ intros r _. reflexivity. }
  apply map_ext_in. intros r Hr. apply filter_In in Hr as [Hr _].
  destruct (Hmr r Hr) as (_ & Hrl & _).
  destruct l as [li lcells]. cbn [fst snd] in *.
  destruct lcells as [|a [|b [|c [|d [|e [|f [|g lcells]]]]]]]; try discriminate.
  unfold merged_row, ps, take_cells. cbn [map]. rewrite !cell_cons_S.
  rewrite length_app. cbn [length]. fold w.
  replace (w + 2 - 1)%nat with (S w) by lia.
  replace (w + 2 - 2)%nat with w by lia.
  reflexivity.
Qed.

Lemma inner_join_rows_floats (cp ma : DataFrame) :
  sma_frame ma = true ->
  forallb (fun r : value * list value => is_float_cell (cell 0 r.2))
          (range_index (inner_join_rows cp ma)) = true.
Proof.
  intros Hma. apply sma_frame_inv in Hma as (_ & weeks & Hmc & _ & Hmr).
  apply forallb_forall. intros row Hrow. apply In_range_index in Hrow.
  apply in_inner_join_rows in Hrow as (l & r & _ & Hr & _ & ->).
  destruct (Hmr r Hr) as (_ & _ & Hf).
  unfold merged_row. rewrite Hmc, length_app. cbn [length cell nth].
  replace (length weeks + 2 - 1)%nat with (length weeks + 1)%nat by lia.
  exact Hf.
Qed.

Lemma sort_merged (rs : list (value * list value)) :
  forallb (fun r : value * list value => is_float_cell (cell 0 r.2)) rs = true ->
  sort_values [VStr "% Deviation"] true
    {| index_name := None; columns_name := None; columns := new_order;
       rows := rs |}
  = Ok {| index_name := None; columns_name := None; columns := new_order;
          rows := merge_sort (row_le true [0%nat]) rs |}.
Proof.
  intros H.
  exact (sort_values_float_column (VStr "% Deviation") true
           {| index_name := None; columns_name := None; columns := new_order;
              rows := rs |} 0 eq_refl H).
Qed.

(** What the merger returns for valid inputs. *)
Lemma merge_stock_data_rows (cp ma : DataFrame) (w : world) :
  price_table cp = true -> sma_frame ma = true ->
  (merge_stock_data clock py_str cp ma w).1 =
  Ok {| index_name := None;
        columns_name := None;
        columns := new_order;
        rows := merge_sort (row_le true [0%nat])
                  (merge_sort (row_le true [0%nat])
                     (range_index (inner_join_rows cp ma))) |}.
Proof.
  intros Hcp Hma.
  assert (H := merge_stock_data_unsorted cp ma Hcp Hma).
  assert (Hfl := inner_join_rows_floats cp ma Hma).
  unfold merge_stock_data, bind, lift.
  destruct (reset_index cp) as [cp1|e]; cbn [rbind] in H; [ | discriminate].
  destruct (reset_index ma) as [ma1|e]; cbn [rbind] in H; [ | discriminate].
  destruct (getitem_list _ ma1) as [right|e]; cbn [rbind] in H; [ | discriminate].
  destruct (merge py_str Inner (VStr "Ticker") cp1 right) as [m|e];
    cbn [rbind] in H; [ | discriminate].
  destruct (drop_columns _ (columns_astype_str py_str m)) as [d|e];
    cbn [rbind] in H; [ | discriminate].
  rewrite H. rewrite (sort_merged _ Hfl). rewrite save_to_cache_spec.
  rewrite sort_merged; [reflexivity | ].
  exact (forallb_Permutation _ _ _
           (Permutation_sym (merge_sort_Permutation (row_le true [0%nat]) _)) Hfl).
Qed.

Lemma in_merged_rows (cp ma : DataFrame) (row : value * list value) :
  In row (merge_sort (row_le true [0%nat])
            (merge_sort (row_le true [0%nat])
               (range_index (inner_join_rows cp ma)))) ->
  In row.2 (inner_join_rows cp ma).
Proof.
  intros H. apply In_range_index.
  eapply Permutation_in;
    [apply (merge_sort_Permutation (row_le true [0%nat])) | ].
  eapply Permutation_in;
    [apply (merge_sort_Permutation (row_le true [0%nat])) | exact H].
Qed.

Lemma merged_rows_in (cp ma : DataFrame) (cells : list value) :
  In cells (inner_join_rows cp ma) ->
  exists row,
    In row (merge_sort (row_le true [0%nat])
              (merge_sort (row_le true [0%nat])
                 (range_index (inner_join_rows cp ma)))) /\
    row.2 = cells.
Proof.
  intros H. rewrite <- (map_snd_range_index (inner_join_rows cp ma)) in H.
  apply in_map_iff in H as (row & Hrow & Hin). exists row. split; [ | exact Hrow].
  eapply Permutation_in;
    [symmetry; apply (merge_sort_Permutation (row_le true [0%nat])) | ].
  eapply Permutation_in;
    [symmetry; apply (merge_sort_Permutation (row_le true [0%nat])) | exact Hin].
Qed.

(** C3. The merger is an inner join on the symbol: a symbol is in the
    output exactly when it is in both inputs, so that the rows of a symbol
    that only one input has are dropped; prices for A, B, C and averages
    for B, C, D give rows for exactly B and C. *)
Theorem merger_is_inner_join (cp ma : DataFrame) (w : world) :
  price_table cp = true -> sma_frame ma = true ->
  exists out,
    (merge_stock_data clock py_str cp ma w).1 = Ok out /\
    (forall s : value,
       In s (merged_symbols out) <->
       In s (price_symbols cp) /\ In s (sma_symbols ma)) /\
    ((forall s, In s (price_symbols cp) <->
                In s [VStr "A"; VStr "B"; VStr "C"]) ->
     (forall s, In s (sma_symbols ma) <->
                In s [VStr "B"; VStr "C"; VStr "D"]) ->
     forall s, In s (merged_symbols out) <-> In s [VStr "B"; VStr "C"]).
Proof.
  intros Hcp Hma. eexists. split; [apply (merge_stock_data_rows cp ma w Hcp Hma) | ].
  apply price_table_inv in Hcp as (_ & _ & Hcr).
  apply sma_frame_inv in Hma as (_ & weeks & _ & _ & Hmr).
  assert (Hiff : forall s : value,
            In s (merged_symbols
                    {| index_name := None; columns_name := None;
                       columns := new_order;
                       rows := merge_sort (row_le true [0%nat])
                                 (merge_sort (row_le true [0%nat])
                                    (range_index (inner_join_rows cp ma))) |}) <->
            In s (price_symbols cp) /\ In s (sma_symbols ma)).
  { intros s. unfold merged_symbols, price_symbols, sma_symbols. cbn [rows].
    rewrite !in_map_iff. split.
    - intros (row & <- & Hrow). apply in_merged_rows in Hrow.
      apply in_inner_join_rows in Hrow as (l & r & Hl & Hr & Hk & ->).
      cbn [merged_row cell nth].
      destruct (Hcr l Hl) as [_ Hs]. destruct (Hmr r Hr) as (Hs' & _ & _).
      unfold cell in *. destruct (nth 1 l.2 vnan) as [t| | |] eqn:Ht;
        try discriminate.
      destruct r as [[t'| | |] rcells]; try discriminate. cbn [fst] in *.
      apply key_eqb_strs in Hk. subst t'. split.
      + exists l. split; [exact Ht | exact Hl].
      + exists (VStr t, rcells). split; [reflexivity | exact Hr].
    - intros [(l & <- & Hl) (r & Hrs & Hr)].
      destruct (merged_rows_in cp ma (merged_row (length (columns ma)) l.2 r))
        as (row & Hrow & Hcells).
      { apply in_inner_join_rows. exists l, r. repeat split; try assumption.
        destruct (Hcr l Hl) as [_ Hs]. rewrite Hrs.
        destruct (cell 1 l.2); try discriminate. now apply key_eqb_strs. }
      exists row. split; [ | exact Hrow]. rewrite Hcells. reflexivity. }
  split; [exact Hiff | ].
  intros HA HB s. rewrite Hiff, HA, HB. cbn [In]. split.
  - intros [[<- | [<- | [<- | []]]] [H | [H | [H | []]]]]; try discriminate; auto.
  - intros [<- | [<- | []]]; auto 6.
Qed.

(** C4. For valid inputs the table the merger returns has exactly the
    columns [% Deviation], [Ticker], [Company], [200 Week SMA], [Close],
    [Sector], [Industry], in that order, and its rows are in ascending
    order of [% Deviation] (NaN last). *)
Theorem merger_columns_and_order (cp ma : DataFrame) (w : world) :
  price_table cp = true -> sma_frame ma = true ->
  exists out,
    (merge_stock_data clock py_str cp ma w).1 = Ok out /\
    columns out =
      [VStr "% Deviation"; VStr "Ticker"; VStr "Company"; VStr "200 Week SMA";
       VStr "Close"; VStr "Sector"; VStr "Industry"] /\
    Forall (fun r => length r.2 = 7%nat) (rows out) /\
    Forall (fun v => is_float_cell v = true) (merged_deviations out) /\
    StronglySorted (fun x y => fval_leb x y = true)
                   (map as_float (merged_deviations out)).
Proof.
  intros Hcp Hma. eexists. split; [apply (merge_stock_data_rows cp ma w Hcp Hma) | ].
  assert (Hfl := inner_join_rows_floats cp ma Hma).
  assert (Hfl' := forallb_Permutation _ _ _
                    (Permutation_sym (merge_sort_Permutation (row_le true [0%nat]) _))
                    Hfl).
  split; [reflexivity | ]. split; [ | split].
  - apply List.Forall_forall. intros row Hrow. cbn [rows] in Hrow.
    apply in_merged_rows in Hrow.
    apply in_inner_join_rows in Hrow as (l & r & _ & _ & _ & ->). reflexivity.
  - unfold merged_deviations. cbn [rows]. apply List.Forall_forall. intros v Hv.
    apply in_map_iff in Hv as (row & <- & Hrow).
    assert (Hfl'' := forallb_Permutation _ _ _
                       (Permutation_sym
                          (merge_sort_Permutation (row_le true [0%nat]) _)) Hfl').
    rewrite forallb_forall in Hfl''. now apply Hfl''.
  - unfold merged_deviations. cbn [rows]. rewrite map_map.
    apply (sorted_float_keys 0). exact Hfl'.
Qed.

End Merger.

(** ** The price fetcher joined with the reference table *)

Lemma homogeneous_class (c : nat) (ks : list value) :
  forallb (fun k => (value_class k =? c)%nat) ks = true -> homogeneous ks = true.
Proof.
  intros H. unfold homogeneous.
  assert (Hf : forall k, In k (List.filter (fun k => negb (value_is_nan k)) ks) ->
               value_class k = c).
  { intros k Hk. apply filter_In in Hk as [Hk _].
    rewrite forallb_forall in H. now apply Nat.eqb_eq, H. }
  destruct (List.filter (fun k => negb (value_is_nan k)) ks) as [|k ks'];
    [reflexivity | ].
  apply forallb_forall. intros k' Hk'. apply Nat.eqb_eq.
  rewrite (Hf k (or_introl eq_refl)). apply Hf. now right.
Qed.

Lemma reference_table_inv (sp : DataFrame) :
  reference_table sp = true ->
  columns sp = reference_columns /\
  (forall r, In r (rows sp) -> length r.2 = 4%nat).
Proof.
  unfold reference_table. intros H. apply andb_prop in H as [Hc Hr]. split.
  - apply (labels_eqb_strs _ ["Ticker"; "Security"; "Sector"; "Industry"]), Hc.
  - intros r Hin. rewrite forallb_forall in Hr. now apply Nat.eqb_eq, Hr.
Qed.

(** The stacked prices carry the labels of the grid. *)
Lemma in_stack (close : DataFrame) (e : value * value * value) :
  In e (stack close) ->
  (exists r, In r (rows close) /\ r.1 = e.1.1) /\ In e.1.2 (columns close).
Proof.
  unfold stack. rewrite in_concat. intros (es & Hes & He).
  apply in_map_iff in Hes as (r & <- & Hr).
  apply in_map_iff in He as ([c v] & <- & Hcv).
  apply filter_In in Hcv as [Hcv _]. cbn [fst snd]. split.
  - now exists r.
  - now apply in_combine_l in Hcv.
Qed.

Lemma in_left_join_rows (close sp : DataFrame) (row : list value) :
  In row (left_join_rows close sp) <->
  exists e, In e (stack close) /\ In row (joined_price_rows (rows sp) e).
Proof.
  unfold left_join_rows. rewrite in_concat. split.
  - intros (rs & Hrs & Hrow). apply in_map_iff in Hrs as (e & <- & He).
    now exists e.
  - intros (e & He & Hrow). exists (joined_price_rows (rows sp) e).
    split; [now apply in_map | exact Hrow].
Qed.

Lemma filter_nil_all_false {A} (f : A -> bool) (l : list A) :
  List.filter f l = [] -> forall x, In x l -> f x = false.
Proof.
  induction l as [|y l IH]; intros H x Hx; [destruct Hx | ].
  cbn in H. destruct (f y) eqn:Hy; [discriminate | ].
  destruct Hx as [<- | Hx]; [exact Hy | now apply IH].
Qed.

(** A row of the left join carries its price, and either the company,
    sector and industry of a reference row with the same ticker, or NaN
    three times when the reference has no such row. *)
Lemma in_joined_price_rows (srows : list (value * list value))
    (e : value * value * value) (row : list value) :
  In row (joined_price_rows srows e) ->
  cell 0 row = e.1.1 /\ cell 1 row = e.1.2 /\ cell 2 row = e.2 /\
  ((exists ref, In ref srows /\ key_eqb e.1.2 (cell 0 ref.2) = true /\
                cell 3 row = cell 1 ref.2 /\ cell 4 row = cell 2 ref.2 /\
                cell 5 row = cell 3 ref.2)
   \/ ((forall ref, In ref srows -> key_eqb e.1.2 (cell 0 ref.2) = false) /\
       cell 3 row = vnan /\ cell 4 row = vnan /\ cell 5 row = vnan)).
Proof.
  unfold joined_price_rows.
  destruct (List.filter (fun r : value * list value => key_eqb e.1.2 (cell 0 r.2))
                        srows) as [|m ms] eqn:HF.
  - intros [<- | []]. repeat split; try reflexivity. right.
    split; [ | repeat split; reflexivity].
    intros ref Href.
    exact (filter_nil_all_false _ _ HF ref Href).
  - intros Hrow. apply in_map_iff in Hrow as (ref & <- & Href).
    rewrite <- HF in Href. apply filter_In in Href as [Href Hk].
    repeat split; try reflexivity. left. exists ref. repeat split; assumption.
Qed.

Section PriceFetcher.

Variable clock : nat -> Z.
Variable py_str : value -> string.
Variable requests_get : string -> html.
Variable yf_download : list value -> Z -> option Z -> interval -> pyobj.

(** The frame operations of [fetch_stock_data], from the grid of closes
    and the reference table to the sorted result. *)
Lemma fetch_stock_data_rows (close sp : DataFrame) :
  price_grid close = true -> reference_table sp = true ->
  rbind (stack_reset_index close) (fun closing_prices =>
  rbind (set_columns [VStr "Date"; VStr "Ticker"; VStr "Close"] closing_prices)
    (fun closing_prices =>
  rbind (merge py_str LeftJoin (VStr "Ticker") closing_prices sp) (fun result_df =>
  sort_values [VStr "Ticker"; VStr "Date"] true result_df)))
  = Ok {| index_name := None;
          columns_name := None;
          columns := price_columns;
          rows := merge_sort (row_le true [1; 0]%nat)
                    (range_index (left_join_rows close sp)) |}.
Proof.
  intros Hg Hsp. apply reference_table_inv in Hsp as [Hsc Hsr].
  unfold price_grid in Hg. apply andb_prop in Hg as [Hg Hgt].
  apply andb_prop in Hg as [Hgn Hgs]. apply negb_true_iff in Hgn.
  destruct sp as [si sn scols srows]. cbn [columns rows] in *. subst scols.
  unfold stack_reset_index. rewrite Hgn. cbn [rbind].
  remember (range_index (map (fun e : value * value * value => [e.1.1; e.1.2; e.2])
                             (stack close))) as L eqn:HL.
  unfold set_columns. cbn [columns length Nat.eqb rbind index_name columns_name rows].
  assert (E : merge py_str LeftJoin (VStr "Ticker")
                {| index_name := None; columns_name := None;
                   columns := [VStr "Date"; VStr "Ticker"; VStr "Close"];
                   rows := L |}
                {| index_name := si; columns_name := sn;
                   columns := reference_columns; rows := srows |}
              = Ok {| index_name := None; columns_name := None;
                      columns := price_columns;
                      rows := range_index (join_rows LeftJoin 1 0 3 L srows) |})
    by reflexivity.
  rewrite E. cbn [rbind].
  assert (Hrows : join_rows LeftJoin 1 0 3 L srows
                  = left_join_rows close
                      {| index_name := si; columns_name := sn;
                         columns := reference_columns; rows := srows |}).
  { rewrite join_rows_cells. subst L. rewrite map_snd_range_index.
    unfold join_cells, left_join_rows. cbn [rows]. rewrite map_map.
    apply concat_map_ext_in. intros [[d t] c] _. cbn [fst snd].
    rewrite filter_map_comm. unfold joined_price_rows. cbn [fst snd].
    change (cell 1 [d; t; c]) with t.
    remember (List.filter (fun x : value * list value => key_eqb t (cell 0 x.2))
                          srows) as F eqn:HF.
    assert (Hsub : forall r, In r F -> length r.2 = 4%nat).
    { intros r Hr. subst F. apply filter_In in Hr as [Hr _]. now apply Hsr. }
    clear HF. destruct F as [|m ms]; [reflexivity | ].
    change (match map snd (m :: ms) with
            | [] => [[d; t; c] ++ repeat vnan 3]
            | l :: l0 =>
                map (fun rc : list value => [d; t; c] ++ remove_nth 0 rc) (l :: l0)
            end)
      with (map (fun rc : list value => [d; t; c] ++ remove_nth 0 rc)
                (map snd (m :: ms))).
    rewrite map_map. apply map_ext_in. intros r Hr. specialize (Hsub r Hr).
    destruct r as [ri [|a [|b [|e [|f [|g rc]]]]]]; try discriminate.
    reflexivity. }
  rewrite Hrows. clear Hrows E HL L.
  set (sp := {| index_name := si; columns_name := sn;
                columns := reference_columns; rows := srows |}).
  assert (Hhead : forall row, In row (range_index (left_join_rows close sp)) ->
            is_time (cell 0 row.2) = true /\ is_str (cell 1 row.2) = true).
  { intros row Hrow. apply In_range_index in Hrow.
    apply in_left_join_rows in Hrow as (e & He & Hrow).
    apply in_joined_price_rows in Hrow as (H0 & H1 & _).
    apply in_stack in He as [(r & Hr & Hr1) Hc]. rewrite H0, H1. split.
    - rewrite <- Hr1. rewrite forallb_forall in Hgt. now apply Hgt.
    - rewrite forallb_forall in Hgs. now apply Hgs. }
  unfold sort_values. cbn [mapR columns].
  change (get_loc (VStr "Ticker") price_columns) with (@Ok nat 1%nat).
  change (get_loc (VStr "Date") price_columns) with (@Ok nat 0%nat).
  cbn [rbind forallb rows index_name columns_name].
  rewrite (homogeneous_class 1), (homogeneous_class 2); [reflexivity | | ].
  - apply forallb_forall. intros v Hv. apply in_map_iff in Hv as (row & <- & Hrow).
    destruct (Hhead row Hrow) as [Ht _].
    destruct (cell 0 row.2); try discriminate. reflexivity.
  - apply forallb_forall. intros v Hv. apply in_map_iff in Hv as (row & <- & Hrow).
    destruct (Hhead row Hrow) as [_ Hs].
    destruct (cell 1 row.2); try discriminate. reflexivity.
Qed.

(** C9. [fetch_stock_data] loads the reference table first, at every
    call, and left-joins the prices with it, wherever the prices come
    from (a hit of the price cache included): every row of the output
    carries the company, sector and industry of the reference table loaded
    at this call for its ticker, or NaN when that table has no such
    ticker, and no price is dropped. *)
Theorem fetch_stock_data_uses_current_reference (w w1 w2 : world)
    (sp close : DataFrame) (data : pyobj) :
  load_or_download_sp500_tickers clock requests_get w = (Ok (PFrame sp), w1) ->
  load_or_download_data clock yf_download (PFrame sp)
    (clock (tick w1) / day_us - 3)
    {| bucket := bucket w1; tick := S (tick w1) |} = (Ok data, w2) ->
  wide_getitem "Close" data = Ok close ->
  price_grid close = true ->
  reference_table sp = true ->
  exists out,
    fetch_stock_data clock py_str requests_get yf_download w = (Ok out, w2) /\
    columns out = price_columns /\
    (forall row, In row (rows out) ->
       (exists ref, In ref (rows sp) /\
          key_eqb (cell 1 row.2) (cell 0 ref.2) = true /\
          cell 3 row.2 = cell 1 ref.2 /\ cell 4 row.2 = cell 2 ref.2 /\
          cell 5 row.2 = cell 3 ref.2)
       \/ ((forall ref, In ref (rows sp) ->
              key_eqb (cell 1 row.2) (cell 0 ref.2) = false) /\
           cell 3 row.2 = vnan /\ cell 4 row.2 = vnan /\ cell 5 row.2 = vnan)) /\
    (forall e, In e (stack close) ->
       exists row, In row (rows out) /\
         cell 0 row.2 = e.1.1 /\ cell 1 row.2 = e.1.2 /\ cell 2 row.2 = e.2).
Proof.
  intros Hsp Hdata Hclose Hg Hr.
  assert (H := fetch_stock_data_rows close sp Hg Hr).
  eexists. split; [ | split; [ | split]].
  - unfold fetch_stock_data, bind. rewrite Hsp.
    unfold datetime_now at 1. cbv beta iota. rewrite Hdata.
    unfold lift. rewrite Hclose.
    destruct (stack_reset_index close) as [c1|e]; cbn [rbind] in H; [ | discriminate].
    destruct (set_columns _ c1) as [c2|e]; cbn [rbind] in H; [ | discriminate].
    cbn [as_frame].
    destruct (merge py_str LeftJoin (VStr "Ticker") c2 sp) as [m|e];
      cbn [rbind] in H; [ | discriminate].
    rewrite H. reflexivity.
  - reflexivity.
  - cbn [rows]. intros row Hrow.
    eapply Permutation_in in Hrow;
      [ | apply (merge_sort_Permutation (row_le true [1; 0]%nat))].
    apply In_range_index in Hrow.
    apply in_left_join_rows in Hrow as (e & He & Hrow).
    apply in_joined_price_rows in Hrow as (_ & H1 & _ & Hcase).
    rewrite H1. exact Hcase.
  - cbn [rows]. intros e He.
    assert (Hne : exists cells, In cells (joined_price_rows (rows sp) e)).
    { unfold joined_price_rows. destruct (List.filter _ (rows sp)) as [|m ms].
      - eexists. left. reflexivity.
      - eexists. left. reflexivity. }
    destruct Hne as (cells & Hcells).
    assert (Hin : In cells (left_join_rows close sp))
      by (apply in_left_join_rows; now exists e).
    rewrite <- (map_snd_range_index (left_join_rows close sp)) in Hin.
    apply in_map_iff in Hin as (row & Hrow & Hin).
    exists row. split.
    + eapply Permutation_in;
        [symmetry; apply (merge_sort_Permutation (row_le true [1; 0]%nat)) | ].
      exact Hin.
    + rewrite Hrow.
      apply in_joined_price_rows in Hcells as (H0 & H1 & H2 & _). now repeat split.
Qed.

End PriceFetcher.

(** * Further properties *)

(** ** The cache: deletion, freshness, independence of keys *)

(** What [delete_from_cache] leaves behind. *)
Lemma delete_from_cache_spec (file_path : string) (w : world) :
  (delete_from_cache file_path w).1 = Ok tt /\
  bucket (delete_from_cache file_path w).2
  = delete (_get_metadata_blob file_path) (delete (_get_blob file_path) (bucket w)) /\
  tick (delete_from_cache file_path w).2 = tick w.
Proof.
  unfold delete_from_cache, bind, blob_exists, blob_delete, ret. cbv beta iota.
  destruct (bucket w !! _get_blob file_path) as [b|] eqn:Hb.
  - rewrite bool_decide_eq_true_2 by eauto. cbn [bucket tick].
    destruct (bucket w !! _get_metadata_blob file_path) as [m|] eqn:Hm.
    + rewrite lookup_delete_ne by (intros E; symmetry in E; revert E; apply metadata_blob_ne).
      rewrite Hm. rewrite bool_decide_eq_true_2 by eauto. repeat split.
    + rewrite lookup_delete_ne by (intros E; symmetry in E; revert E; apply metadata_blob_ne).
      rewrite Hm. rewrite bool_decide_eq_false_2 by (intros [? ?]; discriminate).
      cbn [fst snd bucket tick]. repeat split.
      rewrite (delete_id (delete _ _)); [reflexivity | ].
      rewrite lookup_delete_ne by (intros E; symmetry in E; revert E; apply metadata_blob_ne).
      exact Hm.
  - rewrite bool_decide_eq_false_2 by (intros [? ?]; discriminate).
    rewrite (delete_id _ _ Hb).
    destruct (bucket w !! _get_metadata_blob file_path) as [m|] eqn:Hm.
    + rewrite bool_decide_eq_true_2 by eauto. repeat split.
    + rewrite bool_decide_eq_false_2 by (intros [? ?]; discriminate).
      cbn [fst snd]. repeat split. now rewrite delete_id.
Qed.

Section CacheExtras.

Variable clock : nat -> Z.

Lemma load_from_cache_result (file_path : string) (max_age_days : Z) (w : world) :
  (load_from_cache clock file_path max_age_days w).1
  = cache_lookup (bucket w !! _get_blob file_path)
                 (bucket w !! _get_metadata_blob file_path)
                 (clock (tick w)) max_age_days.
Proof.
  unfold_cache. unfold cache_lookup.
  destruct (bucket w !! _get_blob file_path) as [b|] eqn:Hb;
    [exists_true | exists_false; reflexivity].
  destruct (bucket w !! _get_metadata_blob file_path) as [m|] eqn:Hm;
    [exists_true | exists_false; reflexivity].
  rewrite ?Hm. mred.
  destruct m as [meta|]; mred; [ | reflexivity].
  destruct meta as [d| |]; mred; try reflexivity.
  destruct (clock (tick w) - d >? timedelta_days max_age_days); mred;
    [reflexivity | ].
  rewrite ?Hb. destruct b; reflexivity.
Qed.

(** The result of [load_from_cache] is a function of the two blobs of the
    key and of the clock reading. *)
Lemma load_from_cache_ext (file_path : string) (max_age_days : Z) (w1 w2 : world) :
  bucket w1 !! _get_blob file_path = bucket w2 !! _get_blob file_path ->
  bucket w1 !! _get_metadata_blob file_path
  = bucket w2 !! _get_metadata_blob file_path ->
  tick w1 = tick w2 ->
  (load_from_cache clock file_path max_age_days w1).1
  = (load_from_cache clock file_path max_age_days w2).1.
Proof.
  intros Hb Hm Ht. rewrite !load_from_cache_result. now rewrite Hb, Hm, Ht.
Qed.

(** X1. After [delete_from_cache] both blobs of the key are gone, so that
    [load_from_cache] and [load_csv_from_cache] miss whatever the state was
    before and whatever the maximum age. *)
Theorem delete_from_cache_then_miss (K : string) (w : world) :
  (delete_from_cache K w).1 = Ok tt /\
  bucket (delete_from_cache K w).2 !! _get_blob K = None /\
  bucket (delete_from_cache K w).2 !! _get_metadata_blob K = None /\
  (forall max_age,
     load_from_cache clock K max_age (delete_from_cache K w).2
     = (Ok None, (delete_from_cache K w).2)) /\
  load_csv_from_cache K (delete_from_cache K w).2
  = (Ok None, (delete_from_cache K w).2).
Proof.
  destruct (delete_from_cache_spec K w) as (Hr & Hb & _).
  assert (Hdata : bucket (delete_from_cache K w).2 !! _get_blob K = None).
  { rewrite Hb. rewrite lookup_delete_ne by apply metadata_blob_ne.
    apply lookup_delete_eq. }
  assert (Hmeta : bucket (delete_from_cache K w).2 !! _get_metadata_blob K = None).
  { rewrite Hb. apply lookup_delete_eq. }
  split; [exact Hr | ]. split; [exact Hdata | ]. split; [exact Hmeta | ]. split.
  - intros max_age. unfold_cache. rewrite Hdata. exists_false. reflexivity.
  - unfold_cache. rewrite Hdata. exists_false. reflexivity.
Qed.

(** X2. [delete_from_cache] touches the two blobs of its key only, and on
    a key that has neither blob it changes nothing at all. *)
Theorem delete_from_cache_frame (K : string) (w : world) :
  (forall name, name <> _get_blob K -> name <> _get_metadata_blob K ->
     bucket (delete_from_cache K w).2 !! name = bucket w !! name) /\
  (bucket w !! _get_blob K = None -> bucket w !! _get_metadata_blob K = None ->
     delete_from_cache K w = (Ok tt, w)).
Proof.
  split.
  - intros name H1 H2. destruct (delete_from_cache_spec K w) as (_ & Hb & _).
    rewrite Hb. rewrite !lookup_delete_ne by congruence. reflexivity.
  - intros Hb Hm.
    unfold delete_from_cache, bind, blob_exists, blob_delete, ret. cbv beta iota.
    rewrite Hb. rewrite bool_decide_eq_false_2 by (intros [? ?]; discriminate).
    rewrite Hm. rewrite bool_decide_eq_false_2 by (intros [? ?]; discriminate).
    reflexivity.
Qed.


(** X4. [save_to_cache] under a key writes the two blobs of that key and
    no other blob; what [load_from_cache] returns for another key is
    unchanged, as long as the four blob names are distinct. *)
Theorem save_to_cache_frame (K K' : string) (P : pyobj) (max_age : Z) (w : world) :
  (forall name, name <> _get_blob K -> name <> _get_metadata_blob K ->
     bucket (save_to_cache clock P K w).2 !! name = bucket w !! name) /\
  (_get_blob K' <> _get_blob K -> _get_blob K' <> _get_metadata_blob K ->
   _get_metadata_blob K' <> _get_blob K ->
   _get_metadata_blob K' <> _get_metadata_blob K ->
   (load_from_cache clock K' max_age (save_to_cache clock P K w).2).1
   = (load_from_cache clock K' max_age
        {| bucket := bucket w; tick := S (tick w) |}).1).
Proof.
  assert (Hframe : forall name, name <> _get_blob K -> name <> _get_metadata_blob K ->
            bucket (save_to_cache clock P K w).2 !! name = bucket w !! name).
  { intros name H1 H2. rewrite save_to_cache_spec. cbn [snd bucket].
    rewrite !lookup_insert_ne by congruence. reflexivity. }
  split; [exact Hframe | ].
  intros H1 H2 H3 H4. apply load_from_cache_ext.
  - now apply Hframe.
  - now apply Hframe.
  - rewrite save_to_cache_spec. reflexivity.
Qed.

End CacheExtras.


(** ** The reference loader: hits, write-through, failures, stripping *)

Lemma lstrip_chars_hd (cs : list ascii) (d : ascii) :
  lstrip_chars cs <> [] -> py_isspace (hd d (lstrip_chars cs)) = false.
Proof.
  induction cs as [|c cs IH]; cbn [lstrip_chars]; [congruence | ].
  destruct (py_isspace c) eqn:Hc; [exact IH | ]. intros _. exact Hc.
Qed.

Lemma lstrip_chars_suffix (cs : list ascii) :
  exists pre, cs = pre ++ lstrip_chars cs.
Proof.
  induction cs as [|c cs [pre IH]]; [now exists [] | ].
  cbn [lstrip_chars]. destruct (py_isspace c).
  - exists (c :: pre). cbn. now rewrite <- IH.
  - now exists [].
Qed.

Lemma lstrip_chars_id (cs : list ascii) (d : ascii) :
  (cs <> [] -> py_isspace (hd d cs) = false) -> lstrip_chars cs = cs.
Proof.
  destruct cs as [|c cs]; [reflexivity | ]. cbn [hd lstrip_chars]. intros H.
  now rewrite H.
Qed.

Lemma last_app_right {A} (l1 l2 : list A) (d : A) :
  l2 <> [] -> List.last (l1 ++ l2) d = List.last l2 d.
Proof.
  intros H. destruct (exists_last H) as [l [x ->]].
  now rewrite app_assoc, !last_last.
Qed.

Lemma last_rev_hd {A} (l : list A) (d : A) : List.last (rev l) d = hd d l.
Proof.
  destruct l as [|x l]; [reflexivity | ]. cbn [rev hd]. apply last_last.
Qed.

Lemma hd_rev_last {A} (l : list A) (d : A) : hd d (rev l) = List.last l d.
Proof. rewrite <- (rev_involutive l) at 2. symmetry. apply last_rev_hd. Qed.

(** What [strip] returns has no whitespace at either end. *)
Lemma strip_no_outer_space (s : string) : no_outer_space (strip s) = true.
Proof.
  unfold no_outer_space, strip. rewrite list_ascii_of_string_of_list_ascii.
  set (a := lstrip_chars (list_ascii_of_string s)).
  set (b := lstrip_chars (rev a)).
  assert (Hb : b <> [] -> forall d, py_isspace (hd d b) = false)
    by (intros Hne d; now apply lstrip_chars_hd).
  assert (Hlast : b <> [] -> forall d, py_isspace (List.last b d) = false).
  { intros Hne d. destruct (lstrip_chars_suffix (rev a)) as [pre Hpre]. fold b in Hpre.
    rewrite <- (last_app_right pre b d Hne), <- Hpre, last_rev_hd.
    apply lstrip_chars_hd. intros Ha. unfold a in Hpre. rewrite Ha in Hpre.
    cbn in Hpre. destruct pre; [cbn in Hpre; congruence | discriminate]. }
  destruct (rev b) as [|c r] eqn:Hr; [reflexivity | ].
  assert (Hne : b <> []) by (intros E; rewrite E in Hr; discriminate).
  cbn [outer_chars_ok]. rewrite <- Hr.
  assert (Hc : c = hd c (rev b)) by now rewrite Hr.
  rewrite Hc at 1. rewrite hd_rev_last, (Hlast Hne), last_rev_hd, (Hb Hne).
  reflexivity.
Qed.

(** A text without whitespace at either end is left as it is. *)
Lemma strip_clean (s : string) : no_outer_space s = true -> strip s = s.
Proof.
  unfold no_outer_space, strip. intros H.
  set (cs := list_ascii_of_string s) in *.
  assert (Hcs : lstrip_chars cs = cs /\ lstrip_chars (rev cs) = rev cs).
  { destruct cs as [|c cs']; [now split | ].
    cbn [outer_chars_ok] in H. apply andb_prop in H as [H1 H2].
    apply negb_true_iff in H1, H2. split.
    - apply (lstrip_chars_id _ c). intros _. exact H1.
    - apply (lstrip_chars_id _ c). intros _. now rewrite hd_rev_last. }
  destruct Hcs as [H1 H2]. rewrite H1, H2, rev_involutive.
  apply string_of_list_ascii_of_string.
Qed.

(** X6. Every field of every record the loader extracts is free of
    leading and trailing whitespace. *)
Theorem extract_rows_fields_stripped (trs : list (list string)) (c : constituent) :
  In c (extract_rows trs) ->
  no_outer_space (Ticker c) = true /\ no_outer_space (Security c) = true /\
  no_outer_space (Sector c) = true /\ no_outer_space (Industry c) = true.
Proof.
  rewrite extract_rows_filter_map. intros H.
  apply in_map_iff in H as (cols & <- & _). cbn [Ticker Security Sector Industry].
  repeat split; apply strip_no_outer_space.
Qed.

(** X7. A row of at least four cells whose first four cells have no
    whitespace at either end gives the record of those cells unchanged. *)
Theorem extract_rows_clean_row_verbatim (cols : list string)
    (trs : list (list string)) :
  (4 <= length cols)%nat ->
  Forall (fun s => no_outer_space s = true) (firstn 4 cols) ->
  extract_rows (cols :: trs) = verbatim_record cols :: extract_rows trs.
Proof.
  intros Hlen Hclean. cbn [extract_rows].
  destruct (Nat.leb_spec 4 (length cols)) as [_ | Hlt]; [ | lia].
  destruct cols as [|c0 [|c1 [|c2 [|c3 rest]]]]; cbn [length] in Hlen; try lia.
  cbn [firstn] in Hclean.
  apply List.Forall_cons_iff in Hclean as [H0 Hclean].
  apply List.Forall_cons_iff in Hclean as [H1 Hclean].
  apply List.Forall_cons_iff in Hclean as [H2 Hclean].
  apply List.Forall_cons_iff in Hclean as [H3 _].
  unfold verbatim_record. cbn [nth].
  now rewrite (strip_clean _ H0), (strip_clean _ H1), (strip_clean _ H2),
    (strip_clean _ H3).
Qed.

Section LoaderExtras.

Variable clock : nat -> Z.
Variable requests_get : string -> html.
Variable yf_download : list value -> Z -> option Z -> interval -> pyobj.

Lemma loader_hit (rg : string -> html) (w : world) (d : pyobj) :
  (load_from_cache clock "sp500_cache.pkl" 1 w).1 = Ok (Some d) ->
  load_or_download_sp500_tickers clock rg w
  = (Ok d, (load_from_cache clock "sp500_cache.pkl" 1 w).2).
Proof.
  intros Hhit. unfold load_or_download_sp500_tickers, bind.
  destruct (load_from_cache clock "sp500_cache.pkl" 1 w) as [[o|e] w'];
    cbn [fst snd] in *; [ | discriminate].
  now injection Hhit as ->.
Qed.

(** X8. On a hit of the reference cache the loader returns the cached
    object as it is, fetches no page (its result is the same for any other
    page source) and leaves the store as it was. *)
Theorem loader_hit_skips_fetch (requests_get' : string -> html) (w : world)
    (d : pyobj) :
  (load_from_cache clock "sp500_cache.pkl" 1 w).1 = Ok (Some d) ->
  (load_or_download_sp500_tickers clock requests_get w).1 = Ok d /\
  load_or_download_sp500_tickers clock requests_get w
  = load_or_download_sp500_tickers clock requests_get' w /\
  bucket (load_or_download_sp500_tickers clock requests_get w).2 = bucket w.
Proof.
  intros Hhit. rewrite !(loader_hit _ w d Hhit). cbn [fst snd].
  repeat split. apply load_from_cache_bucket.
Qed.

(** The world the loader leaves behind after a miss and a fetch. *)
Lemma loader_miss_world (w : world) (table : html_table) :
  (load_from_cache clock "sp500_cache.pkl" 1 w).1 = Ok None ->
  soup_find_table "constituents" (requests_get sp500_url) = Some table ->
  load_or_download_sp500_tickers clock requests_get w
  = (Ok (PFrame (DataFrame_of_records (extract_rows (tail (tr_rows table))))),
     (save_to_cache clock
        (PFrame (DataFrame_of_records (extract_rows (tail (tr_rows table)))))
        "sp500_cache.pkl"
        (load_from_cache clock "sp500_cache.pkl" 1 w).2).2).
Proof.
  intros Hmiss Htable. unfold load_or_download_sp500_tickers, bind.
  destruct (load_from_cache clock "sp500_cache.pkl" 1 w) as [[o|e] w'];
    cbn [fst snd] in *; [ | discriminate].
  injection Hmiss as ->. rewrite Htable. reflexivity.
Qed.

(** X9. The loader writes through: after a miss and a fetch, a second
    call made within a day returns the same table without looking at the
    page again. *)
Theorem loader_write_through (requests_get' : string -> html) (w : world)
    (table : html_table) :
  (load_from_cache clock "sp500_cache.pkl" 1 w).1 = Ok None ->
  soup_find_table "constituents" (requests_get sp500_url) = Some table ->
  clock (S (tick (load_from_cache clock "sp500_cache.pkl" 1 w).2))
  - clock (tick (load_from_cache clock "sp500_cache.pkl" 1 w).2)
  <= timedelta_days 1 ->
  (load_or_download_sp500_tickers clock requests_get'
     (load_or_download_sp500_tickers clock requests_get w).2).1
  = (load_or_download_sp500_tickers clock requests_get w).1.
Proof.
  intros Hmiss Htable Hage. rewrite (loader_miss_world w table Hmiss Htable).
  cbn [fst snd].
  rewrite (loader_hit requests_get' _
             (PFrame (DataFrame_of_records (extract_rows (tail (tr_rows table)))))).
  - reflexivity.
  - now rewrite load_after_save.
Qed.

(** X10. When the page has no table with the id [constituents], the
    loader raises on a miss and writes nothing to the store. *)
Theorem loader_without_table_raises (w : world) :
  (load_from_cache clock "sp500_cache.pkl" 1 w).1 = Ok None ->
  soup_find_table "constituents" (requests_get sp500_url) = None ->
  (load_or_download_sp500_tickers clock requests_get w).1 = Raise AttributeError /\
  bucket (load_or_download_sp500_tickers clock requests_get w).2 = bucket w.
Proof.
  intros Hmiss Htable. assert (Hb := load_from_cache_bucket clock "sp500_cache.pkl" 1 w).
  unfold load_or_download_sp500_tickers, bind.
  destruct (load_from_cache clock "sp500_cache.pkl" 1 w) as [[o|e] w'];
    cbn [fst snd] in *; [ | discriminate].
  injection Hmiss as ->. rewrite Htable. split; [reflexivity | exact Hb].
Qed.

Lemma extract_rows_all_short (trs : list (list string)) :
  Forall (fun cols => (length cols < 4)%nat) trs -> extract_rows trs = [].
Proof.
  induction 1 as [|cols trs Hc _ IH]; [reflexivity | ].
  cbn [extract_rows]. destruct (Nat.leb_spec 4 (length cols)); [lia | exact IH].
Qed.

(** X11. When every data row of the table has fewer than four cells, the
    loader returns, and caches, a frame without any column; asking that
    frame for its tickers raises [KeyError]. *)
Theorem loader_all_rows_short (w : world) (table : html_table) :
  (load_from_cache clock "sp500_cache.pkl" 1 w).1 = Ok None ->
  soup_find_table "constituents" (requests_get sp500_url) = Some table ->
  Forall (fun cols => (length cols < 4)%nat) (tail (tr_rows table)) ->
  (load_or_download_sp500_tickers clock requests_get w).1 = Ok (PFrame empty_frame) /\
  bucket (load_or_download_sp500_tickers clock requests_get w).2
    !! _get_blob "sp500_cache.pkl" = Some (Pickled (PFrame empty_frame)) /\
  column_tolist "Ticker" (PFrame empty_frame) = Raise KeyError.
Proof.
  intros Hmiss Htable Hshort. rewrite (loader_miss_world w table Hmiss Htable).
  rewrite (extract_rows_all_short _ Hshort). cbn [fst snd DataFrame_of_records].
  split; [reflexivity | ]. split; [ | reflexivity].
  rewrite save_to_cache_spec. cbn [snd bucket].
  rewrite lookup_insert_ne by apply metadata_blob_ne. apply lookup_insert_eq.
Qed.

(** ** The price fetcher: download, write-through, failure *)

Lemma price_hit (sp500_df : pyobj) (as_of : Z) (w : world) (d : pyobj) :
  (load_from_cache clock "data_cache.pkl" 1 w).1 = Ok (Some d) ->
  load_or_download_data clock yf_download sp500_df as_of w
  = (Ok d, (load_from_cache clock "data_cache.pkl" 1 w).2).
Proof.
  intros Hhit. unfold load_or_download_data, bind.
  destruct (load_from_cache clock "data_cache.pkl" 1 w) as [[o|e] w'];
    cbn [fst snd] in *; [ | discriminate].
  now injection Hhit as ->.
Qed.

Lemma price_miss (sp500_df : pyobj) (as_of : Z) (w : world) (tickers : list value) :
  (load_from_cache clock "data_cache.pkl" 1 w).1 = Ok None ->
  column_tolist "Ticker" sp500_df = Ok tickers ->
  load_or_download_data clock yf_download sp500_df as_of w
  = (Ok (yf_download tickers as_of None Daily),
     (save_to_cache clock (yf_download tickers as_of None Daily) "data_cache.pkl"
        (load_from_cache clock "data_cache.pkl" 1 w).2).2).
Proof.
  intros Hmiss Htick. unfold load_or_download_data, bind.
  destruct (load_from_cache clock "data_cache.pkl" 1 w) as [[o|e] w'];
    cbn [fst snd] in *; [ | discriminate].
  injection Hmiss as ->. unfold lift. rewrite Htick. reflexivity.
Qed.

(** X12. On a miss the price fetcher asks the provider for daily bars of
    the tickers of the reference table from [as_of] on, with no end date,
    and writes the answer through: a second call within a day returns that
    same payload, whatever reference table and [as_of] it is given. *)
Theorem price_fetcher_write_through (sp500_df sp500_df' : pyobj)
    (as_of as_of' : Z) (w : world) (tickers : list value) :
  (load_from_cache clock "data_cache.pkl" 1 w).1 = Ok None ->
  column_tolist "Ticker" sp500_df = Ok tickers ->
  clock (S (tick (load_from_cache clock "data_cache.pkl" 1 w).2))
  - clock (tick (load_from_cache clock "data_cache.pkl" 1 w).2)
  <= timedelta_days 1 ->
  (load_or_download_data clock yf_download sp500_df as_of w).1
  = Ok (yf_download tickers as_of None Daily) /\
  (load_or_download_data clock yf_download sp500_df' as_of'
     (load_or_download_data clock yf_download sp500_df as_of w).2).1
  = Ok (yf_download tickers as_of None Daily).
Proof.
  intros Hmiss Htick Hage. rewrite (price_miss sp500_df as_of w tickers Hmiss Htick).
  cbn [fst snd]. split; [reflexivity | ].
  rewrite (price_hit sp500_df' as_of' _ (yf_download tickers as_of None Daily)).
  - reflexivity.
  - now rewrite load_after_save.
Qed.

(** X13. On a miss with a reference object that has no [Ticker] column,
    the price fetcher raises before it asks the provider, and writes
    nothing to the store. *)
Theorem price_fetcher_without_tickers (sp500_df : pyobj) (as_of : Z) (w : world)
    (e : exn) :
  (load_from_cache clock "data_cache.pkl" 1 w).1 = Ok None ->
  column_tolist "Ticker" sp500_df = Raise e ->
  (load_or_download_data clock yf_download sp500_df as_of w).1 = Raise e /\
  bucket (load_or_download_data clock yf_download sp500_df as_of w).2 = bucket w.
Proof.
  intros Hmiss Htick. assert (Hb := load_from_cache_bucket clock "data_cache.pkl" 1 w).
  unfold load_or_download_data, bind.
  destruct (load_from_cache clock "data_cache.pkl" 1 w) as [[o|e'] w'];
    cbn [fst snd] in *; [ | discriminate].
  injection Hmiss as ->. unfold lift. rewrite Htick. split; [reflexivity | exact Hb].
Qed.

End LoaderExtras.

(** ** The moving-average table: order, shape, edge cases *)

Lemma float_key_leb_trans (asc : bool) (x y z : fval) :
  float_key_leb asc x y = true -> float_key_leb asc y z = true ->
  float_key_leb asc x z = true.
Proof.
  unfold float_key_leb, key_leb, value_leb. cbn [to_float value_is_nan].
  destruct asc, x as [a| | |], y as [b| | |], z as [c| | |]; cbn;
    try congruence; rewrite !Qle_bool_iff; intros H1 H2;
    eapply Qle_trans; eassumption.
Qed.

(** The keys of a frame sorted on a float column, in either direction. *)
Lemma sorted_float_keys_dir (asc : bool) (i : nat) (rs : list (value * list value)) :
  forallb (fun r => is_float_cell (cell i r.2)) rs = true ->
  StronglySorted (fun x y => float_key_leb asc x y = true)
    (map (fun r => as_float (cell i r.2)) (merge_sort (row_le asc [i]) rs)).
Proof.
  intros Hf.
  apply Sorted_StronglySorted.
  { intros x y z. apply float_key_leb_trans. }
  assert (Hf' : Forall (fun r => is_float_cell (cell i r.2) = true)
                  (merge_sort (row_le asc [i]) rs)).
  { apply List.Forall_forall. intros r Hr.
    apply (forallb_Permutation _ _ _
             (Permutation_sym (merge_sort_Permutation (row_le asc [i]) rs))) in Hf.
    rewrite forallb_forall in Hf. now apply Hf. }
  assert (Hs := Sorted_merge_sort (row_le asc [i]) rs).
  induction Hs as [|r l Hs IH Hhd]; cbn [map]; constructor.
  - apply IH. now inversion Hf'.
  - destruct Hhd as [|r' l' Hrr']; cbn [map]; constructor.
    apply row_le_single in Hrr'.
    inversion Hf' as [|? ? Hr Hl]; subst. inversion Hl as [|? ? Hr' _]; subst.
    destruct (cell i r.2); try discriminate.
    destruct (cell i r'.2); try discriminate.
    exact Hrr'.
Qed.

Lemma cell_last_of_length (n : nat) (cells : list value) :
  length cells = S n -> cell n cells = List.last cells vnan.
Proof.
  intros H. rewrite <- (cell_last cells).
  - now rewrite H, Nat.sub_1_r.
  - intros E. now rewrite E in H.
Qed.

Lemma sma_row_shape (g : DataFrame) (r : value * list value) :
  weekly_grid g = true -> In r (rows g) ->
  length (sma_row r).2 = S (S (length (columns g))) /\
  cell (S (length (columns g))) (sma_row r).2 = VFloat (row_deviation r.2) /\
  List.last (sma_row r).2 vnan = VFloat (row_deviation r.2).
Proof.
  intros Hg Hin. apply weekly_grid_inv in Hg as (_ & _ & Hr).
  destruct (Hr r Hin) as [Hl _]. unfold sma_row. cbn [snd].
  split; [rewrite length_app; cbn [length]; lia | ]. split.
  - change (r.2 ++ [VFloat (row_sma r.2); VFloat (row_deviation r.2)])
      with (r.2 ++ [VFloat (row_sma r.2)] ++ [VFloat (row_deviation r.2)]).
    rewrite app_assoc.
    replace (S (length (columns g))) with (length (r.2 ++ [VFloat (row_sma r.2)]))
      by (rewrite length_app; cbn [length]; lia).
    apply cell_app_at.
  - change (r.2 ++ [VFloat (row_sma r.2); VFloat (row_deviation r.2)])
      with (r.2 ++ [VFloat (row_sma r.2)] ++ [VFloat (row_deviation r.2)]).
    rewrite app_assoc. apply last_last.
Qed.

(** X14. The table of moving averages is sorted on [% Deviation], its
    last column, downwards, the NaN deviations last. *)
Theorem sma_table_sorted_descending (close : DataFrame) :
  weekly_grid (T close) = true ->
  exists out,
    sma_table close = Ok out /\
    StronglySorted (fun x y => float_key_leb false x y = true) (sma_deviations out).
Proof.
  intros Hg. assert (Hg' := weekly_grid_round2 _ Hg).
  unfold sma_table. rewrite (sma_columns_rows _ Hg'). eexists. split; [reflexivity | ].
  unfold sma_deviations. cbn [rows].
  set (n := S (length (columns (df_round2 (T close))))).
  assert (Hfl : forallb (fun r : value * list value => is_float_cell (cell n r.2))
                  (map sma_row (rows (df_round2 (T close)))) = true).
  { apply forallb_forall. intros r' Hr'. apply in_map_iff in Hr' as (r & <- & Hr).
    destruct (sma_row_shape _ r Hg' Hr) as (_ & Hc & _). unfold n. now rewrite Hc. }
  assert (Hs := sorted_float_keys_dir false n _ Hfl).
  erewrite map_ext_in; [exact Hs | ].
  intros r' Hr'. cbn beta.
  eapply Permutation_in in Hr';
    [ | apply (merge_sort_Permutation (row_le false [n]))].
  apply in_map_iff in Hr' as (r & <- & Hr).
  destruct (sma_row_shape _ r Hg' Hr) as (_ & Hc & Hl). unfold n.
  now rewrite Hc, Hl.
Qed.

(** X15. When the provider returns no weekly bar at all (a grid with
    symbols but no week), the computation raises [IndexError]: after the mean
    column is appended the frame has one column only, and [iloc[:, -2]] is
    out of bounds. *)
Theorem sma_table_without_weeks (close : DataFrame) :
  rows close = [] -> sma_table close = Raise IndexError.
Proof.
  intros Hrows. unfold sma_table, sma_columns, mean_axis1.
  unfold df_round2, T. rewrite Hrows. cbn [map rows columns index_name columns_name].
  rewrite (mapR_map_ok _ _ (fun _ => VFloat NaN)).
  2:{ intros [x cells] Hin. apply in_combine_r in Hin.
      unfold transpose_cells in Hin. apply in_map_iff in Hin as (j & <- & _).
      reflexivity. }
  cbn [rbind]. unfold setitem. cbn [columns has_label existsb].
  unfold iloc_col_from_end. cbn [columns app length Nat.ltb Nat.leb rbind].
  reflexivity.
Qed.

(** X16. A symbol whose last weekly close is missing (NaN) gets a NaN
    deviation, whatever its other closes and its moving average are. *)
Theorem sma_table_missing_latest_close (close : DataFrame) (X : value)
    (cells : list value) :
  weekly_grid (T close) = true ->
  In (X, cells) (rows (T close)) ->
  List.last cells vnan = VFloat NaN ->
  exists out,
    sma_table close = Ok out /\
    In (X, map value_round2 cells
           ++ [VFloat (row_sma (map value_round2 cells)); VFloat NaN]) (rows out).
Proof.
  intros Hg Hin Hlast.
  destruct (sma_table_rows close Hg) as (out & Hout & _ & Hrows).
  exists out. split; [exact Hout | ].
  specialize (Hrows X cells Hin). unfold sma_row in Hrows. cbn [fst snd] in Hrows.
  assert (Hdev : row_deviation (map value_round2 cells) = NaN).
  { unfold row_deviation.
    assert (Hl : List.last (map value_round2 cells) vnan = VFloat NaN).
    { apply weekly_grid_inv in Hg as (Hn & _ & Hr).
      destruct (Hr _ Hin) as [Hlen _]. cbn [snd] in Hlen.
      assert (Hne : cells <> [])
        by (intros E; rewrite E in Hlen; cbn [length] in Hlen; lia).
      destruct (exists_last Hne) as [cs [v ->]].
      rewrite last_last in Hlast. subst v.
      rewrite map_app. cbn [map]. now rewrite last_last. }
    rewrite Hl. reflexivity. }
  now rewrite Hdev in Hrows.
Qed.

(** The table of moving averages of a grid of floats, its columns and its
    shape. *)
Lemma sma_table_frame (close : DataFrame) :
  weekly_grid (T close) = true ->
  columns_name close = Some "Ticker" ->
  forallb is_str (columns close) = true ->
  exists out,
    sma_table close = Ok out /\
    columns out = columns (T close) ++ [VStr "200wk_sma"; VStr "% Deviation"] /\
    sma_frame out = true.
Proof.
  intros Hg Hname Hstr. assert (Hg' := weekly_grid_round2 _ Hg).
  unfold sma_table. rewrite (sma_columns_rows _ Hg'). eexists. split; [reflexivity | ].
  split; [reflexivity | ].
  destruct (weekly_grid_inv _ Hg') as (Hn & Ht & Hr).
  unfold sma_frame. cbn [index_name columns_name columns rows df_round2 T] in *.
  rewrite Hname. cbn [String.eqb Ascii.eqb Bool.eqb andb].
  set (weeks := map fst (rows close)) in *.
  rewrite length_app. cbn [length].
  replace (length weeks + 2 - 2)%nat with (length weeks) by lia.
  replace (length weeks + 2 - 1)%nat with (S (length weeks)) by lia.
  rewrite take_app_length, drop_app_length, Ht.
  destruct (Nat.leb_spec 2 (length weeks + 2)) as [_ | Hlt]; [ | lia].
  cbn [andb labels_eqb value_eqb String.eqb Ascii.eqb Bool.eqb].
  eapply forallb_Permutation;
    [symmetry; apply (merge_sort_Permutation (row_le false [S (length weeks)])) | ].
  apply forallb_forall. intros r' Hr'. apply in_map_iff in Hr' as (r & <- & Hin).
  destruct (sma_row_shape _ r Hg' Hin) as (Hlen & Hcell & _).
  cbn [columns rows df_round2 T] in Hlen, Hcell. fold weeks in Hlen, Hcell.
  rewrite Hcell, Hlen. cbn [is_float_cell andb].
  replace (S (S (length weeks)) =? length weeks + 2)%nat with true
    by (symmetry; apply Nat.eqb_eq; lia).
  rewrite andb_true_r. unfold sma_row. cbn [fst].
  cbn [rows df_round2 T] in Hin.
  apply in_map_iff in Hin as ([x cells] & <- & Hin). cbn [fst].
  apply in_combine_l in Hin. rewrite forallb_forall in Hstr.
  rewrite (Hstr x Hin). reflexivity.
Qed.

(** X17. The table of moving averages is a valid input of the merger:
    when the provider names the ticker axis [Ticker] and labels it with
    strings, what lines 122 to 126 compute from a grid of floats is indexed
    by [Ticker], ends with the columns [200wk_sma] and [% Deviation], and has
    a float in every [% Deviation] cell. *)
Theorem sma_table_is_sma_frame (close : DataFrame) :
  weekly_grid (T close) = true ->
  columns_name close = Some "Ticker" ->
  forallb is_str (columns close) = true ->
  exists out, sma_table close = Ok out /\ sma_frame out = true.
Proof.
  intros Hg Hname Hstr.
  destruct (sma_table_frame close Hg Hname Hstr) as (out & Hout & _ & Hframe).
  exists out. split; [exact Hout | exact Hframe].
Qed.

Section MovingAverageExtras.

Variable clock : nat -> Z.
Variable requests_get : string -> html.
Variable yf_download : list value -> Z -> option Z -> interval -> pyobj.

Lemma sma_hit (rg : string -> html)
    (yf : list value -> Z -> option Z -> interval -> pyobj) (w : world) (d : pyobj) :
  (load_from_cache clock "200wma_cache.pkl" 1 w).1 = Ok (Some d) ->
  fetch_200_wk_simple_moving_average_SMA clock rg yf w
  = (Ok d, (load_from_cache clock "200wma_cache.pkl" 1 w).2).
Proof.
  intros Hhit. unfold fetch_200_wk_simple_moving_average_SMA, bind.
  destruct (load_from_cache clock "200wma_cache.pkl" 1 w) as [[o|e] w'];
    cbn [fst snd] in *; [ | discriminate].
  now injection Hhit as ->.
Qed.

(** X18. On a hit of its cache the moving-average fetcher returns the
    cached object as it is: it loads no reference table and asks the
    provider nothing (its result is the same for any other page source and
    provider), and it leaves the store as it was. *)
Theorem sma_fetcher_hit (requests_get' : string -> html)
    (yf_download' : list value -> Z -> option Z -> interval -> pyobj)
    (w : world) (d : pyobj) :
  (load_from_cache clock "200wma_cache.pkl" 1 w).1 = Ok (Some d) ->
  (fetch_200_wk_simple_moving_average_SMA clock requests_get yf_download w).1 = Ok d /\
  fetch_200_wk_simple_moving_average_SMA clock requests_get yf_download w
  = fetch_200_wk_simple_moving_average_SMA clock requests_get' yf_download' w /\
  bucket (fetch_200_wk_simple_moving_average_SMA clock requests_get yf_download w).2
  = bucket w.
Proof.
  intros Hhit. rewrite !(sma_hit _ _ w d Hhit). cbn [fst snd].
  repeat split. apply load_from_cache_bucket.
Qed.

(** The run of the moving-average fetcher on a miss. *)
Lemma sma_miss (w w1 : world) (sp : pyobj) (tickers : list value)
    (close out : DataFrame) :
  (load_from_cache clock "200wma_cache.pkl" 1 w).1 = Ok None ->
  load_or_download_sp500_tickers clock requests_get
    (load_from_cache clock "200wma_cache.pkl" 1 w).2 = (Ok sp, w1) ->
  column_tolist "Ticker" sp = Ok tickers ->
  wide_getitem "Close"
    (yf_download tickers (clock (tick w1) / day_us - 3 - 1401)
       (Some (clock (tick w1) / day_us - 3)) Weekly) = Ok close ->
  sma_table close = Ok out ->
  fetch_200_wk_simple_moving_average_SMA clock requests_get yf_download w
  = (Ok (PFrame out),
     (save_to_cache clock (PFrame out) "200wma_cache.pkl"
        {| bucket := bucket w1; tick := S (tick w1) |}).2).
Proof.
  intros Hmiss Hsp Htick Hclose Hout.
  unfold fetch_200_wk_simple_moving_average_SMA, bind.
  destruct (load_from_cache clock "200wma_cache.pkl" 1 w) as [[o|e] w0];
    cbn [fst snd] in *; [ | discriminate].
  injection Hmiss as ->. rewrite Hsp. unfold datetime_now, lift.
  rewrite Htick.
  change (200 * 7 + 1) with 1401. rewrite Hclose, Hout. reflexivity.
Qed.

(** X19. The moving-average fetcher writes through: after a miss it asks
    the provider for weekly bars from 1401 days before the end date to the
    end date, three days before today, stores the table it computes, and a
    second call within a day returns that table without any fetch. *)
Theorem sma_fetcher_write_through (requests_get' : string -> html)
    (yf_download' : list value -> Z -> option Z -> interval -> pyobj)
    (w w1 : world) (sp : pyobj) (tickers : list value) (close out : DataFrame) :
  (load_from_cache clock "200wma_cache.pkl" 1 w).1 = Ok None ->
  load_or_download_sp500_tickers clock requests_get
    (load_from_cache clock "200wma_cache.pkl" 1 w).2 = (Ok sp, w1) ->
  column_tolist "Ticker" sp = Ok tickers ->
  wide_getitem "Close"
    (yf_download tickers (clock (tick w1) / day_us - 3 - 1401)
       (Some (clock (tick w1) / day_us - 3)) Weekly) = Ok close ->
  sma_table close = Ok out ->
  clock (S (S (tick w1))) - clock (S (tick w1)) <= timedelta_days 1 ->
  (fetch_200_wk_simple_moving_average_SMA clock requests_get yf_download w).1
  = Ok (PFrame out) /\
  (fetch_200_wk_simple_moving_average_SMA clock requests_get' yf_download'
     (fetch_200_wk_simple_moving_average_SMA clock requests_get yf_download w).2).1
  = Ok (PFrame out).
Proof.
  intros Hmiss Hsp Htick Hclose Hout Hage.
  rewrite (sma_miss w w1 sp tickers close out Hmiss Hsp Htick Hclose Hout).
  cbn [fst snd]. split; [reflexivity | ].
  rewrite (sma_hit requests_get' yf_download' _ (PFrame out)); [reflexivity | ].
  now rewrite load_after_save.
Qed.

End MovingAverageExtras.

(** ** The merger: write-through, failure, rows *)

Section MergerExtras.

Variable clock : nat -> Z.
Variable py_str : value -> string.

(** The run of the merger on valid inputs: the table sorted once goes to
    the cache, the table sorted once more is returned. *)
Lemma merge_stock_data_run (cp ma : DataFrame) (w : world) :
  price_table cp = true -> sma_frame ma = true ->
  merge_stock_data clock py_str cp ma w =
  (Ok {| index_name := None; columns_name := None; columns := new_order;
         rows := merge_sort (row_le true [0%nat])
                   (merge_sort (row_le true [0%nat])
                      (range_index (inner_join_rows cp ma))) |},
   (save_to_cache clock
      (PFrame {| index_name := None; columns_name := None; columns := new_order;
                 rows := merge_sort (row_le true [0%nat])
                           (range_index (inner_join_rows cp ma)) |})
      "final_merged_data_cache.pkl" w).2).
Proof.
  intros Hcp Hma.
  assert (H := merge_stock_data_unsorted py_str cp ma Hcp Hma).
  assert (Hfl := inner_join_rows_floats cp ma Hma).
  unfold merge_stock_data, bind, lift.
  destruct (reset_index cp) as [cp1|e]; cbn [rbind] in H; [ | discriminate].
  destruct (reset_index ma) as [ma1|e]; cbn [rbind] in H; [ | discriminate].
  destruct (getitem_list _ ma1) as [right|e]; cbn [rbind] in H; [ | discriminate].
  destruct (merge py_str Inner (VStr "Ticker") cp1 right) as [m|e];
    cbn [rbind] in H; [ | discriminate].
  destruct (drop_columns _ (columns_astype_str py_str m)) as [d|e];
    cbn [rbind] in H; [ | discriminate].
  rewrite H. rewrite (sort_merged _ Hfl). rewrite !save_to_cache_spec.
  rewrite sort_merged; [reflexivity | ].
  exact (forallb_Permutation _ _ _
           (Permutation_sym (merge_sort_Permutation (row_le true [0%nat]) _)) Hfl).
Qed.

(** X20. The merger writes through to its own cache entry: after a run on
    valid inputs the entry [final_merged_data_cache.pkl] holds a table with
    the columns and, up to their order, the rows of the table returned; no
    other blob of the store is written. *)
Theorem merger_write_through (cp ma : DataFrame) (w : world) :
  price_table cp = true -> sma_frame ma = true ->
  exists out cached,
    (merge_stock_data clock py_str cp ma w).1 = Ok out /\
    bucket (merge_stock_data clock py_str cp ma w).2
      !! _get_blob "final_merged_data_cache.pkl" = Some (Pickled (PFrame cached)) /\
    columns cached = columns out /\
    Permutation (rows cached) (rows out) /\
    (forall name,
       name <> _get_blob "final_merged_data_cache.pkl" ->
       name <> _get_metadata_blob "final_merged_data_cache.pkl" ->
       bucket (merge_stock_data clock py_str cp ma w).2 !! name = bucket w !! name).
Proof.
  intros Hcp Hma. rewrite (merge_stock_data_run cp ma w Hcp Hma).
  rewrite save_to_cache_spec. cbn [fst snd bucket].
  eexists. eexists. split; [reflexivity | ]. split; [ | split; [ | split]].
  - rewrite lookup_insert_ne by apply metadata_blob_ne. apply lookup_insert_eq.
  - reflexivity.
  - cbn [rows]. symmetry. apply (merge_sort_Permutation (row_le true [0%nat])).
  - intros name H1 H2. rewrite !lookup_insert_ne by congruence. reflexivity.
Qed.

(** X21. When the index of the table of moving averages has no name (and
    the table has no [Ticker] column), [reset_index] names the new column
    [index], the selection of the [Ticker] column raises [KeyError], and the
    merger writes nothing to the store. *)
Theorem merger_unnamed_index_raises (cp ma : DataFrame) (w : world) :
  price_table cp = true ->
  index_name ma = None ->
  has_label (VStr "index") (columns ma) = false ->
  has_label (VStr "Ticker") (columns ma) = false ->
  merge_stock_data clock py_str cp ma w = (Raise KeyError, w).
Proof.
  intros Hcp Hidx Hindex Hticker.
  apply price_table_inv in Hcp as (Hci & Hcc & _).
  unfold merge_stock_data, bind, lift.
  unfold reset_index at 1. rewrite Hci, Hcc.
  change (has_label (VStr "index") price_columns) with false. cbv beta iota zeta.
  change (has_label (VStr "index") price_columns) with false. cbv beta iota.
  unfold reset_index. rewrite Hidx, Hindex. cbv beta iota zeta. rewrite Hindex.
  unfold getitem_list. cbn [columns locs_of]. unfold positions at 1.
  cbn [positions_from].
  change (value_eqb (VStr "Ticker") (VStr "index")) with false. cbv beta iota.
  rewrite (positions_from_absent _ _ _ Hticker). reflexivity.
Qed.

(** X22. The merger alters no value: every row of its output is made of
    the last two cells of a row of averages ([% Deviation] and [200wk_sma])
    and of the ticker, company, close, sector and industry of a row of prices
    with the same ticker, and every such pair of rows gives a row. *)
Theorem merger_rows_carry_values (cp ma : DataFrame) (w : world) :
  price_table cp = true -> sma_frame ma = true ->
  exists out,
    (merge_stock_data clock py_str cp ma w).1 = Ok out /\
    (forall row, In row (rows out) ->
       exists l r, In l (rows cp) /\ In r (rows ma) /\ cell 1 l.2 = r.1 /\
         row.2 = [cell (length (columns ma) - 1) r.2; cell 1 l.2; cell 3 l.2;
                  cell (length (columns ma) - 2) r.2; cell 2 l.2; cell 4 l.2;
                  cell 5 l.2]) /\
    (forall l r, In l (rows cp) -> In r (rows ma) -> cell 1 l.2 = r.1 ->
       exists row, In row (rows out) /\
         row.2 = [cell (length (columns ma) - 1) r.2; cell 1 l.2; cell 3 l.2;
                  cell (length (columns ma) - 2) r.2; cell 2 l.2; cell 4 l.2;
                  cell 5 l.2]).
Proof.
  intros Hcp Hma. rewrite (merge_stock_data_run cp ma w Hcp Hma). cbn [fst].
  eexists. split; [reflexivity | ]. cbn [rows].
  apply price_table_inv in Hcp as (_ & _ & Hcr).
  apply sma_frame_inv in Hma as (_ & weeks & _ & _ & Hmr).
  split.
  - intros row Hrow. apply in_merged_rows in Hrow.
    apply in_inner_join_rows in Hrow as (l & r & Hl & Hr & Hk & Hrow).
    exists l, r. repeat split; try assumption.
    destruct (Hcr l Hl) as [_ Hs]. destruct (Hmr r Hr) as (Hs' & _ & _).
    destruct (cell 1 l.2); try discriminate.
    destruct r as [[t| | |] rc]; try discriminate. cbn [fst] in *.
    apply key_eqb_strs in Hk. now subst.
  - intros l r Hl Hr Heq.
    destruct (merged_rows_in cp ma (merged_row (length (columns ma)) l.2 r))
      as (row & Hrow & Hcells).
    + apply in_inner_join_rows. exists l, r. repeat split; try assumption.
      destruct (Hcr l Hl) as [_ Hs]. rewrite <- Heq.
      destruct (cell 1 l.2); try discriminate. now apply key_eqb_strs.
    + exists row. split; [exact Hrow | exact Hcells].
Qed.

Lemma has_label_str_not_in (s : string) (cs : list value) :
  ~ In (VStr s) cs -> has_label (VStr s) cs = false.
Proof.
  intros Hnot. destruct (has_label (VStr s) cs) eqn:E; [ | reflexivity].
  apply existsb_exists in E as (x & Hx & Heq). exfalso. apply Hnot.
  destruct x; cbn in Heq; try discriminate.
  apply String.eqb_eq in Heq. now subst.
Qed.

(** A ticker selects at most one row of a table whose tickers are
    distinct strings. *)
Lemma filter_key_unique (t : value) (R : list (value * list value)) :
  is_str t = true ->
  (forall r, In r R -> is_str r.1 = true) ->
  NoDup (map fst R) ->
  length (List.filter (fun r : value * list value => key_eqb t r.1) R)
  = if has_label t (map fst R) then 1%nat else 0%nat.
Proof.
  intros Ht. destruct t as [s| | |]; try discriminate.
  induction R as [|r R IH]; intros HR Hnd; [reflexivity | ].
  cbn [map] in Hnd. apply NoDup_cons in Hnd as [Hnotin Hnd].
  specialize (IH (fun r' Hr' => HR r' (or_intror Hr')) Hnd).
  assert (Hr := HR r (or_introl eq_refl)).
  destruct r as [[s'| | |] rc]; try discriminate. cbn [fst] in *.
  assert (Hk : key_eqb (VStr s) (VStr s') = String.eqb s s')
    by (unfold key_eqb; cbn; apply orb_false_r).
  cbn [List.filter map fst]. rewrite has_label_cons, Hk.
  change (value_eqb (VStr s) (VStr s')) with (String.eqb s s').
  destruct (String.eqb_spec s s') as [-> | Hne]; cbn [orb length].
  - rewrite IH. rewrite has_label_str_not_in; [reflexivity | ].
    intros Hin. apply Hnotin. apply list_elem_of_In. exact Hin.
  - exact IH.
Qed.

(** X23. When the tickers of the table of moving averages are distinct,
    the merger returns one row for every row of prices whose ticker has a
    moving average: every date of such a ticker is kept, and the output is
    never longer than the table of prices. *)
Theorem merger_row_count (cp ma : DataFrame) (w : world) :
  price_table cp = true -> sma_frame ma = true ->
  NoDup (sma_symbols ma) ->
  exists out,
    (merge_stock_data clock py_str cp ma w).1 = Ok out /\
    length (rows out)
    = length (List.filter (fun l : value * list value =>
                             has_label (cell 1 l.2) (sma_symbols ma)) (rows cp)) /\
    (length (rows out) <= length (rows cp))%nat.
Proof.
  intros Hcp Hma Hnd. rewrite (merge_stock_data_run cp ma w Hcp Hma). cbn [fst].
  eexists. split; [reflexivity | ]. cbn [rows].
  apply price_table_inv in Hcp as (_ & _ & Hcr).
  apply sma_frame_inv in Hma as (_ & weeks & _ & _ & Hmr).
  assert (Hlen : length (merge_sort (row_le true [0%nat])
                           (merge_sort (row_le true [0%nat])
                              (range_index (inner_join_rows cp ma))))
                 = length (List.filter (fun l : value * list value =>
                                          has_label (cell 1 l.2) (sma_symbols ma))
                                       (rows cp))).
  { rewrite (Permutation_length (merge_sort_Permutation (row_le true [0%nat]) _)).
    rewrite (Permutation_length (merge_sort_Permutation (row_le true [0%nat]) _)).
    unfold range_index. rewrite length_imap. unfold inner_join_rows.
    revert Hcr. generalize (rows cp) as L.
    induction L as [|l L IH]; intros Hcr; [reflexivity | ].
    cbn [map concat List.filter]. rewrite length_app, length_map.
    rewrite (filter_key_unique (cell 1 l.2) (rows ma)).
    - rewrite IH by (intros r Hr; apply Hcr; now right).
      unfold sma_symbols.
      destruct (has_label (cell 1 l.2) (map fst (rows ma))); reflexivity.
    - apply (Hcr l). now left.
    - intros r Hr. now destruct (Hmr r Hr).
    - exact Hnd. }
  split; [exact Hlen | ]. rewrite Hlen. apply filter_length_le.
Qed.

End MergerExtras.

(** ** The table of prices: order, shape, missing closes *)


Lemma joined_price_rows_length (srows : list (value * list value))
    (e : value * value * value) (row : list value) :
  In row (joined_price_rows srows e) -> length row = 6%nat.
Proof.
  unfold joined_price_rows. destruct (List.filter _ srows) as [|m ms].
  - intros [<- | []]. reflexivity.
  - intros H. apply in_map_iff in H as (r & <- & _). reflexivity.
Qed.

Lemma left_join_rows_heads (close sp : DataFrame) (row : value * list value) :
  price_grid close = true ->
  In row (range_index (left_join_rows close sp)) ->
  length row.2 = 6%nat /\
  (exists t, cell 0 row.2 = VTime t) /\ (exists s, cell 1 row.2 = VStr s).
Proof.
  intros Hg Hrow. unfold price_grid in Hg.
  apply andb_prop in Hg as [Hg Hgt]. apply andb_prop in Hg as [_ Hgs].
  apply In_range_index in Hrow.
  apply in_left_join_rows in Hrow as (e & He & Hrow).
  split; [exact (joined_price_rows_length _ _ _ Hrow) | ].
  apply in_joined_price_rows in Hrow as (H0 & H1 & _).
  apply in_stack in He as [(r & Hr & Hr1) Hc]. rewrite H0, H1. split.
  - rewrite <- Hr1. rewrite forallb_forall in Hgt. specialize (Hgt r Hr).
    destruct r.1; try discriminate. eauto.
  - rewrite forallb_forall in Hgs. specialize (Hgs _ Hc).
    destruct e.1.2; try discriminate. eauto.
Qed.

Lemma string_leb_refl (s : string) : String.leb s s = true.
Proof. destruct (String.leb_total s s); assumption. Qed.

Lemma row_le_ticker_date (r1 r2 : value * list value) (s1 s2 : string) (t1 t2 : Z) :
  cell 1 r1.2 = VStr s1 -> cell 1 r2.2 = VStr s2 ->
  cell 0 r1.2 = VTime t1 -> cell 0 r2.2 = VTime t2 ->
  row_le true [1; 0]%nat r1 r2 ->
  String.leb s1 s2 = true /\ (s1 = s2 -> t1 <= t2).
Proof.
  intros Hs1 Hs2 Ht1 Ht2. unfold row_le, take_cells. cbn [map lex_leb].
  rewrite Hs1, Hs2, Ht1, Ht2. unfold key_leb, value_leb.
  cbn [value_is_nan to_float]. intros H.
  destruct (String.leb s2 s1) eqn:E21; cbn [negb] in H.
  - destruct (String.leb s1 s2) eqn:E12; cbn [negb] in H; [ | destruct H].
    split; [reflexivity | ]. intros _.
    destruct (Z.leb_spec t2 t1); cbn [negb] in H; [ | lia].
    destruct (Z.leb_spec t1 t2); cbn [negb] in H; [lia | destruct H].
  - split.
    + destruct (String.leb_total s1 s2) as [Hle | Hle]; [exact Hle | congruence].
    + intros ->. rewrite string_leb_refl in E21. discriminate.
Qed.

Section PriceTableExtras.

Variable clock : nat -> Z.
Variable py_str : value -> string.
Variable requests_get : string -> html.
Variable yf_download : list value -> Z -> option Z -> interval -> pyobj.

(** The run of [fetch_stock_data] on a reference table and a grid of
    closes that are well formed. *)
Lemma fetch_stock_data_run (w w1 w2 : world) (sp close : DataFrame) (data : pyobj) :
  load_or_download_sp500_tickers clock requests_get w = (Ok (PFrame sp), w1) ->
  load_or_download_data clock yf_download (PFrame sp)
    (clock (tick w1) / day_us - 3)
    {| bucket := bucket w1; tick := S (tick w1) |} = (Ok data, w2) ->
  wide_getitem "Close" data = Ok close ->
  price_grid close = true ->
  reference_table sp = true ->
  fetch_stock_data clock py_str requests_get yf_download w
  = (Ok {| index_name := None; columns_name := None; columns := price_columns;
           rows := merge_sort (row_le true [1; 0]%nat)
                     (range_index (left_join_rows close sp)) |}, w2).
Proof.
  intros Hsp Hdata Hclose Hg Hr.
  assert (H := fetch_stock_data_rows py_str close sp Hg Hr).
  unfold fetch_stock_data, bind. rewrite Hsp.
  unfold datetime_now at 1. cbv beta iota. rewrite Hdata.
  unfold lift. rewrite Hclose.
  destruct (stack_reset_index close) as [c1|e]; cbn [rbind] in H; [ | discriminate].
  destruct (set_columns _ c1) as [c2|e]; cbn [rbind] in H; [ | discriminate].
  cbn [as_frame].
  destruct (merge py_str LeftJoin (VStr "Ticker") c2 sp) as [m|e];
    cbn [rbind] in H; [ | discriminate].
  rewrite H. reflexivity.
Qed.

(** X24. The table of prices is sorted by ticker and, for one ticker, by
    date. *)
Theorem fetch_stock_data_sorted (w w1 w2 : world) (sp close : DataFrame)
    (data : pyobj) :
  load_or_download_sp500_tickers clock requests_get w = (Ok (PFrame sp), w1) ->
  load_or_download_data clock yf_download (PFrame sp)
    (clock (tick w1) / day_us - 3)
    {| bucket := bucket w1; tick := S (tick w1) |} = (Ok data, w2) ->
  wide_getitem "Close" data = Ok close ->
  price_grid close = true ->
  reference_table sp = true ->
  exists out,
    (fetch_stock_data clock py_str requests_get yf_download w).1 = Ok out /\
    Sorted price_row_le (rows out).
Proof.
  intros Hsp Hdata Hclose Hg Hr.
  rewrite (fetch_stock_data_run w w1 w2 sp close data Hsp Hdata Hclose Hg Hr).
  eexists. split; [reflexivity | ]. cbn [rows].
  assert (Hheads : Forall (fun row : value * list value =>
                             (exists t, cell 0 row.2 = VTime t) /\
                             (exists s, cell 1 row.2 = VStr s))
                     (merge_sort (row_le true [1; 0]%nat)
                        (range_index (left_join_rows close sp)))).
  { apply List.Forall_forall. intros row Hrow.
    eapply Permutation_in in Hrow;
      [ | apply (merge_sort_Permutation (row_le true [1; 0]%nat))].
    now destruct (left_join_rows_heads close sp row Hg Hrow) as (_ & H0 & H1). }
  assert (Hs := Sorted_merge_sort (row_le true [1; 0]%nat)
                  (range_index (left_join_rows close sp))).
  induction Hs as [|r l Hs IH Hhd]; constructor.
  - apply IH. now inversion Hheads.
  - destruct Hhd as [|r' l' Hrr']; constructor.
    inversion Hheads as [|? ? Hr1 Hl]; subst. inversion Hl as [|? ? Hr2 _]; subst.
    destruct Hr1 as [[t1 Ht1] [s1 Hs1]]. destruct Hr2 as [[t2 Ht2] [s2 Hs2]].
    exists s1, s2, t1, t2. repeat split; try assumption;
      apply (row_le_ticker_date r r' s1 s2 t1 t2); assumption.
Qed.

(** The sorted left join of a grid of prices with a reference table has
    the shape of a table of prices. *)
Lemma price_table_left_join (close sp : DataFrame) :
  price_grid close = true ->
  price_table {| index_name := None; columns_name := None; columns := price_columns;
                 rows := merge_sort (row_le true [1; 0]%nat)
                           (range_index (left_join_rows close sp)) |} = true.
Proof.
  intros Hg. unfold price_table. cbn [index_name columns rows].
  change (labels_eqb price_columns price_columns) with true. cbn [andb].
  eapply forallb_Permutation;
    [symmetry; apply (merge_sort_Permutation (row_le true [1; 0]%nat)) | ].
  apply forallb_forall. intros row Hrow.
  destruct (left_join_rows_heads close sp row Hg Hrow) as (Hlen & _ & [s Hs]).
  rewrite Hlen, Hs. reflexivity.
Qed.

(** X25. The table of prices is a valid input of the merger: it has an
    unnamed index, the six columns [Date], [Ticker], [Close], [Security],
    [Sector], [Industry], six cells in every row and a string in every
    [Ticker] cell. *)
Theorem fetch_stock_data_is_price_table (w w1 w2 : world) (sp close : DataFrame)
    (data : pyobj) :
  load_or_download_sp500_tickers clock requests_get w = (Ok (PFrame sp), w1) ->
  load_or_download_data clock yf_download (PFrame sp)
    (clock (tick w1) / day_us - 3)
    {| bucket := bucket w1; tick := S (tick w1) |} = (Ok data, w2) ->
  wide_getitem "Close" data = Ok close ->
  price_grid close = true ->
  reference_table sp = true ->
  exists out,
    (fetch_stock_data clock py_str requests_get yf_download w).1 = Ok out /\
    price_table out = true.
Proof.
  intros Hsp Hdata Hclose Hg Hr.
  rewrite (fetch_stock_data_run w w1 w2 sp close data Hsp Hdata Hclose Hg Hr).
  eexists. split; [reflexivity | ]. now apply price_table_left_join.
Qed.


End PriceTableExtras.

(** ** app.py: the filter on the deviation *)

Lemma keep_where_map_filter {A} (p : A -> bool) (l : list A) :
  keep_where (map p l) l = List.filter p l.
Proof.
  induction l as [|x l IH]; [reflexivity | ].
  cbn [map keep_where List.filter]. now rewrite IH.
Qed.

Lemma merged_table_inv (df : DataFrame) :
  merged_table df = true ->
  columns df = new_order /\
  (forall r, In r (rows df) -> is_float_cell (cell 0 r.2) = true).
Proof.
  unfold merged_table. intros H. apply andb_prop in H as [Hc Hr]. split.
  - apply (labels_eqb_strs _ ["% Deviation"; "Ticker"; "Company"; "200 Week SMA";
                               "Close"; "Sector"; "Industry"]), Hc.
  - intros r Hin. rewrite forallb_forall in Hr. now apply Hr.
Qed.

Lemma getitem_deviation (df : DataFrame) :
  columns df = new_order ->
  getitem (VStr "% Deviation") df = Ok (map (fun r => cell 0 r.2) (rows df)).
Proof. intros Hc. unfold getitem. rewrite Hc. reflexivity. Qed.

(** The filter of lines 137 to 140, as a predicate on the rows. *)
Lemma filtered_df_rows (lower upper : fval) (df : DataFrame) :
  merged_table df = true ->
  filtered_df lower upper df =
  Ok {| index_name := index_name df;
        columns_name := columns_name df;
        columns := columns df;
        rows := List.filter (fun r => ieee_le lower (deviation_of r)
                                      && ieee_le (deviation_of r) upper)
                            (rows df) |}.
Proof.
  intros Hdf. apply merged_table_inv in Hdf as [Hc Hr].
  unfold filtered_df. rewrite (getitem_deviation df Hc). cbn [rbind].
  unfold series_ge, series_le.
  rewrite (mapR_map_ok _ _ (fun r => ieee_le lower (deviation_of r))).
  2:{ intros r Hin. now rewrite (to_float_float_cell _ (Hr r Hin)). }
  cbn [rbind].
  rewrite (mapR_map_ok _ _ (fun r => ieee_le (deviation_of r) upper)).
  2:{ intros r Hin. now rewrite (to_float_float_cell _ (Hr r Hin)). }
  cbn [rbind]. unfold boolean_index.
  now rewrite zip_with_map_map, keep_where_map_filter.
Qed.

Lemma StronglySorted_filter {A} (R : A -> A -> Prop) (p : A -> bool) (l : list A) :
  StronglySorted R l -> StronglySorted R (List.filter p l).
Proof.
  induction 1 as [|x l Hs IH Hx]; [constructor | ].
  cbn [List.filter]. destruct (p x); [ | exact IH].
  constructor; [exact IH | ].
  apply List.Forall_forall. intros y Hy. apply filter_In in Hy as [Hy _].
  rewrite List.Forall_forall in Hx. now apply Hx.
Qed.

Lemma StronglySorted_map {A B} (R : B -> B -> Prop) (f : A -> B) (l : list A) :
  StronglySorted R (map f l) <-> StronglySorted (fun a b => R (f a) (f b)) l.
Proof.
  induction l as [|x l IH]; cbn [map].
  - split; constructor.
  - split; intros H; inversion H as [|? ? Hs Hx]; subst; constructor;
      try (apply IH; exact Hs).
    + rewrite List.Forall_forall in Hx. apply List.Forall_forall.
      intros y Hy. apply Hx. now apply in_map.
    + apply List.Forall_forall. intros y Hy. apply in_map_iff in Hy as (a & <- & Ha).
      rewrite List.Forall_forall in Hx. now apply Hx.
Qed.

(** X27. After [Update] the table shown holds exactly the rows of the
    merged table whose deviation lies between the two bounds, in their
    original order and with the same columns; a row whose deviation is NaN
    is never shown, and a table sorted on the deviation stays sorted. *)
Theorem filtered_df_within_bounds (lower upper : fval) (df : DataFrame) :
  merged_table df = true ->
  exists shown,
    filtered_df lower upper df = Ok shown /\
    columns shown = columns df /\
    rows shown = List.filter (fun r => ieee_le lower (deviation_of r)
                                       && ieee_le (deviation_of r) upper)
                             (rows df) /\
    (forall r, In r (rows shown) -> is_nan (deviation_of r) = false) /\
    (StronglySorted (fun x y => fval_leb x y = true) (map deviation_of (rows df)) ->
     StronglySorted (fun x y => fval_leb x y = true) (map deviation_of (rows shown))).
Proof.
  intros Hdf. rewrite (filtered_df_rows lower upper df Hdf).
  eexists. split; [reflexivity | ]. cbn [columns rows].
  split; [reflexivity | ]. split; [reflexivity | ]. split.
  - intros r Hr. apply filter_In in Hr as [_ Hr].
    apply andb_prop in Hr as [_ Hr]. unfold ieee_le in Hr.
    apply andb_prop in Hr as [Hr _]. apply andb_prop in Hr as [Hr _].
    now apply negb_true_iff.
  - rewrite !StronglySorted_map. apply StronglySorted_filter.
Qed.

Lemma fold_min_spec (ys : list fval) (a : fval) :
  let m := fold_left (fun a b => if fval_leb b a then b else a) ys a in
  is_nan a = false -> Forall (fun y => is_nan y = false) ys ->
  is_nan m = false /\ fval_leb m a = true /\
  Forall (fun y => fval_leb m y = true) ys.
Proof.
  cbv zeta. revert a. induction ys as [|y ys IH]; intros a Ha Hys; cbn [fold_left].
  - repeat split; [exact Ha | | constructor].
    destruct (fval_leb_total a a); assumption.
  - inversion Hys as [|? ? Hy Hys']; subst.
    destruct (fval_leb y a) eqn:E.
    + destruct (IH y Hy Hys') as (Hm & Hmy & Hall). repeat split; [exact Hm | | ].
      * eapply fval_leb_trans; eassumption.
      * constructor; assumption.
    + destruct (IH a Ha Hys') as (Hm & Hma & Hall). repeat split; try assumption.
      constructor; [ | exact Hall].
      eapply fval_leb_trans; [exact Hma | ].
      destruct (fval_leb_total a y); [assumption | congruence].
Qed.

Lemma fold_max_spec (ys : list fval) (a : fval) :
  let m := fold_left (fun a b => if fval_leb a b then b else a) ys a in
  is_nan a = false -> Forall (fun y => is_nan y = false) ys ->
  is_nan m = false /\ fval_leb a m = true /\
  Forall (fun y => fval_leb y m = true) ys.
Proof.
  cbv zeta. revert a. induction ys as [|y ys IH]; intros a Ha Hys; cbn [fold_left].
  - repeat split; [exact Ha | | constructor].
    destruct (fval_leb_total a a); assumption.
  - inversion Hys as [|? ? Hy Hys']; subst.
    destruct (fval_leb a y) eqn:E.
    + destruct (IH y Hy Hys') as (Hm & Hmy & Hall). repeat split; [exact Hm | | ].
      * eapply fval_leb_trans; eassumption.
      * constructor; assumption.
    + destruct (IH a Ha Hys') as (Hm & Hma & Hall). repeat split; try assumption.
      constructor; [ | exact Hall].
      eapply fval_leb_trans; [ | exact Hma].
      destruct (fval_leb_total a y); [congruence | assumption].
Qed.

(** The smallest and the largest of the values that are not NaN bound
    every value that is not NaN. *)
Lemma nanmin_nanmax_bound (xs : list fval) (x : fval) :
  In x xs -> is_nan x = false ->
  ieee_le (nanmin xs) x = true /\ ieee_le x (nanmax xs) = true.
Proof.
  intros Hin Hx. unfold nanmin, nanmax.
  assert (Hf : In x (List.filter (fun x => negb (is_nan x)) xs))
    by (apply filter_In; split; [exact Hin | now rewrite Hx]).
  assert (Hall : Forall (fun y => is_nan y = false)
                   (List.filter (fun x => negb (is_nan x)) xs)).
  { apply List.Forall_forall. intros y Hy. apply filter_In in Hy as [_ Hy].
    now apply negb_true_iff. }
  destruct (List.filter (fun x => negb (is_nan x)) xs) as [|y ys]; [destruct Hf | ].
  inversion Hall as [|? ? Hy Hys]; subst.
  destruct (fold_min_spec ys y Hy Hys) as (Hm & Hmy & Hmall).
  destruct (fold_max_spec ys y Hy Hys) as (HM & HMy & HMall).
  unfold ieee_le. rewrite Hm, HM, Hx. cbn [negb andb].
  rewrite List.Forall_forall in Hmall, HMall.
  destruct Hf as [<- | Hf]; [now split | ]. split; [now apply Hmall | now apply HMall].
Qed.

(** X28. With the bounds the sliders start from, the smallest and the
    largest deviation of the merged table, [Update] keeps every row whose
    deviation is a number and drops exactly the rows whose deviation is
    NaN. *)
Theorem filtered_df_initial_bounds (df : DataFrame) :
  merged_table df = true ->
  exists lower upper shown,
    initial_bounds df = Ok (lower, upper) /\
    filtered_df lower upper df = Ok shown /\
    rows shown = List.filter (fun r => negb (is_nan (deviation_of r))) (rows df).
Proof.
  intros Hdf. assert (Hrows := fun lo hi => filtered_df_rows lo hi df Hdf).
  apply merged_table_inv in Hdf as [Hc Hr].
  assert (Hfl : floats_of (map (fun r : value * list value => cell 0 r.2) (rows df))
                = Ok (map deviation_of (rows df))).
  { unfold floats_of. apply mapR_map_ok. intros r Hin.
    now rewrite (to_float_float_cell _ (Hr r Hin)). }
  exists (nanmin (map deviation_of (rows df))), (nanmax (map deviation_of (rows df))).
  eexists. split; [ | split; [apply Hrows | ]].
  - unfold initial_bounds, series_min, series_max.
    rewrite (getitem_deviation df Hc). cbn [rbind]. rewrite Hfl. reflexivity.
  - cbn [rows]. apply filter_ext_in_bool. intros r Hin.
    destruct (is_nan (deviation_of r)) eqn:Hnan.
    + unfold ieee_le. rewrite Hnan. cbn [negb andb]. now rewrite andb_false_r.
    + destruct (nanmin_nanmax_bound (map deviation_of (rows df)) (deviation_of r))
        as [H1 H2]; [now apply in_map | exact Hnan | ].
      now rewrite H1, H2.
Qed.

(** ** app.py: the two charts of outliers *)

(** The table behind the charts: the filtered table with the absolute
    deviation appended to every row. *)
Lemma viz_df_rows (shown : DataFrame) :
  merged_table shown = true ->
  viz_df shown =
  Ok {| index_name := index_name shown;
        columns_name := columns_name shown;
        columns := new_order ++ [VStr "Abs_Deviation"];
        rows := map (fun r => (r.1, r.2 ++ [VFloat (fabs (deviation_of r))]))
                    (rows shown) |}.
Proof.
  intros Hdf. apply merged_table_inv in Hdf as [Hc Hr].
  unfold viz_df. rewrite (getitem_deviation shown Hc). cbn [rbind].
  unfold series_abs.
  rewrite (mapR_map_ok _ _ (fun r => VFloat (fabs (deviation_of r)))).
  2:{ intros r Hin. specialize (Hr r Hin). unfold deviation_of.
      destruct (cell 0 r.2); try discriminate Hr. reflexivity. }
  cbn [rbind]. unfold setitem. rewrite Hc.
  change (has_label (VStr "Abs_Deviation") new_order) with false. cbn match.
  now rewrite zip_with_map_same.
Qed.

Lemma deviation_of_viz_row (r : value * list value) :
  is_float_cell (cell 0 r.2) = true ->
  cell 0 (r.2 ++ [VFloat (fabs (deviation_of r))]) = cell 0 r.2.
Proof.
  unfold deviation_of. destruct r as [i [|c cs]]; cbn [snd app].
  - intros _. reflexivity.
  - intros _. reflexivity.
Qed.

(** A selection of the rows of the table behind the charts by a test on
    the deviation. *)
Lemma threshold_rows (test : fval -> bool) (shown : DataFrame) :
  merged_table shown = true ->
  rbind (getitem (VStr "% Deviation")
           {| index_name := index_name shown;
              columns_name := columns_name shown;
              columns := new_order ++ [VStr "Abs_Deviation"];
              rows := map (fun r => (r.1, r.2 ++ [VFloat (fabs (deviation_of r))]))
                          (rows shown) |})
        (fun dev =>
         rbind (mapR (fun v => match to_float v with
                               | Some x => Ok (test x)
                               | None => Raise TypeError
                               end) dev)
               (fun mask => Ok mask))
  = Ok (map (fun r => test (deviation_of r)) (rows shown)).
Proof.
  intros Hdf. apply merged_table_inv in Hdf as [Hc Hr].
  unfold getitem. cbn [columns rows].
  change (get_loc (VStr "% Deviation") (new_order ++ [VStr "Abs_Deviation"]))
    with (@Ok nat 0%nat).
  cbn [rbind]. rewrite map_map.
  rewrite (mapR_map_ok _ _ (fun r => test (deviation_of r))); [reflexivity | ].
  intros r Hin. cbn [snd]. rewrite (deviation_of_viz_row r (Hr r Hin)).
  now rewrite (to_float_float_cell _ (Hr r Hin)).
Qed.

Lemma keep_where_map_map_filter {A B} (p : A -> bool) (f : A -> B) (l : list A) :
  keep_where (map p l) (map f l) = map f (List.filter p l).
Proof.
  induction l as [|x l IH]; [reflexivity | ].
  cbn [map keep_where List.filter]. destruct (p x); cbn [map]; now rewrite IH.
Qed.

(** X29. The two charts of outliers never show the same stock when the
    lower threshold does not exceed the upper one, as the bounds of the two
    inputs ensure (below <= 0 <= above): a row in the chart above has a
    deviation strictly above its threshold, a row in the chart below strictly
    below, and a row whose deviation is NaN is in neither. Both charts show
    rows of the table behind the charts only. *)
Theorem threshold_charts_disjoint (above below : fval) (shown : DataFrame) :
  merged_table shown = true ->
  ieee_le below above = true ->
  exists viz up down,
    viz_df shown = Ok viz /\
    above_threshold_df above viz = Ok up /\
    below_threshold_df below viz = Ok down /\
    (forall r, In r (rows up) ->
       In r (rows viz) /\ ieee_lt above (deviation_of r) = true) /\
    (forall r, In r (rows down) ->
       In r (rows viz) /\ ieee_lt (deviation_of r) below = true) /\
    (forall r, In r (rows up) -> ~ In r (rows down)).
Proof.
  intros Hdf Hle. pose proof (merged_table_inv shown Hdf) as [Hc Hr].
  set (widen := fun r : value * list value =>
                  (r.1, r.2 ++ [VFloat (fabs (deviation_of r))])).
  assert (Hdev : forall r, In r (rows shown) -> deviation_of (widen r) = deviation_of r).
  { intros r Hin. unfold deviation_of at 1. unfold widen. cbn [snd].
    now rewrite (deviation_of_viz_row r (Hr r Hin)). }
  assert (Hup : above_threshold_df above
                  {| index_name := index_name shown;
                     columns_name := columns_name shown;
                     columns := new_order ++ [VStr "Abs_Deviation"];
                     rows := map widen (rows shown) |}
                = Ok {| index_name := index_name shown;
                        columns_name := columns_name shown;
                        columns := new_order ++ [VStr "Abs_Deviation"];
                        rows := map widen
                                  (List.filter (fun r => ieee_lt above (deviation_of r))
                                               (rows shown)) |}).
  { unfold above_threshold_df, series_gt.
    pose proof (threshold_rows (fun x => ieee_lt above x) shown Hdf) as E.
    fold widen in E.
    destruct (getitem _ _) as [dev | e]; cbn [rbind] in E |- *; [ | discriminate E].
    destruct (mapR _ dev) as [mask | e]; cbn [rbind] in E |- *; [ | discriminate E].
    injection E as ->. unfold boolean_index. cbn [index_name columns_name columns rows].
    now rewrite keep_where_map_map_filter. }
  assert (Hdown : below_threshold_df below
                  {| index_name := index_name shown;
                     columns_name := columns_name shown;
                     columns := new_order ++ [VStr "Abs_Deviation"];
                     rows := map widen (rows shown) |}
                = Ok {| index_name := index_name shown;
                        columns_name := columns_name shown;
                        columns := new_order ++ [VStr "Abs_Deviation"];
                        rows := map widen
                                  (List.filter (fun r => ieee_lt (deviation_of r) below)
                                               (rows shown)) |}).
  { unfold below_threshold_df, series_lt.
    pose proof (threshold_rows (fun x => ieee_lt x below) shown Hdf) as E.
    fold widen in E.
    destruct (getitem _ _) as [dev | e]; cbn [rbind] in E |- *; [ | discriminate E].
    destruct (mapR _ dev) as [mask | e]; cbn [rbind] in E |- *; [ | discriminate E].
    injection E as ->. unfold boolean_index. cbn [index_name columns_name columns rows].
    now rewrite keep_where_map_map_filter. }
  do 3 eexists. split; [apply (viz_df_rows shown Hdf) | ].
  fold widen. split; [exact Hup | ]. split; [exact Hdown | ].
  cbn [rows].
  assert (Hin_up : forall r, In r (map widen (List.filter
                     (fun r => ieee_lt above (deviation_of r)) (rows shown))) ->
                   In r (map widen (rows shown)) /\
                   ieee_lt above (deviation_of r) = true).
  { intros r Hin. apply in_map_iff in Hin as (r0 & <- & Hin).
    apply filter_In in Hin as [Hin Ht]. split; [now apply in_map | ].
    now rewrite (Hdev r0 Hin). }
  assert (Hin_down : forall r, In r (map widen (List.filter
                       (fun r => ieee_lt (deviation_of r) below) (rows shown))) ->
                     In r (map widen (rows shown)) /\
                     ieee_lt (deviation_of r) below = true).
  { intros r Hin. apply in_map_iff in Hin as (r0 & <- & Hin).
    apply filter_In in Hin as [Hin Ht]. split; [now apply in_map | ].
    now rewrite (Hdev r0 Hin). }
  split; [exact Hin_up | ]. split; [exact Hin_down | ].
  intros r Hu Hd. apply Hin_up in Hu as [_ Hu]. apply Hin_down in Hd as [_ Hd].
  unfold ieee_lt in Hu, Hd. unfold ieee_le in Hle.
  repeat match goal with
         | H : _ && _ = true |- _ => apply andb_prop in H as [? ?]
         | H : negb _ = true |- _ => apply negb_true_iff in H
         end.
  assert (Hba : fval_leb below (deviation_of r) = true).
  { eapply fval_leb_trans; [eassumption | ].
    destruct (fval_leb_total above (deviation_of r)); [assumption | congruence]. }
  congruence.
Qed.

(** ** main.py: the whole run on a cold start *)

Section MainExtras.

Variable clock : nat -> Z.
Variable py_str : value -> string.
Variable requests_get : string -> html.
Variable yf_download : list value -> Z -> option Z -> interval -> pyobj.

(** Without the data blob of a key, [load_from_cache] misses and leaves
    the world as it is: the clock is not even read. *)
Lemma load_from_cache_absent (K : string) (max_age : Z) (w : world) :
  bucket w !! _get_blob K = None ->
  load_from_cache clock K max_age w = (Ok None, w).
Proof.
  intros Hb. unfold_cache. rewrite Hb. exists_false. reflexivity.
Qed.

(** When the cached reference table is the table the page gives, the
    loader returns it whatever the age of the entry. *)
Lemma loader_consistent_cache (w : world) (table : html_table) (written_at : Z) :
  soup_find_table "constituents" (requests_get sp500_url) = Some table ->
  bucket w !! _get_blob "sp500_cache.pkl"
  = Some (Pickled (PFrame (DataFrame_of_records (extract_rows (tail (tr_rows table)))))) ->
  bucket w !! _get_metadata_blob "sp500_cache.pkl"
  = Some (Pickled (PMeta written_at)) ->
  exists w',
    load_or_download_sp500_tickers clock requests_get w
    = (Ok (PFrame (DataFrame_of_records (extract_rows (tail (tr_rows table))))), w').
Proof.
  intros Htable Hb Hm.
  pose proof (load_from_cache_result clock "sp500_cache.pkl" 1 w) as Hres.
  rewrite Hb, Hm in Hres. cbn [cache_lookup pickle_load metadata_date rbind] in Hres.
  destruct (clock (tick w) - written_at >? timedelta_days 1).
  - eexists. apply (loader_miss_world clock requests_get w table Hres Htable).
  - cbn [pickle_load rbind] in Hres. eexists.
    apply (loader_hit clock requests_get w _ Hres).
Qed.

Lemma getitem_ticker_reference (sp : DataFrame) :
  reference_table sp = true ->
  column_tolist "Ticker" (PFrame sp) = Ok (map (fun r => cell 0 r.2) (rows sp)).
Proof.
  intros Hr. apply reference_table_inv in Hr as [Hc _].
  unfold column_tolist, getitem. rewrite Hc. reflexivity.
Qed.

(** X30. On a cold start (none of the three caches of the fetchers
    holds an entry), with a page that has the constituents table and at
    least one record, and a provider that answers with a grid of daily closes
    and a grid of weekly closes of floats, [main] succeeds and the table it
    prints is a merged table: the seven columns in their final order and a
    float in every [% Deviation] cell, sorted on the deviation, NaN last. *)
Theorem main_cold_start (w : world) (table : html_table) (daily weekly : DataFrame) :
  bucket w !! _get_blob "sp500_cache.pkl" = None ->
  bucket w !! _get_blob "data_cache.pkl" = None ->
  bucket w !! _get_blob "200wma_cache.pkl" = None ->
  soup_find_table "constituents" (requests_get sp500_url) = Some table ->
  reference_table (DataFrame_of_records (extract_rows (tail (tr_rows table)))) = true ->
  (forall tickers start,
     wide_getitem "Close" (yf_download tickers start None Daily) = Ok daily) ->
  price_grid daily = true ->
  (forall tickers start end_,
     wide_getitem "Close" (yf_download tickers start (Some end_) Weekly) = Ok weekly) ->
  weekly_grid (T weekly) = true ->
  columns_name weekly = Some "Ticker" ->
  forallb is_str (columns weekly) = true ->
  exists out,
    (main clock py_str requests_get yf_download w).1 = Ok out /\
    merged_table out = true /\
    StronglySorted (fun x y => fval_leb x y = true) (map deviation_of (rows out)).
Proof.
  intros Hsp0 Hdata0 Hsma0 Htable Href Hdaily Hpg Hweekly Hwg Hname Hstr.
  set (sp := DataFrame_of_records (extract_rows (tail (tr_rows table)))) in *.
  (* the reference table is fetched and stored *)
  assert (Hload : load_or_download_sp500_tickers clock requests_get w
                  = (Ok (PFrame sp),
                     (save_to_cache clock (PFrame sp) "sp500_cache.pkl" w).2)).
  { rewrite (loader_miss_world clock requests_get w table);
      rewrite ?(load_from_cache_absent _ _ _ Hsp0); [reflexivity | reflexivity | exact Htable]. }
  set (wA := (save_to_cache clock (PFrame sp) "sp500_cache.pkl" w).2) in *.
  set (wB := {| bucket := bucket wA; tick := S (tick wA) |}).
  assert (HdataB : bucket wB !! _get_blob "data_cache.pkl" = None).
  { unfold wB, wA. rewrite save_to_cache_spec. cbn [snd bucket].
    rewrite !lookup_insert_ne by (intros E; vm_compute in E; discriminate E).
    exact Hdata0. }
  (* the prices are downloaded and stored *)
  pose proof (getitem_ticker_reference sp Href) as Htickers.
  set (tickers := map (fun r : value * list value => cell 0 r.2) (rows sp)) in *.
  set (as_of := clock (tick wA) / day_us - 3).
  assert (Hprices : load_or_download_data clock yf_download (PFrame sp) as_of wB
                    = (Ok (yf_download tickers as_of None Daily),
                       (save_to_cache clock (yf_download tickers as_of None Daily)
                          "data_cache.pkl" wB).2)).
  { rewrite (price_miss clock yf_download (PFrame sp) as_of wB tickers);
      rewrite ?(load_from_cache_absent _ _ _ HdataB); [reflexivity | reflexivity | exact Htickers]. }
  set (wC := (save_to_cache clock (yf_download tickers as_of None Daily)
                "data_cache.pkl" wB).2) in *.
  pose proof (fetch_stock_data_run clock py_str requests_get yf_download w wA wC sp daily
                _ Hload Hprices (Hdaily _ _) Hpg Href) as Hcp.
  set (cp := {| index_name := None; columns_name := None; columns := price_columns;
                rows := merge_sort (row_le true [1; 0]%nat)
                          (range_index (left_join_rows daily sp)) |}) in *.
  assert (Hcp_ok : price_table cp = true) by now apply price_table_left_join.
  (* the moving averages: their cache misses, the reference table is there *)
  assert (HsmaC : bucket wC !! _get_blob "200wma_cache.pkl" = None).
  { unfold wC, wB, wA. rewrite !save_to_cache_spec. cbn [snd bucket].
    rewrite !lookup_insert_ne by (intros E; vm_compute in E; discriminate E).
    exact Hsma0. }
  assert (HspC : bucket wC !! _get_blob "sp500_cache.pkl" = Some (Pickled (PFrame sp))).
  { unfold wC, wB, wA. rewrite !save_to_cache_spec. cbn [snd bucket].
    rewrite !lookup_insert_ne by (intros E; vm_compute in E; discriminate E).
    apply lookup_insert_eq. }
  assert (HmetaC : bucket wC !! _get_metadata_blob "sp500_cache.pkl"
                   = Some (Pickled (PMeta (clock (tick w))))).
  { unfold wC, wB, wA. rewrite !save_to_cache_spec. cbn [snd bucket].
    rewrite !lookup_insert_ne by (intros E; vm_compute in E; discriminate E).
    apply lookup_insert_eq. }
  destruct (loader_consistent_cache wC table _ Htable HspC HmetaC) as [wD HloadC].
  fold sp in HloadC.
  destruct (sma_table_frame weekly Hwg Hname Hstr) as (ma & Hma & _ & Hma_ok).
  pose proof (sma_miss clock requests_get yf_download wC wD (PFrame sp) tickers weekly ma)
    as Hsma.
  rewrite (load_from_cache_absent _ _ _ HsmaC) in Hsma.
  specialize (Hsma eq_refl HloadC Htickers (Hweekly _ _ _) Hma).
  (* the merger *)
  pose proof (inner_join_rows_floats cp ma Hma_ok) as Hfl.
  assert (Hfl2 : forallb (fun r : value * list value => is_float_cell (cell 0 r.2))
                   (merge_sort (row_le true [0%nat])
                      (merge_sort (row_le true [0%nat])
                         (range_index (inner_join_rows cp ma)))) = true).
  { eapply forallb_Permutation;
      [symmetry; apply (merge_sort_Permutation (row_le true [0%nat])) | ].
    eapply forallb_Permutation;
      [symmetry; apply (merge_sort_Permutation (row_le true [0%nat])) | ].
    exact Hfl. }
  eexists. split; [ | split].
  - unfold main, bind. rewrite Hcp, Hsma. unfold lift. cbn [as_frame].
    rewrite (merge_stock_data_run clock py_str cp ma _ Hcp_ok Hma_ok). reflexivity.
  - unfold merged_table. cbn [columns rows].
    change (labels_eqb new_order new_order) with true. exact Hfl2.
  - cbn [rows]. apply (sorted_float_keys 0).
    eapply forallb_Permutation;
      [symmetry; apply (merge_sort_Permutation (row_le true [0%nat])) | exact Hfl].
Qed.

End MainExtras.
(** * The statements on concrete inputs *)




Lemma cache_hit_ignores_as_of_witness :
  load_or_download_data frozen_clock yf_download_X (PFrame reference_X) 19000
    world_with_prices
  = load_or_download_data frozen_clock yf_download_X (PFrame reference_X) 19675
      world_with_prices /\
  (load_or_download_data frozen_clock yf_download_X (PFrame reference_X) 19000
     world_with_prices).1 = Ok (PWide [("Close", daily_closes)]).
Proof.
  apply (cache_hit_ignores_as_of frozen_clock yf_download_X (PFrame reference_X)
           (PWide [("Close", daily_closes)]) world_with_prices 19000 19675).
  reflexivity.
Defined.

Lemma loader_skips_short_rows_witness :
  (load_or_download_sp500_tickers frozen_clock example_requests_get empty_world).1 =
  Ok (PFrame
        {| index_name := None;
           columns_name := None;
           columns := [VStr "Ticker"; VStr "Security"; VStr "Sector"; VStr "Industry"];
           rows := [(VInt 0, [VStr "X"; VStr "CoX"; VStr "Tech"; VStr "Software"]);
                    (VInt 1, [VStr "Y"; VStr "CoY"; VStr "Energy"; VStr "Oil"])] |}).
Proof.
  apply (proj1 (loader_skips_short_rows frozen_clock example_requests_get empty_world
                  {| table_id := Some "constituents";
                     th_texts := ["Symbol"; "Security"; "GICS Sector";
                                  "GICS Sub-Industry"];
                     tr_rows := tr_rows (hd {| table_id := None; th_texts := [];
                                               tr_rows := [] |} example_page) |}
                  []
                  (String.append "X" newline) (String.append "CoX" newline)
                  (String.append "Tech" newline) (String.append "Software" newline)
                  [] "advert" "banner"
                  (String.append "Y" newline) (String.append "CoY" newline)
                  (String.append "Energy" newline) (String.append "Oil" newline)
                  [String.append "extra" newline]
                  eq_refl eq_refl eq_refl)).
Defined.

(** C6 as it is stated fails: on a page whose cells end with a newline, as
    the cells of the real page do, the records do not carry the cells
    verbatim. *)
Lemma loader_cells_not_verbatim :
  (load_from_cache frozen_clock "sp500_cache.pkl" 1 empty_world).1 = Ok None /\
  map (@length string) (tail (tr_rows (hd {| table_id := None; th_texts := [];
                                            tr_rows := [] |} example_page)))
  = [4; 2; 5]%nat /\
  (load_or_download_sp500_tickers frozen_clock example_requests_get empty_world).1 <>
  Ok (PFrame
        (DataFrame_of_records
           [verbatim_record [String.append "X" newline; String.append "CoX" newline;
                             String.append "Tech" newline;
                             String.append "Software" newline];
            verbatim_record [String.append "Y" newline; String.append "CoY" newline;
                             String.append "Energy" newline;
                             String.append "Oil" newline;
                             String.append "extra" newline]])).
Proof.
  split; [reflexivity | ]. split; [reflexivity | ].
  vm_compute. intros H. discriminate H.
Qed.

Lemma sma_of_10_20_30_witness :
  exists out,
    (fetch_200_wk_simple_moving_average_SMA frozen_clock example_requests_get
       yf_download_X empty_world).1 = Ok (PFrame out) /\
    columns out = columns (T close_X) ++ [VStr "200wk_sma"; VStr "% Deviation"] /\
    In (VStr "X", [VFloat (Fin 10); VFloat (Fin 20); VFloat (Fin 30);
                   VFloat (Fin 20); VFloat (Fin 50)]) (rows out).
Proof.
  apply (sma_of_10_20_30 frozen_clock example_requests_get yf_download_X empty_world
           (PFrame
              {| index_name := None;
                 columns_name := None;
                 columns := [VStr "Ticker"; VStr "Security"; VStr "Sector";
                             VStr "Industry"];
                 rows := [(VInt 0, [VStr "X"; VStr "CoX"; VStr "Tech"; VStr "Software"]);
                          (VInt 1, [VStr "Y"; VStr "CoY"; VStr "Energy"; VStr "Oil"])] |})
           [VStr "X"; VStr "Y"] close_X (VStr "X")).
  - reflexivity.
  - vm_compute. reflexivity.
  - reflexivity.
  - intros start_date end_date. reflexivity.
  - reflexivity.
  - left. reflexivity.
Defined.

(** C1 as it is stated fails: for the row [10, 20, 30] the deviation the
    fetcher computes is 50.0 and not 0.0, because the column at index -2 is
    the last weekly close, 30. *)
Lemma sma_deviation_of_10_20_30_is_not_zero :
  (fetch_200_wk_simple_moving_average_SMA frozen_clock example_requests_get
     yf_download_X empty_world).1
  = Ok (PFrame
          {| index_name := Some "Ticker";
             columns_name := Some "Date";
             columns := [VTime 1; VTime 2; VTime 3; VStr "200wk_sma";
                         VStr "% Deviation"];
             rows := [(VStr "X", [VFloat (Fin 10); VFloat (Fin 20); VFloat (Fin 30);
                                  VFloat (Fin 20); VFloat (Fin 50)])] |}) /\
  ~ (exists out,
       (fetch_200_wk_simple_moving_average_SMA frozen_clock example_requests_get
          yf_download_X empty_world).1 = Ok (PFrame out) /\
       In (VStr "X", [VFloat (Fin 10); VFloat (Fin 20); VFloat (Fin 30);
                      VFloat (Fin 20); VFloat (Fin 0)]) (rows out)).
Proof.
  assert (E : (fetch_200_wk_simple_moving_average_SMA frozen_clock
                 example_requests_get yf_download_X empty_world).1
              = Ok (PFrame
                      {| index_name := Some "Ticker";
                         columns_name := Some "Date";
                         columns := [VTime 1; VTime 2; VTime 3; VStr "200wk_sma";
                                     VStr "% Deviation"];
                         rows := [(VStr "X", [VFloat (Fin 10); VFloat (Fin 20);
                                              VFloat (Fin 30); VFloat (Fin 20);
                                              VFloat (Fin 50)])] |}))
    by (vm_compute; reflexivity).
  split; [exact E | ].
  intros (out & Hout & Hin). rewrite E in Hout. injection Hout as <-.
  cbn [rows In] in Hin. destruct Hin as [Hin | []]. discriminate Hin.
Qed.



Lemma merger_is_inner_join_witness :
  exists out,
    (merge_stock_data frozen_clock example_py_str prices_ABC averages_BCD
       empty_world).1 = Ok out /\
    forall s, In s (merged_symbols out) <-> In s [VStr "B"; VStr "C"].
Proof.
  destruct (merger_is_inner_join frozen_clock example_py_str prices_ABC averages_BCD
              empty_world eq_refl eq_refl) as (out & Hout & _ & HBC).
  exists out. split; [exact Hout | ].
  apply HBC; intros s; reflexivity.
Defined.

Lemma merger_columns_and_order_witness :
  exists out,
    (merge_stock_data frozen_clock example_py_str prices_ABC averages_BCD
       empty_world).1 = Ok out /\
    columns out =
      [VStr "% Deviation"; VStr "Ticker"; VStr "Company"; VStr "200 Week SMA";
       VStr "Close"; VStr "Sector"; VStr "Industry"] /\
    Forall (fun r => length r.2 = 7%nat) (rows out) /\
    Forall (fun v => is_float_cell v = true) (merged_deviations out) /\
    StronglySorted (fun x y => fval_leb x y = true)
                   (map as_float (merged_deviations out)).
Proof.
  apply (merger_columns_and_order frozen_clock example_py_str prices_ABC averages_BCD
           empty_world); reflexivity.
Defined.

Lemma fetch_stock_data_uses_current_reference_witness :
  (load_from_cache frozen_clock "data_cache.pkl" 1
     {| bucket := bucket (load_or_download_sp500_tickers frozen_clock
                            (fun _ => page_X) world_with_prices).2;
        tick := S (tick (load_or_download_sp500_tickers frozen_clock
                           (fun _ => page_X) world_with_prices).2) |}).1
  = Ok (Some (PWide [("Close", daily_closes)])) /\
  exists out,
    (fetch_stock_data frozen_clock example_py_str (fun _ => page_X) yf_download_X
       world_with_prices).1 = Ok out /\
    columns out = price_columns /\
    forall e, In e (stack daily_closes) ->
      exists row, In row (rows out) /\
        cell 0 row.2 = e.1.1 /\ cell 1 row.2 = e.1.2 /\ cell 2 row.2 = e.2.
Proof.
  split; [vm_compute; reflexivity | ].
  destruct (fetch_stock_data_uses_current_reference frozen_clock example_py_str
              (fun _ => page_X) yf_download_X world_with_prices
              (load_or_download_sp500_tickers frozen_clock (fun _ => page_X)
                 world_with_prices).2
              (load_or_download_data frozen_clock yf_download_X (PFrame reference_X)
                 (frozen_clock 0 / day_us - 3)
                 {| bucket := bucket (load_or_download_sp500_tickers frozen_clock
                                        (fun _ => page_X) world_with_prices).2;
                    tick := S (tick (load_or_download_sp500_tickers frozen_clock
                                       (fun _ => page_X) world_with_prices).2) |}).2
              reference_X daily_closes (PWide [("Close", daily_closes)]))
    as (out & Hout & Hcols & _ & Hprices).
  - vm_compute. reflexivity.
  - vm_compute. reflexivity.
  - reflexivity.
  - reflexivity.
  - reflexivity.
  - exists out. split; [now rewrite Hout | ]. split; [exact Hcols | exact Hprices].
Defined.

(** ** The further properties on concrete inputs *)

Lemma delete_from_cache_frame_witness :
  bucket (delete_from_cache "j" stale_world).2 !! "k" = bucket stale_world !! "k" /\
  delete_from_cache "k" empty_world = (Ok tt, empty_world).
Proof.
  split.
  - apply (proj1 (delete_from_cache_frame "j" stale_world) "k").
    + vm_compute. discriminate.
    + vm_compute. discriminate.
  - apply (proj2 (delete_from_cache_frame "k" empty_world)).
    + reflexivity.
    + reflexivity.
Defined.


Lemma save_to_cache_frame_witness :
  bucket (save_to_cache frozen_clock (PFrame close_P) "j" stale_world).2 !! "k"
  = bucket stale_world !! "k" /\
  (load_from_cache frozen_clock "k" 2
     (save_to_cache frozen_clock (PFrame close_P) "j" stale_world).2).1
  = (load_from_cache frozen_clock "k" 2
       {| bucket := bucket stale_world; tick := S (tick stale_world) |}).1.
Proof.
  split.
  - apply (proj1 (save_to_cache_frame frozen_clock "j" "k" (PFrame close_P) 2
                    stale_world) "k").
    + vm_compute. discriminate.
    + vm_compute. discriminate.
  - apply (proj2 (save_to_cache_frame frozen_clock "j" "k" (PFrame close_P) 2
                    stale_world)).
    + vm_compute. discriminate.
    + vm_compute. discriminate.
    + vm_compute. discriminate.
    + vm_compute. discriminate.
Defined.

Lemma extract_rows_fields_stripped_witness :
  no_outer_space "X" = true /\ no_outer_space "CoX" = true /\
  no_outer_space "Tech" = true /\ no_outer_space "Software" = true.
Proof.
  apply (extract_rows_fields_stripped
           [ [String.append "X" newline; String.append "CoX" newline;
              String.append "Tech" newline; String.append "Software" newline] ]
           {| Ticker := "X"; Security := "CoX"; Sector := "Tech";
              Industry := "Software" |}).
  left. reflexivity.
Defined.

Lemma extract_rows_clean_row_verbatim_witness :
  extract_rows [ ["X"; "Co X"; "Tech"; "Software"; "extra"] ]
  = [ {| Ticker := "X"; Security := "Co X"; Sector := "Tech";
         Industry := "Software" |} ].
Proof.
  apply (extract_rows_clean_row_verbatim ["X"; "Co X"; "Tech"; "Software"; "extra"] []).
  - cbn [length]. lia.
  - repeat constructor.
Defined.

Lemma loader_hit_skips_fetch_witness :
  (load_or_download_sp500_tickers frozen_clock example_requests_get
     world_with_reference).1 = Ok (PFrame reference_X) /\
  load_or_download_sp500_tickers frozen_clock example_requests_get world_with_reference
  = load_or_download_sp500_tickers frozen_clock (fun _ => empty_page)
      world_with_reference /\
  bucket (load_or_download_sp500_tickers frozen_clock example_requests_get
            world_with_reference).2 = bucket world_with_reference.
Proof.
  apply (loader_hit_skips_fetch frozen_clock example_requests_get
           (fun _ => empty_page) world_with_reference (PFrame reference_X)).
  vm_compute. reflexivity.
Defined.

Lemma loader_write_through_witness :
  (load_or_download_sp500_tickers frozen_clock (fun _ => empty_page)
     (load_or_download_sp500_tickers frozen_clock (fun _ => page_X) empty_world).2).1
  = (load_or_download_sp500_tickers frozen_clock (fun _ => page_X) empty_world).1.
Proof.
  apply (loader_write_through frozen_clock (fun _ => page_X) (fun _ => empty_page)
           empty_world
           {| table_id := Some "constituents";
              th_texts := [];
              tr_rows := [ []; ["X"; "CoX"; "Tech"; "Software"] ] |}).
  - reflexivity.
  - reflexivity.
  - vm_compute. discriminate.
Defined.

Lemma loader_without_table_raises_witness :
  (load_or_download_sp500_tickers frozen_clock (fun _ => empty_page) empty_world).1
  = Raise AttributeError /\
  bucket (load_or_download_sp500_tickers frozen_clock (fun _ => empty_page)
            empty_world).2 = bucket empty_world.
Proof.
  apply (loader_without_table_raises frozen_clock (fun _ => empty_page) empty_world).
  - reflexivity.
  - reflexivity.
Defined.

Lemma loader_all_rows_short_witness :
  (load_or_download_sp500_tickers frozen_clock (fun _ => short_rows_page)
     empty_world).1 = Ok (PFrame empty_frame) /\
  bucket (load_or_download_sp500_tickers frozen_clock (fun _ => short_rows_page)
            empty_world).2
    !! _get_blob "sp500_cache.pkl" = Some (Pickled (PFrame empty_frame)) /\
  column_tolist "Ticker" (PFrame empty_frame) = Raise KeyError.
Proof.
  apply (loader_all_rows_short frozen_clock (fun _ => short_rows_page) empty_world
           {| table_id := Some "constituents";
              th_texts := [];
              tr_rows := [ []; ["advert"; "banner"]; ["X"; "CoX"; "Tech"] ] |}).
  - reflexivity.
  - reflexivity.
  - cbn [tail tr_rows]. repeat (constructor; [cbn [length]; lia | ]). constructor.
Defined.

Lemma price_fetcher_write_through_witness :
  (load_or_download_data frozen_clock yf_download_X (PFrame reference_X) 19000
     empty_world).1 = Ok (yf_download_X [VStr "X"] 19000 None Daily) /\
  (load_or_download_data frozen_clock yf_download_X (PFrame empty_frame) 19675
     (load_or_download_data frozen_clock yf_download_X (PFrame reference_X) 19000
        empty_world).2).1 = Ok (yf_download_X [VStr "X"] 19000 None Daily).
Proof.
  apply (price_fetcher_write_through frozen_clock yf_download_X (PFrame reference_X)
           (PFrame empty_frame) 19000 19675 empty_world [VStr "X"]).
  - reflexivity.
  - reflexivity.
  - vm_compute. discriminate.
Defined.

Lemma price_fetcher_without_tickers_witness :
  (load_or_download_data frozen_clock yf_download_X (PFrame empty_frame) 19000
     empty_world).1 = Raise KeyError /\
  bucket (load_or_download_data frozen_clock yf_download_X (PFrame empty_frame) 19000
            empty_world).2 = bucket empty_world.
Proof.
  apply (price_fetcher_without_tickers frozen_clock yf_download_X (PFrame empty_frame)
           19000 empty_world KeyError).
  - reflexivity.
  - reflexivity.
Defined.

Lemma sma_table_sorted_descending_witness :
  exists out,
    sma_table daily_closes = Ok out /\
    StronglySorted (fun x y => float_key_leb false x y = true) (sma_deviations out).
Proof.
  apply (sma_table_sorted_descending daily_closes). reflexivity.
Defined.

Lemma sma_table_without_weeks_witness :
  sma_table close_no_weeks = Raise IndexError.
Proof.
  apply (sma_table_without_weeks close_no_weeks). reflexivity.
Defined.

Lemma sma_table_missing_latest_close_witness :
  exists out,
    sma_table daily_closes = Ok out /\
    In (VStr "Z", [VFloat (Fin 7); VFloat NaN; VFloat (Fin 7); VFloat NaN]) (rows out).
Proof.
  apply (sma_table_missing_latest_close daily_closes (VStr "Z")
           [VFloat (Fin 7); VFloat NaN]).
  - reflexivity.
  - right. left. reflexivity.
  - reflexivity.
Defined.

Lemma sma_table_is_sma_frame_witness :
  exists out, sma_table close_X = Ok out /\ sma_frame out = true.
Proof.
  apply (sma_table_is_sma_frame close_X); reflexivity.
Defined.

Lemma sma_fetcher_hit_witness :
  (fetch_200_wk_simple_moving_average_SMA frozen_clock example_requests_get
     yf_download_X world_with_averages).1 = Ok (PFrame averages_BCD) /\
  fetch_200_wk_simple_moving_average_SMA frozen_clock example_requests_get
    yf_download_X world_with_averages
  = fetch_200_wk_simple_moving_average_SMA frozen_clock (fun _ => empty_page)
      (fun _ _ _ _ => PMeta 0) world_with_averages /\
  bucket (fetch_200_wk_simple_moving_average_SMA frozen_clock example_requests_get
            yf_download_X world_with_averages).2 = bucket world_with_averages.
Proof.
  apply (sma_fetcher_hit frozen_clock example_requests_get yf_download_X
           (fun _ => empty_page) (fun _ _ _ _ => PMeta 0) world_with_averages
           (PFrame averages_BCD)).
  vm_compute. reflexivity.
Defined.

Lemma merger_write_through_witness :
  exists out cached,
    (merge_stock_data frozen_clock example_py_str prices_ABC averages_BCD
       empty_world).1 = Ok out /\
    bucket (merge_stock_data frozen_clock example_py_str prices_ABC averages_BCD
              empty_world).2
      !! _get_blob "final_merged_data_cache.pkl" = Some (Pickled (PFrame cached)) /\
    columns cached = columns out /\
    Permutation (rows cached) (rows out) /\
    (forall name,
       name <> _get_blob "final_merged_data_cache.pkl" ->
       name <> _get_metadata_blob "final_merged_data_cache.pkl" ->
       bucket (merge_stock_data frozen_clock example_py_str prices_ABC averages_BCD
                 empty_world).2 !! name = bucket empty_world !! name).
Proof.
  apply (merger_write_through frozen_clock example_py_str prices_ABC averages_BCD
           empty_world); reflexivity.
Defined.

Lemma merger_unnamed_index_raises_witness :
  merge_stock_data frozen_clock example_py_str prices_ABC averages_unnamed empty_world
  = (Raise KeyError, empty_world).
Proof.
  apply (merger_unnamed_index_raises frozen_clock example_py_str prices_ABC
           averages_unnamed empty_world); reflexivity.
Defined.

Lemma merger_rows_carry_values_witness :
  exists out,
    (merge_stock_data frozen_clock example_py_str prices_ABC averages_BCD
       empty_world).1 = Ok out /\
    exists row, In row (rows out) /\
      row.2 = [VFloat (Fin 25); VStr "B"; VStr "CoB"; VFloat (Fin 80);
               VFloat (Fin 100); VStr "Energy"; VStr "Oil"].
Proof.
  destruct (merger_rows_carry_values frozen_clock example_py_str prices_ABC
              averages_BCD empty_world eq_refl eq_refl) as (out & Hout & _ & Hrow).
  exists out. split; [exact Hout | ].
  apply (Hrow (VInt 1, [VTime 1; VStr "B"; VFloat (Fin 100); VStr "CoB";
                        VStr "Energy"; VStr "Oil"])
              (VStr "B", [VFloat (Fin 70); VFloat (Fin 90); VFloat (Fin 80);
                          VFloat (Fin 25)])).
  - right. left. reflexivity.
  - left. reflexivity.
  - reflexivity.
Defined.

Lemma merger_row_count_witness :
  exists out,
    (merge_stock_data frozen_clock example_py_str prices_ABC averages_BCD
       empty_world).1 = Ok out /\
    length (rows out) = 2%nat.
Proof.
  destruct (merger_row_count frozen_clock example_py_str prices_ABC averages_BCD
              empty_world eq_refl eq_refl) as (out & Hout & Hlen & _).
  - vm_compute.
    repeat (apply NoDup_cons_2;
            [intros H; repeat (apply elem_of_cons in H as [H | H]; [discriminate H | ]);
             inversion H | ]).
    apply NoDup_nil_2.
  - exists out. split; [exact Hout | ]. rewrite Hlen. reflexivity.
Defined.

Lemma filtered_df_within_bounds_witness :
  exists shown,
    filtered_df (Fin 0) (Fin 30) merged_CBE = Ok shown /\
    rows shown = [(VInt 1, [VFloat (Fin 25); VStr "B"; VStr "CoB"; VFloat (Fin 80);
                            VFloat (Fin 100); VStr "Energy"; VStr "Oil"])].
Proof.
  destruct (filtered_df_within_bounds (Fin 0) (Fin 30) merged_CBE eq_refl)
    as (shown & Hshown & _ & Hrows & _).
  exists shown. split; [exact Hshown | ]. rewrite Hrows. reflexivity.
Defined.

Lemma filtered_df_initial_bounds_witness :
  exists lower upper shown,
    initial_bounds merged_CBE = Ok (lower, upper) /\
    filtered_df lower upper merged_CBE = Ok shown /\
    rows shown = firstn 2 (rows merged_CBE).
Proof.
  destruct (filtered_df_initial_bounds merged_CBE eq_refl)
    as (lower & upper & shown & Hb & Hshown & Hrows).
  exists lower, upper, shown. split; [exact Hb | ]. split; [exact Hshown | ].
  rewrite Hrows. reflexivity.
Defined.

Lemma sma_fetcher_write_through_witness :
  (fetch_200_wk_simple_moving_average_SMA frozen_clock (fun _ => page_X)
     yf_download_X empty_world).1 = Ok (PFrame averages_X) /\
  (fetch_200_wk_simple_moving_average_SMA frozen_clock (fun _ => empty_page)
     (fun _ _ _ _ => PMeta 0)
     (fetch_200_wk_simple_moving_average_SMA frozen_clock (fun _ => page_X)
        yf_download_X empty_world).2).1 = Ok (PFrame averages_X).
Proof.
  apply (sma_fetcher_write_through frozen_clock (fun _ => page_X) yf_download_X
           (fun _ => empty_page) (fun _ _ _ _ => PMeta 0) empty_world
           (load_or_download_sp500_tickers frozen_clock (fun _ => page_X)
              (load_from_cache frozen_clock "200wma_cache.pkl" 1 empty_world).2).2
           (PFrame reference_X) [VStr "X"] close_X averages_X).
  - reflexivity.
  - vm_compute. reflexivity.
  - reflexivity.
  - reflexivity.
  - reflexivity.
  - vm_compute. discriminate.
Defined.

Lemma fetch_stock_data_sorted_witness :
  exists out,
    (fetch_stock_data frozen_clock example_py_str (fun _ => page_X) yf_download_X
       world_with_prices).1 = Ok out /\
    Sorted price_row_le (rows out).
Proof.
  apply (fetch_stock_data_sorted frozen_clock example_py_str (fun _ => page_X)
           yf_download_X world_with_prices
           (load_or_download_sp500_tickers frozen_clock (fun _ => page_X)
              world_with_prices).2
           (load_or_download_data frozen_clock yf_download_X (PFrame reference_X)
              (frozen_clock 0 / day_us - 3)
              {| bucket := bucket (load_or_download_sp500_tickers frozen_clock
                                     (fun _ => page_X) world_with_prices).2;
                 tick := S (tick (load_or_download_sp500_tickers frozen_clock
                                    (fun _ => page_X) world_with_prices).2) |}).2
           reference_X daily_closes (PWide [("Close", daily_closes)])).
  - vm_compute. reflexivity.
  - vm_compute. reflexivity.
  - reflexivity.
  - reflexivity.
  - reflexivity.
Defined.

Lemma fetch_stock_data_is_price_table_witness :
  exists out,
    (fetch_stock_data frozen_clock example_py_str (fun _ => page_X) yf_download_X
       world_with_prices).1 = Ok out /\
    price_table out = true.
Proof.
  apply (fetch_stock_data_is_price_table frozen_clock example_py_str (fun _ => page_X)
           yf_download_X world_with_prices
           (load_or_download_sp500_tickers frozen_clock (fun _ => page_X)
              world_with_prices).2
           (load_or_download_data frozen_clock yf_download_X (PFrame reference_X)
              (frozen_clock 0 / day_us - 3)
              {| bucket := bucket (load_or_download_sp500_tickers frozen_clock
                                     (fun _ => page_X) world_with_prices).2;
                 tick := S (tick (load_or_download_sp500_tickers frozen_clock
                                    (fun _ => page_X) world_with_prices).2) |}).2
           reference_X daily_closes (PWide [("Close", daily_closes)])).
  - vm_compute. reflexivity.
  - vm_compute. reflexivity.
  - reflexivity.
  - reflexivity.
  - reflexivity.
Defined.


Lemma threshold_charts_disjoint_witness :
  exists viz up down,
    viz_df merged_CBE = Ok viz /\
    above_threshold_df (Fin 20) viz = Ok up /\
    below_threshold_df (Fin (-10)) viz = Ok down /\
    (forall r, In r (rows up) -> ~ In r (rows down)).
Proof.
  destruct (threshold_charts_disjoint (Fin 20) (Fin (-10)) merged_CBE eq_refl eq_refl)
    as (viz & up & down & Hviz & Hup & Hdown & _ & _ & Hdis).
  exists viz, up, down. repeat split; assumption.
Defined.

Lemma main_cold_start_witness :
  exists out,
    (main frozen_clock example_py_str (fun _ => page_X) yf_download_daily_weekly
       empty_world).1 = Ok out /\
    merged_table out = true /\
    StronglySorted (fun x y => fval_leb x y = true) (map deviation_of (rows out)).
Proof.
  apply (main_cold_start frozen_clock example_py_str (fun _ => page_X)
           yf_download_daily_weekly empty_world
           {| table_id := Some "constituents";
              th_texts := [];
              tr_rows := [ []; ["X"; "CoX"; "Tech"; "Software"] ] |}
           daily_closes close_X).
  - reflexivity.
  - reflexivity.
  - reflexivity.
  - reflexivity.
  - reflexivity.
  - intros tickers start. reflexivity.
  - reflexivity.
  - intros tickers start end_. reflexivity.
  - reflexivity.
  - reflexivity.
  - reflexivity.
Defined.
